(** * Resource allocation engine: interval conflicts and allocation routes

    Shallow embedding of [backend/utils/conflict.py], the models of
    [backend/models.py] and the two allocating routes of
    [backend/routes/allocations.py], followed by the properties of the
    engine: the overlap predicate, the time validator, the conflict checker
    and the single and batch allocation transactions. *)

From Stdlib Require Import ZArith QArith Lia.
From stdpp Require Import gmap strings list fin_maps pretty.
Local Open Scope Z_scope.

(** ** Instants

    A naive [datetime] is an instant with microsecond resolution; it is
    embedded as the number of microseconds since an arbitrary origin, so
    that comparison of datetimes is comparison of integers and the
    difference of two datetimes (a [timedelta]) is an integer number of
    microseconds. *)

Definition datetime : Type := Z.

Definition timedelta : Type := Z.

(** [timedelta.total_seconds()]: the duration in seconds, as a rational. *)
Definition total_seconds (td : timedelta) : Q := td # 1000000.

(** Rendering of an instant as text ([datetime.isoformat()]) belongs to the
    Python library; the engine only copies its result into conflict
    records, so it is taken as an interface. *)
Class DatetimeFormat : Type := isoformat : datetime → string.

(** ** Models (backend/models.py)

    The columns [created_at] and [allocated_at] are filled in by the clock
    when a row is inserted and are read by none of the functions below;
    they are left out of the records. *)

Module Event.
Record t : Type := mk {
  event_id : Z;
  title : string;
  start_time : datetime;
  end_time : datetime;
  description : option string
}.
End Event.

Module Resource.
Record t : Type := mk {
  resource_id : Z;
  resource_name : string;
  resource_type : string
}.
End Resource.

Module EventResourceAllocation.
Record t : Type := mk {
  allocation_id : Z;
  event_id : Z;
  resource_id : Z
}.
End EventResourceAllocation.

(** The database: one list of rows per table, in storage order. *)
Record db : Type := mkdb {
  events : list Event.t;
  resources : list Resource.t;
  allocations : list EventResourceAllocation.t
}.

(** ** The session monad

    Every function of the engine reads or writes the process-wide
    [db.session]; it is threaded explicitly.  A query autoflushes the rows
    added before it, and [commit] makes them durable, so [session_add]
    appends the row at once.

    The answers 500 of the handlers are not modelled.  The source raises in
    two situations that the functions below do not show: an id outside the
    64-bit range of SQLite integers cannot be bound to a query (the lookups
    and the conflict query below are total, and answer as for an id that
    matches no row), and [create_allocation] renders the event after its
    commit, which fails when the event has an allocation to a missing
    resource.  Properties that assert which answer a route or the checker
    gives carry the hypotheses that exclude these situations
    ([sqlite_integer], [event_resources_resolve]).  The tables are those
    of the model in these situations too: an id that cannot be bound stops
    the handler before any write, and the row committed before a failing
    rendering is the one that [session_add] appends. *)

Definition Session (A : Type) : Type := db → A * db.

#[global] Instance Session_ret : MRet Session := λ A x s, (x, s).

#[global] Instance Session_bind : MBind Session :=
  λ A B k m s, let '(x, s') := m s in k x s'.

(** A read-only query: evaluates [f] on the current tables. *)
Definition query {A : Type} (f : db → A) : Session A := λ s, (f s, s).

(** The key given to a new allocation row: one more than the largest key
    in the table (1 for an empty table), as the database assigns it on
    tables whose keys it has assigned itself. *)
Definition next_allocation_id (s : db) : Z :=
  1 + foldr Z.max 0 (List.map EventResourceAllocation.allocation_id (allocations s)).

(** [db.session.add(EventResourceAllocation(event_id=.., resource_id=..))]. *)
Definition session_add (event_id resource_id : Z) : Session EventResourceAllocation.t :=
  λ s,
    let row := EventResourceAllocation.mk (next_allocation_id s) event_id resource_id in
    (row, mkdb (events s) (resources s) (allocations s ++ [row])).

(** [Event.query.get(event_id)], for an id that can be bound to the query
    ([sqlite_integer]); for another one the source raises. *)
Definition Event_query_get (event_id : Z) : Session (option Event.t) :=
  query (λ s, List.find (λ ev, Event.event_id ev =? event_id) (events s)).

(** [Resource.query.get(resource_id)], with the same domain. *)
Definition Resource_query_get (resource_id : Z) : Session (option Resource.t) :=
  query (λ s, List.find (λ r, Resource.resource_id r =? resource_id) (resources s)).

(** [EventResourceAllocation.query.filter_by(event_id=.., resource_id=..).first()] *)
Definition Allocation_query_first (event_id resource_id : Z)
  : Session (option EventResourceAllocation.t) :=
  query (λ s, List.find
                (λ a, (EventResourceAllocation.event_id a =? event_id)
                      && (EventResourceAllocation.resource_id a =? resource_id))
                (allocations s)).

(** Truth value of an optional JSON integer ([None] and [0] are falsy) and
    of an optional JSON list ([None] and the empty list are falsy). *)
Definition truthy (v : option Z) : bool :=
  match v with
  | Some x => negb (x =? 0)
  | None => false
  end.

Definition truthy_list {A : Type} (v : option (list A)) : bool :=
  match v with
  | Some (_ :: _) => true
  | _ => false
  end.

(** ** backend/utils/conflict.py *)

(** The two time conditions of the conflict query: the stored event starts
    before the candidate's end and ends after the candidate's start. *)
Definition overlaps (ev_start ev_end start_time end_time : datetime) : bool :=
  (ev_start <? end_time) && (ev_end >? start_time).

(** One entry of the list returned by [check_resource_conflict]: either the
    [{"error": ...}] diagnostic or the details of a conflicting event. *)
Inductive conflict_detail : Type :=
| ErrorDetail (error : string)
| ConflictDetail (event_id : Z) (title : string) (start_time end_time : string)
                 (resource_id : Z).

(** [db.session.query(Event, EventResourceAllocation).join(..).filter(..)]:
    the rows of the join on [event_id], restricted to the resource and to
    the events whose range overlaps the candidate's.  The query has no
    [order_by] and the database is free in the order of the rows; here they
    come by event and, for one event, by allocation, and the properties
    below state no order of the rows.  The resource id is a parameter of
    the query: the source raises when it is no [sqlite_integer]. *)
Definition conflict_query (s : db) (resource_id : Z) (start_time end_time : datetime)
  : list (Event.t * EventResourceAllocation.t) :=
  List.filter
    (λ '(event, allocation),
       (EventResourceAllocation.resource_id allocation =? resource_id)
       && overlaps (Event.start_time event) (Event.end_time event) start_time end_time)
    (List.flat_map
       (λ event,
          List.map (pair event)
            (List.filter
               (λ allocation,
                  Event.event_id event =? EventResourceAllocation.event_id allocation)
               (allocations s)))
       (events s)).

(** [if exclude_event_id: query = query.filter(Event.event_id != exclude_event_id)];
    the excluded id is a parameter of the query as well. *)
Definition exclude_filter (exclude_event_id : option Z)
  (rows : list (Event.t * EventResourceAllocation.t))
  : list (Event.t * EventResourceAllocation.t) :=
  if truthy exclude_event_id then
    List.filter
      (λ '(event, _),
         match exclude_event_id with
         | Some x => negb (Event.event_id event =? x)
         | None => true
         end)
      rows
  else rows.

Definition conflict_record {fmt : DatetimeFormat} (resource_id : Z)
  (row : Event.t * EventResourceAllocation.t) : conflict_detail :=
  let '(event, allocation) := row in
  ConflictDetail (Event.event_id event) (Event.title event)
    (isoformat (Event.start_time event)) (isoformat (Event.end_time event))
    resource_id.

Definition check_resource_conflict {fmt : DatetimeFormat} (resource_id : Z)
  (start_time end_time : datetime) (exclude_event_id : option Z)
  : Session (bool * list conflict_detail) :=
  if start_time >=? end_time then
    mret (false, [ErrorDetail "Start time must be before end time"])
  else
    conflicts ← query (λ s, exclude_filter exclude_event_id
                               (conflict_query s resource_id start_time end_time));
    if (length conflicts =? 0)%nat then mret (true, [])
    else mret (false, List.map (conflict_record resource_id) conflicts).

(** The value stored per resource by [check_multiple_resources_conflict]. *)
Record availability : Type := mk_availability {
  is_available : bool;
  conflicts : list conflict_detail
}.

Fixpoint check_multiple_loop {fmt : DatetimeFormat} (resource_ids : list Z)
  (start_time end_time : datetime) (exclude_event_id : option Z)
  (results : gmap Z availability) : Session (gmap Z availability) :=
  match resource_ids with
  | [] => mret results
  | resource_id :: rest =>
      '(is_available, conflicts) ←
        check_resource_conflict resource_id start_time end_time exclude_event_id;
      check_multiple_loop rest start_time end_time exclude_event_id
        (<[resource_id := mk_availability is_available conflicts]> results)
  end.

Definition check_multiple_resources_conflict {fmt : DatetimeFormat} (resource_ids : list Z)
  (start_time end_time : datetime) (exclude_event_id : option Z)
  : Session (gmap Z availability) :=
  check_multiple_loop resource_ids start_time end_time exclude_event_id ∅.

(** [validate_event_time]: the duration in hours is the number of seconds
    divided by 3600.  The source computes it in floating point; both
    roundings are monotone and 86400 and 24 are exact, so the comparison
    with 24 agrees with the one on rationals made here. *)
Definition validate_event_time (start_time end_time : datetime) : bool * option string :=
  if start_time >=? end_time then
    (false, Some "Start time must be before end time"%string)
  else
    let duration := (total_seconds (end_time - start_time)%Z / (3600 # 1))%Q in
    if negb (Qle_bool duration (24 # 1)) then
      (false, Some "Event duration cannot exceed 24 hours"%string)
    else (true, None).

(** ** backend/routes/allocations.py *)

(** JSON body of [POST /api/allocations]. *)
Module AllocationBody.
Record t : Type := mk {
  event_id : option Z;
  resource_id : option Z
}.
End AllocationBody.

(** JSON body of [POST /api/allocations/batch]. *)
Module BatchBody.
Record t : Type := mk {
  event_id : option Z;
  resource_ids : option (list Z)
}.
End BatchBody.

(** The answers of the two routes, by status code and payload. *)
Inductive response : Type :=
| MissingFields                                         (* 400 *)
| EventNotFound (event_id : Z)                          (* 404 *)
| ResourceNotFound (resource_id : Z)                    (* 404 *)
| AlreadyAllocated                                      (* 409 *)
| ConflictDetected (conflicts : list conflict_detail)   (* 409 *)
| BatchConflictDetected (conflicts : gmap Z (list conflict_detail)) (* 409 *)
| Allocated (allocation : EventResourceAllocation.t)
            (event : Event.t) (resource : Resource.t)   (* 201 *)
| BatchAllocated (allocated_resource_ids : list Z).     (* 201 *)

(** The answers 400, 404, 409 and 201 of [create_allocation].  After its
    commit the source renders the new row, the event and the resource;
    [event.to_dict()] follows every allocation row of the event to its
    resource, and fails (answer 500, the row being stored) if one of them
    is missing.  The answer [Allocated] stands for the rendered 201 and is
    the source's answer on tables with [event_resources_resolve]. *)
Definition create_allocation {fmt : DatetimeFormat} (data : AllocationBody.t)
  : Session response :=
  if negb (truthy (AllocationBody.event_id data))
     || negb (truthy (AllocationBody.resource_id data))
  then mret MissingFields
  else
    let event_id := default 0 (AllocationBody.event_id data) in
    let resource_id := default 0 (AllocationBody.resource_id data) in
    event ← Event_query_get event_id;
    match event with
    | None => mret (EventNotFound event_id)
    | Some event =>
        resource ← Resource_query_get resource_id;
        match resource with
        | None => mret (ResourceNotFound resource_id)
        | Some resource =>
            existing_allocation ← Allocation_query_first event_id resource_id;
            match existing_allocation with
            | Some _ => mret AlreadyAllocated
            | None =>
                '(is_available, conflicts) ←
                  check_resource_conflict resource_id
                    (Event.start_time event) (Event.end_time event) None;
                if negb is_available then mret (ConflictDetected conflicts)
                else
                  new_allocation ← session_add event_id resource_id;
                  mret (Allocated new_allocation event resource)
            end
        end
    end.

(** [for res_id, result in conflict_results.items(): ...] *)
Definition conflicts_found_of (conflict_results : gmap Z availability)
  : gmap Z (list conflict_detail) :=
  map_fold
    (λ res_id result conflicts_found,
       if negb (is_available result)
       then <[res_id := conflicts result]> conflicts_found
       else conflicts_found)
    ∅ conflict_results.

(** [for resource_id in resource_ids: ...], the allocating loop. *)
Fixpoint allocate_loop (event_id : Z) (resource_ids : list Z) (allocated : list Z)
  : Session (list Z) :=
  match resource_ids with
  | [] => mret allocated
  | resource_id :: rest =>
      existing ← Allocation_query_first event_id resource_id;
      match existing with
      | Some _ => allocate_loop event_id rest allocated
      | None =>
          allocation ← session_add event_id resource_id;
          allocate_loop event_id rest (allocated ++ [resource_id])
      end
  end.

Definition create_batch_allocations {fmt : DatetimeFormat} (data : BatchBody.t)
  : Session response :=
  if negb (truthy (BatchBody.event_id data))
     || negb (truthy_list (BatchBody.resource_ids data))
  then mret MissingFields
  else
    let event_id := default 0 (BatchBody.event_id data) in
    let resource_ids := default [] (BatchBody.resource_ids data) in
    event ← Event_query_get event_id;
    match event with
    | None => mret (EventNotFound event_id)
    | Some event =>
        conflict_results ←
          check_multiple_resources_conflict resource_ids
            (Event.start_time event) (Event.end_time event) None;
        let conflicts_found := conflicts_found_of conflict_results in
        if negb (size conflicts_found =? 0)%nat
        then mret (BatchConflictDetected conflicts_found)
        else
          allocated ← allocate_loop event_id resource_ids [];
          mret (BatchAllocated allocated)
    end.

(** ** Vocabulary of the properties *)

(** Twenty-four hours, in microseconds. *)
Definition twenty_four_hours : timedelta := 24 * 3600 * 1000000.

(** The event row [event] holds an allocation to the resource: some
    allocation row joins it to [resource_id]. *)
Definition holds_allocation (s : db) (resource_id : Z) (event : Event.t) : Prop :=
  In event (events s)
  ∧ ∃ allocation, In allocation (allocations s)
      ∧ Event.event_id event = EventResourceAllocation.event_id allocation
      ∧ EventResourceAllocation.resource_id allocation = resource_id.

(** No double booking: two different events holding the same resource do
    not overlap in time. *)
Definition no_double_booking (s : db) : Prop :=
  ∀ resource_id event1 event2,
    holds_allocation s resource_id event1 →
    holds_allocation s resource_id event2 →
    event1 ≠ event2 →
    overlaps (Event.start_time event1) (Event.end_time event1)
             (Event.start_time event2) (Event.end_time event2) = false.

(** Constraints declared by the schema of [models.py]: [event_id] is the
    primary key of the event table, and [unique_event_resource] allows one
    allocation row per pair of event and resource. *)
Definition primary_key_unique (s : db) : Prop :=
  NoDup (List.map Event.event_id (events s)).

Definition allocation_key (a : EventResourceAllocation.t) : Z * Z :=
  (EventResourceAllocation.event_id a, EventResourceAllocation.resource_id a).

Definition unique_event_resource (s : db) : Prop :=
  NoDup (List.map allocation_key (allocations s)).

(** Keys of events are assigned by the database, counting from 1; none is 0. *)
Definition event_keys_nonzero (s : db) : Prop :=
  ∀ event, In event (events s) → Event.event_id event ≠ 0.

(** The event is the one named by the optional exclusion. *)
Definition excluded (exclude_event_id : option Z) (event : Event.t) : Prop :=
  exclude_event_id = Some (Event.event_id event).

(** The conflict record of an event, for the resource being checked. *)
Definition record_of {fmt : DatetimeFormat} (resource_id : Z) (event : Event.t)
  : conflict_detail :=
  ConflictDetail (Event.event_id event) (Event.title event)
    (isoformat (Event.start_time event)) (isoformat (Event.end_time event))
    resource_id.

(** The entry stored for a resource by the multi-resource checker. *)
Definition availability_of {fmt : DatetimeFormat}
  (resource_id : Z) (start_time end_time : datetime) (exclude_event_id : option Z)
  (s : db) : availability :=
  let '(is_available, conflicts) :=
    fst (check_resource_conflict resource_id start_time end_time exclude_event_id s) in
  mk_availability is_available conflicts.

(** Number of allocation rows for a pair of event and resource. *)
Definition count_allocations (s : db) (event_id resource_id : Z) : nat :=
  length (List.filter
            (λ a, (EventResourceAllocation.event_id a =? event_id)
                  && (EventResourceAllocation.resource_id a =? resource_id))
            (allocations s)).

(** Calls of the two allocating routes, and sequences of calls that all
    answer 201. *)
Inductive call : Type :=
| Allocate (data : AllocationBody.t)
| AllocateBatch (data : BatchBody.t).

Definition run_call {fmt : DatetimeFormat} (c : call) : Session response :=
  match c with
  | Allocate data => create_allocation data
  | AllocateBatch data => create_batch_allocations data
  end.

Definition succeeded (r : response) : bool :=
  match r with
  | Allocated _ _ _ | BatchAllocated _ => true
  | _ => false
  end.

Inductive successful_calls {fmt : DatetimeFormat} : db → list call → db → Prop :=
| calls_done (s : db) : successful_calls s [] s
| calls_step (s s' s'' : db) (c : call) (r : response) (cs : list call) :
    run_call c s = (r, s') →
    succeeded r = true →
    successful_calls s' cs s'' →
    successful_calls s (c :: cs) s''.

(** ** Further routes *)

(** Answers of the deleting routes. *)
Inductive delete_reply : Type :=
| DeleteNotFound (error : string)      (* 404 *)
| DeleteRefused (error : string)       (* 400 *)
| DeleteDone (message : string).       (* 200 *)

(** *** backend/routes/allocations.py: [delete_allocation] *)

(** [EventResourceAllocation.query.get(allocation_id)], for a key that can
    be bound to the query ([sqlite_integer]). *)
Definition Allocation_query_get (allocation_id : Z)
  : Session (option EventResourceAllocation.t) :=
  query (λ s, List.find
                (λ a, EventResourceAllocation.allocation_id a =? allocation_id)
                (allocations s)).

(** [db.session.delete(allocation)]: the row is deleted by its primary key. *)
Definition session_delete_allocation (allocation : EventResourceAllocation.t)
  : Session unit :=
  λ s,
    (tt,
     mkdb (events s) (resources s)
       (List.filter
          (λ a, negb (EventResourceAllocation.allocation_id a
                      =? EventResourceAllocation.allocation_id allocation))
          (allocations s))).

Definition delete_allocation (allocation_id : Z) : Session delete_reply :=
  allocation ← Allocation_query_get allocation_id;
  match allocation with
  | None => mret (DeleteNotFound "Allocation not found")
  | Some allocation =>
      _ ← session_delete_allocation allocation;
      mret (DeleteDone "Allocation removed successfully")
  end.

(** *** backend/routes/events.py: [delete_event] *)

(** [db.session.delete(event)]: the relationship [Event.allocations] is
    declared with [cascade='all, delete-orphan'], so the allocation rows of
    the event are deleted with it. *)
Definition session_delete_event (event : Event.t) : Session unit :=
  λ s,
    (tt,
     mkdb
       (List.filter (λ ev, negb (Event.event_id ev =? Event.event_id event))
          (events s))
       (resources s)
       (List.filter
          (λ a, negb (EventResourceAllocation.event_id a =? Event.event_id event))
          (allocations s))).

Definition delete_event (event_id : Z) : Session delete_reply :=
  event ← Event_query_get event_id;
  match event with
  | None => mret (DeleteNotFound "Event not found")
  | Some event =>
      _ ← session_delete_event event;
      mret (DeleteDone "Event deleted successfully")
  end.

(** *** backend/routes/resources.py *)

(** [str.lower()].  Strings are byte strings; the letters [A] to [Z] are
    mapped to [a] to [z] and every other byte is kept.  On text outside
    ASCII Python maps further letters, none of them to a letter of the
    three valid type names, so the membership test below and the value
    stored after it are the same. *)
Definition lower_ascii (c : Ascii.ascii) : Ascii.ascii :=
  let n := Ascii.nat_of_ascii c in
  if (65 <=? n)%nat && (n <=? 90)%nat then Ascii.ascii_of_nat (n + 32) else c.

Fixpoint lower (s : string) : string :=
  match s with
  | EmptyString => EmptyString
  | String c rest => String (lower_ascii c) (lower rest)
  end.

Definition valid_types : list string := ["room"; "instructor"; "equipment"]%string.

(** Truth value of an optional JSON string ([None] and the empty string
    are falsy). *)
Definition truthy_string (v : option string) : bool :=
  match v with
  | Some (String _ _) => true
  | _ => false
  end.

(** JSON body of [POST /api/resources] and of [PUT /api/resources/<id>]. *)
Module ResourceBody.
Record t : Type := mk {
  resource_name : option string;
  resource_type : option string
}.
End ResourceBody.

Inductive resource_reply : Type :=
| ResourceBadRequest (error : string)        (* 400 *)
| ResourceNotFoundReply (error : string)     (* 404 *)
| ResourceDuplicate (error : string)         (* 409 *)
| ResourceCreated (resource : Resource.t)    (* 201 *)
| ResourceUpdated (resource : Resource.t).   (* 200 *)

Definition invalid_type_message : string :=
  "Invalid resource_type. Must be one of: room, instructor, equipment".

(** The key given to a new resource row. *)
Definition next_resource_id (s : db) : Z :=
  1 + foldr Z.max 0 (List.map Resource.resource_id (resources s)).

(** [db.session.add(Resource(resource_name=.., resource_type=..))] *)
Definition session_add_resource (resource_name resource_type : string)
  : Session Resource.t :=
  λ s,
    let row := Resource.mk (next_resource_id s) resource_name resource_type in
    (row, mkdb (events s) (resources s ++ [row]) (allocations s)).

(** [Resource.query.filter_by(resource_name=..).first()] *)
Definition Resource_query_by_name (resource_name : string)
  : Session (option Resource.t) :=
  query (λ s, List.find (λ r, String.eqb (Resource.resource_name r) resource_name)
                (resources s)).

Definition create_resource (data : ResourceBody.t) : Session resource_reply :=
  if negb (truthy_string (ResourceBody.resource_name data))
     || negb (truthy_string (ResourceBody.resource_type data))
  then mret (ResourceBadRequest "Missing required fields: resource_name, resource_type")
  else
    let resource_name := default EmptyString (ResourceBody.resource_name data) in
    let resource_type := default EmptyString (ResourceBody.resource_type data) in
    if negb (bool_decide (lower resource_type ∈ valid_types))
    then mret (ResourceBadRequest invalid_type_message)
    else
      existing_resource ← Resource_query_by_name resource_name;
      match existing_resource with
      | Some _ => mret (ResourceDuplicate "Resource with this name already exists")
      | None =>
          new_resource ← session_add_resource resource_name (lower resource_type);
          mret (ResourceCreated new_resource)
      end.

(** [Resource.query.filter(Resource.resource_name == .., Resource.resource_id != ..).first()] *)
Definition Resource_query_other_by_name (resource_name : string) (resource_id : Z)
  : Session (option Resource.t) :=
  query (λ s, List.find
                (λ r, String.eqb (Resource.resource_name r) resource_name
                      && negb (Resource.resource_id r =? resource_id))
                (resources s)).

(** The commit of the attributes assigned to the fetched resource: an
    update of the two columns of the row with its primary key. *)
Definition session_update_resource (resource_id : Z)
  (resource_name resource_type : option string) : Session unit :=
  λ s,
    (tt,
     mkdb (events s)
       (List.map
          (λ r, if Resource.resource_id r =? resource_id
                then Resource.mk (Resource.resource_id r)
                       (default (Resource.resource_name r) resource_name)
                       (default (Resource.resource_type r) resource_type)
                else r)
          (resources s))
       (allocations s)).

(** [update_resource]: the attributes are assigned to the fetched object
    and written by the final [commit]; an answer given before it leaves
    the tables as they were, the session being discarded with the request. *)
Definition update_resource (resource_id : Z) (data : ResourceBody.t)
  : Session resource_reply :=
  resource ← Resource_query_get resource_id;
  match resource with
  | None => mret (ResourceNotFoundReply "Resource not found")
  | Some resource =>
      existing ←
        match ResourceBody.resource_name data with
        | Some resource_name => Resource_query_other_by_name resource_name resource_id
        | None => mret None
        end;
      match existing with
      | Some _ =>
          mret (ResourceDuplicate "Another resource with this name already exists")
      | None =>
          match ResourceBody.resource_type data with
          | Some resource_type =>
              if negb (bool_decide (lower resource_type ∈ valid_types))
              then mret (ResourceBadRequest invalid_type_message)
              else
                _ ← session_update_resource resource_id
                      (ResourceBody.resource_name data) (Some (lower resource_type));
                mret (ResourceUpdated
                        (Resource.mk (Resource.resource_id resource)
                           (default (Resource.resource_name resource)
                              (ResourceBody.resource_name data))
                           (lower resource_type)))
          | None =>
              _ ← session_update_resource resource_id
                    (ResourceBody.resource_name data) None;
              mret (ResourceUpdated
                      (Resource.mk (Resource.resource_id resource)
                         (default (Resource.resource_name resource)
                            (ResourceBody.resource_name data))
                         (Resource.resource_type resource)))
          end
      end
  end.

(** [resource.allocations]: the allocation rows of the resource. *)
Definition Resource_allocations (resource : Resource.t)
  : Session (list EventResourceAllocation.t) :=
  query (λ s, List.filter
                (λ a, EventResourceAllocation.resource_id a
                      =? Resource.resource_id resource)
                (allocations s)).

(** [db.session.delete(resource)], reached when it has no allocation. *)
Definition session_delete_resource (resource : Resource.t) : Session unit :=
  λ s,
    (tt,
     mkdb (events s)
       (List.filter
          (λ r, negb (Resource.resource_id r =? Resource.resource_id resource))
          (resources s))
       (allocations s)).

Definition delete_resource (resource_id : Z) : Session delete_reply :=
  resource ← Resource_query_get resource_id;
  match resource with
  | None => mret (DeleteNotFound "Resource not found")
  | Some resource =>
      resource_allocations ← Resource_allocations resource;
      if negb (length resource_allocations =? 0)%nat
      then mret (DeleteRefused
                   ("Cannot delete resource. It has "
                    +:+ pretty (length resource_allocations)
                    +:+ " active allocation(s). Remove allocations first."))
      else
        _ ← session_delete_resource resource;
        mret (DeleteDone "Resource deleted successfully")
  end.

(** *** backend/routes/reports.py: [conflicts_report] *)

(** One entry of the report: an allocated event, the resource, and the
    events that conflict with it there. *)
Record report_entry : Type := mk_report_entry {
  entry_event_id : Z;
  entry_event_title : string;
  entry_resource_id : Z;
  entry_resource_name : string;
  entry_start_time : string;
  entry_end_time : string;
  entry_conflicting_events : list conflict_detail
}.

Inductive report_reply : Type :=
| ReportDone (conflicts : list report_entry)   (* 200; conflicts_found is the length *)
| ReportFailed (error : string).               (* 500 *)

(** The relationships [allocation.event] and [allocation.resource]: the
    row with the referenced key, [None] when there is none. *)
Definition Allocation_event (allocation : EventResourceAllocation.t)
  : Session (option Event.t) :=
  Event_query_get (EventResourceAllocation.event_id allocation).

Definition Allocation_resource (allocation : EventResourceAllocation.t)
  : Session (option Resource.t) :=
  Resource_query_get (EventResourceAllocation.resource_id allocation).

(** The loop over [all_allocations].  The key [f"{event_id}-{resource_id}"]
    of [checked_pairs] determines the two integers, and is kept as the
    pair.  Reading an attribute of a missing event or resource raises, and
    the route answers 500 with the text of the exception. *)
Fixpoint conflicts_report_loop {fmt : DatetimeFormat}
  (all_allocations : list EventResourceAllocation.t)
  (checked_pairs : gset (Z * Z)) (conflicts : list report_entry)
  : Session (string + list report_entry) :=
  match all_allocations with
  | [] => mret (inr conflicts)
  | allocation :: rest =>
      event ← Allocation_event allocation;
      match event with
      | None => mret (inl "'NoneType' object has no attribute 'event_id'"%string)
      | Some event =>
          let resource_id := EventResourceAllocation.resource_id allocation in
          let pair_key := (Event.event_id event, resource_id) in
          if bool_decide (pair_key ∈ checked_pairs)
          then conflicts_report_loop rest checked_pairs conflicts
          else
            let checked_pairs := {[pair_key]} ∪ checked_pairs in
            '(is_available, conflict_list) ←
              check_resource_conflict resource_id
                (Event.start_time event) (Event.end_time event)
                (Some (Event.event_id event));
            if negb is_available then
              resource ← Allocation_resource allocation;
              match resource with
              | None =>
                  mret (inl "'NoneType' object has no attribute 'resource_name'"%string)
              | Some resource =>
                  conflicts_report_loop rest checked_pairs
                    (conflicts
                     ++ [mk_report_entry (Event.event_id event) (Event.title event)
                           resource_id (Resource.resource_name resource)
                           (isoformat (Event.start_time event))
                           (isoformat (Event.end_time event))
                           conflict_list])
              end
            else conflicts_report_loop rest checked_pairs conflicts
      end
  end.

Definition conflicts_report {fmt : DatetimeFormat} : Session report_reply :=
  all_allocations ← query allocations;
  result ← conflicts_report_loop all_allocations ∅ [];
  match result with
  | inl error => mret (ReportFailed error)
  | inr conflicts => mret (ReportDone conflicts)
  end.

(** ** Vocabulary of the further properties *)

(** The integers that SQLite stores and accepts as query parameters. *)
Definition sqlite_integer (x : Z) : Prop := - 2 ^ 63 <= x < 2 ^ 63.

(** The exclusion as the checker applies it: the event is the one named,
    and the name is not the id 0, which the checker takes for no exclusion. *)
Definition effectively_excluded (exclude_event_id : option Z) (event : Event.t)
  : Prop :=
  exclude_event_id = Some (Event.event_id event) ∧ Event.event_id event ≠ 0.

(** Every allocation row of the event refers to an existing resource, so
    that the event can be rendered with its allocated resources. *)
Definition event_resources_resolve (s : db) (event_id : Z) : Prop :=
  ∀ a, In a (allocations s) →
       EventResourceAllocation.event_id a = event_id →
       ∃ resource, In resource (resources s)
                   ∧ Resource.resource_id resource
                     = EventResourceAllocation.resource_id a.

(** Whether a conflict record names the event [x]. *)
Definition detail_names_event (x : Z) (d : conflict_detail) : bool :=
  match d with
  | ConflictDetail event_id _ _ _ _ => event_id =? x
  | ErrorDetail _ => false
  end.

(** The elements of a list in the order of their first occurrence,
    leaving out those already in [seen]. *)
Fixpoint first_occurrences_from (seen l : list Z) : list Z :=
  match l with
  | [] => []
  | x :: rest =>
      if bool_decide (x ∈ seen) then first_occurrences_from seen rest
      else x :: first_occurrences_from (x :: seen) rest
  end.

Definition first_occurrences (l : list Z) : list Z := first_occurrences_from [] l.

(** Further constraints on the tables: the primary keys of the allocation
    and resource tables, references from allocations to events, and the
    rules the resource routes enforce on names and types. *)
Definition allocation_keys_unique (s : db) : Prop :=
  NoDup (List.map EventResourceAllocation.allocation_id (allocations s)).

Definition event_references_ok (s : db) : Prop :=
  ∀ a, In a (allocations s) →
       ∃ event, In event (events s)
                ∧ Event.event_id event = EventResourceAllocation.event_id a.

Definition resource_references_ok (s : db) : Prop :=
  ∀ a, In a (allocations s) →
       ∃ resource, In resource (resources s)
                   ∧ Resource.resource_id resource
                     = EventResourceAllocation.resource_id a.

Definition resource_keys_unique (s : db) : Prop :=
  NoDup (List.map Resource.resource_id (resources s)).

Definition resource_names_unique (s : db) : Prop :=
  NoDup (List.map Resource.resource_name (resources s)).

Definition resource_types_valid (s : db) : Prop :=
  ∀ r, In r (resources s) → In (Resource.resource_type r) valid_types.

(** The allocation's event resolves and the checker reports its resource
    available for the event's range when the event itself is excluded. *)
Definition allocation_clean {fmt : DatetimeFormat} (s : db)
  (a : EventResourceAllocation.t) : Prop :=
  ∃ ev, List.find (λ ev, Event.event_id ev =? EventResourceAllocation.event_id a)
          (events s) = Some ev
        ∧ fst (fst (check_resource_conflict (EventResourceAllocation.resource_id a)
                      (Event.start_time ev) (Event.end_time ev)
                      (Some (Event.event_id ev)) s)) = true.

(** Requests to the seven mutating routes that are modelled, and the
    tables they leave. *)
Inductive request : Type :=
| PostAllocation (data : AllocationBody.t)
| PostBatchAllocation (data : BatchBody.t)
| DeleteAllocation (allocation_id : Z)
| DeleteEvent (event_id : Z)
| PostResource (data : ResourceBody.t)
| PutResource (resource_id : Z) (data : ResourceBody.t)
| DeleteResource (resource_id : Z).

Definition handle {fmt : DatetimeFormat} (req : request) (s : db) : db :=
  match req with
  | PostAllocation data => snd (create_allocation data s)
  | PostBatchAllocation data => snd (create_batch_allocations data s)
  | DeleteAllocation allocation_id => snd (delete_allocation allocation_id s)
  | DeleteEvent event_id => snd (delete_event event_id s)
  | PostResource data => snd (create_resource data s)
  | PutResource resource_id data => snd (update_resource resource_id data s)
  | DeleteResource resource_id => snd (delete_resource resource_id s)
  end.

Definition handle_all {fmt : DatetimeFormat} (reqs : list request) (s : db) : db :=
  foldl (λ s req, handle req s) s reqs.

(** The constraints kept by every request. *)
Definition consistent (s : db) : Prop :=
  primary_key_unique s
  ∧ unique_event_resource s
  ∧ allocation_keys_unique s
  ∧ event_references_ok s
  ∧ no_double_booking s
  ∧ resource_keys_unique s
  ∧ resource_names_unique s
  ∧ resource_types_valid s.

(** ** Sample data: the scenario of four events and two rooms *)

Definition hour : timedelta := 3600 * 1000000.
Definition minute : timedelta := 60 * 1000000.

Definition sample_format : DatetimeFormat := λ t, pretty t.

Definition event_A : Event.t := Event.mk 1 "A" (10 * hour) (12 * hour) None.
Definition event_B : Event.t := Event.mk 2 "B" (11 * hour) (13 * hour) None.
Definition event_C : Event.t := Event.mk 3 "C" (12 * hour) (13 * hour) None.
Definition event_D : Event.t := Event.mk 4 "D" (9 * hour) (9 * hour + hour / 2) None.

Definition room_R : Resource.t := Resource.mk 1 "R" "room".
Definition room_R2 : Resource.t := Resource.mk 2 "R2" "room".
Definition room_R3 : Resource.t := Resource.mk 3 "R3" "room".

(** [R] is allocated to [A] and [R2] to [B]; [R3] is free. *)
Definition sample_db : db :=
  mkdb [event_A; event_B; event_C; event_D] [room_R; room_R2; room_R3]
       [EventResourceAllocation.mk 1 1 1; EventResourceAllocation.mk 2 2 2].

(** A table in which an event carries the key 0, as a direct insertion
    could produce. *)
Definition event_Z : Event.t := Event.mk 0 "Z" (10 * hour) (12 * hour) None.

Definition zero_key_db : db :=
  mkdb [event_Z] [room_R] [EventResourceAllocation.mk 1 0 1].

(** The sample after [R] is allocated to [C], and after [R], [R2] and [R3]
    are then allocated to [D]. *)
Definition sample_db_C : db :=
  mkdb (events sample_db) (resources sample_db)
       (allocations sample_db ++ [EventResourceAllocation.mk 3 3 1]).

Definition sample_db_CD : db :=
  mkdb (events sample_db) (resources sample_db)
       (allocations sample_db_C
        ++ [EventResourceAllocation.mk 4 4 1; EventResourceAllocation.mk 5 4 2;
            EventResourceAllocation.mk 6 4 3]).

(** Requests used on the sample tables. *)
Definition allocate_C_to_R : AllocationBody.t := AllocationBody.mk (Some 3) (Some 1).
Definition allocate_A_to_R : AllocationBody.t := AllocationBody.mk (Some 1) (Some 1).
Definition batch_C_R_R2 : BatchBody.t := BatchBody.mk (Some 3) (Some [1; 2]).
Definition batch_D_all : BatchBody.t := BatchBody.mk (Some 4) (Some [1; 2; 3]).
Definition batch_A_R_R3 : BatchBody.t := BatchBody.mk (Some 1) (Some [1; 3]).

(** Further requests and tables for the sample. *)
Definition batch_D_repeated : BatchBody.t :=
  BatchBody.mk (Some 4) (Some [1; 2; 2; 3; 1]).

Definition sample_db_D : db :=
  mkdb (events sample_db) (resources sample_db)
       (allocations sample_db
        ++ [EventResourceAllocation.mk 3 4 1; EventResourceAllocation.mk 4 4 2;
            EventResourceAllocation.mk 5 4 3]).

Definition new_lab : ResourceBody.t := ResourceBody.mk (Some "Lab") (Some "ROOM").
Definition retype_R : ResourceBody.t := ResourceBody.mk (Some "R") (Some "Equipment").

Definition sample_requests : list request :=
  [PostAllocation allocate_C_to_R; PostBatchAllocation batch_D_repeated;
   PostAllocation allocate_A_to_R; DeleteAllocation 1; PostResource new_lab;
   PutResource 1 retype_R; DeleteResource 2; DeleteEvent 2; DeleteResource 2].

(** * Properties *)

(** ** The overlap predicate *)

Lemma overlaps_true (a_start a_end b_start b_end : datetime) :
  overlaps a_start a_end b_start b_end = true ↔ a_start < b_end ∧ a_end > b_start.
Proof.
  unfold overlaps.
  rewrite andb_true_iff, Z.ltb_lt, Z.gtb_ltb, Z.ltb_lt. lia.
Qed.

Lemma overlaps_false (a_start a_end b_start b_end : datetime) :
  overlaps a_start a_end b_start b_end = false ↔ b_end <= a_start ∨ a_end <= b_start.
Proof.
  rewrite <- not_true_iff_false, overlaps_true. lia.
Qed.

Lemma overlaps_comm (a_start a_end b_start b_end : datetime) :
  overlaps a_start a_end b_start b_end = overlaps b_start b_end a_start a_end.
Proof.
  destruct (overlaps b_start b_end a_start a_end) eqn:E.
  - apply overlaps_true in E. apply overlaps_true. lia.
  - apply overlaps_false in E. apply overlaps_false. lia.
Qed.

(** Membership in the joined and filtered rows of the conflict query. *)
Lemma in_conflict_query (s : db) (resource_id : Z) (start_time end_time : datetime)
  (event : Event.t) (allocation : EventResourceAllocation.t) :
  In (event, allocation) (conflict_query s resource_id start_time end_time) ↔
  In event (events s) ∧ In allocation (allocations s)
  ∧ Event.event_id event = EventResourceAllocation.event_id allocation
  ∧ EventResourceAllocation.resource_id allocation = resource_id
  ∧ overlaps (Event.start_time event) (Event.end_time event) start_time end_time = true.
Proof.
  unfold conflict_query.
  rewrite filter_In, in_flat_map, andb_true_iff, Z.eqb_eq. split.
  - intros [[ev [Hev Hin]] [Hr Ho]].
    apply in_map_iff in Hin as [a [Heq Ha]].
    inversion Heq; subst ev a; clear Heq.
    apply filter_In in Ha as [Ha Hid]. apply Z.eqb_eq in Hid. tauto.
  - intros (Hev & Ha & Hid & Hr & Ho). split; [|tauto].
    exists event. split; [assumption|].
    apply in_map_iff. exists allocation. split; [reflexivity|].
    apply filter_In. split; [assumption|]. now apply Z.eqb_eq.
Qed.

(** C4. The time test of the conflict query keeps a joined row exactly when
    the stored event starts before the candidate's end and ends after the
    candidate's start ([A.start < B.end] and [A.end > B.start]).  Ranges
    that touch at an endpoint do not overlap; a range containing the other,
    a partial overlap on either side and two equal ranges all overlap. *)
Theorem overlap_test_characterised
  (s : db) (resource_id : Z) (event : Event.t) (allocation : EventResourceAllocation.t)
  (a_start a_end b_start b_end : datetime) :
  (In (event, allocation) (conflict_query s resource_id b_start b_end) ↔
     (In event (events s) ∧ In allocation (allocations s)
      ∧ Event.event_id event = EventResourceAllocation.event_id allocation
      ∧ EventResourceAllocation.resource_id allocation = resource_id)
     ∧ Event.start_time event < b_end ∧ Event.end_time event > b_start)
  ∧ (overlaps a_start a_end b_start b_end = true ↔ a_start < b_end ∧ a_end > b_start)
  ∧ (a_end = b_start ∨ b_end = a_start → overlaps a_start a_end b_start b_end = false)
  ∧ (a_start < a_end → b_start < b_end →
       (a_start <= b_start ∧ b_end <= a_end) ∨ (b_start <= a_start ∧ a_end <= b_end) →
       overlaps a_start a_end b_start b_end = true)
  ∧ (a_start < b_start ∧ b_start < a_end ∧ a_end < b_end →
       overlaps a_start a_end b_start b_end = true)
  ∧ (b_start < a_start ∧ a_start < b_end ∧ b_end < a_end →
       overlaps a_start a_end b_start b_end = true)
  ∧ (a_start < a_end → overlaps a_start a_end a_start a_end = true).
Proof.
  split.
  { rewrite in_conflict_query, overlaps_true. tauto. }
  split; [apply overlaps_true|].
  split; [intros H; apply overlaps_false; lia|].
  repeat split; intros; apply overlaps_true; lia.
Qed.

(** C9. The overlap predicate is symmetric, and a range that ends where
    the other starts does not overlap it. *)
Theorem overlaps_symmetric_adjacent (a_start a_end b_start b_end : datetime) :
  overlaps a_start a_end b_start b_end = overlaps b_start b_end a_start a_end
  ∧ (a_end = b_start → overlaps a_start a_end b_start b_end = false).
Proof.
  split; [apply overlaps_comm|].
  intros ->. apply overlaps_false. lia.
Qed.

(** ** The event time validator *)

Lemma duration_le_24 (td : timedelta) :
  Qle_bool (total_seconds td / (3600 # 1)) (24 # 1) = (td <=? twenty_four_hours).
Proof.
  unfold Qle_bool, total_seconds, Qdiv, Qmult, Qinv, Qnum, Qden.
  change (Z.pos (1000000 * 3600)) with 3600000000.
  change (twenty_four_hours) with 86400000000.
  apply eq_iff_eq_true. rewrite !Z.leb_le. lia.
Qed.

(** C5. [validate_event_time] answers with the invalid-range message when
    the start is not before the end, with the duration message when the
    range is well ordered and longer than 24 hours, and accepts every well
    ordered range of at most 24 hours.  It is a function of the two
    instants alone: run in a session, it reads and changes no table. *)
Theorem validate_event_time_spec (start_time end_time : datetime) :
  (start_time >= end_time →
     validate_event_time start_time end_time
     = (false, Some "Start time must be before end time"%string))
  ∧ (start_time < end_time → end_time - start_time > twenty_four_hours →
     validate_event_time start_time end_time
     = (false, Some "Event duration cannot exceed 24 hours"%string))
  ∧ (start_time < end_time → end_time - start_time <= twenty_four_hours →
     validate_event_time start_time end_time = (true, None))
  ∧ (∀ s s' : db,
       (mret (validate_event_time start_time end_time) : Session _) s
       = (validate_event_time start_time end_time, s)
       ∧ fst ((mret (validate_event_time start_time end_time) : Session _) s)
         = fst ((mret (validate_event_time start_time end_time) : Session _) s')).
Proof.
  unfold validate_event_time. rewrite duration_le_24.
  repeat split.
  - intros H. destruct (Z.geb_spec start_time end_time); [reflexivity|lia].
  - intros H1 H2. destruct (Z.geb_spec start_time end_time); [lia|].
    destruct (Z.leb_spec (end_time - start_time) twenty_four_hours); [lia|reflexivity].
  - intros H1 H2. destruct (Z.geb_spec start_time end_time); [lia|].
    destruct (Z.leb_spec (end_time - start_time) twenty_four_hours); [reflexivity|lia].
Qed.

(** ** The conflict checker *)

Section Checker.
Context {fmt : DatetimeFormat}.

(** The checker only reads: it returns the session it was given, with an
    answer computed from the rows of the conflict query. *)
Lemma check_resource_conflict_run (resource_id : Z) (start_time end_time : datetime)
  (exclude_event_id : option Z) (s : db) :
  check_resource_conflict resource_id start_time end_time exclude_event_id s =
  (if start_time >=? end_time
   then (false, [ErrorDetail "Start time must be before end time"])
   else
     let rows := exclude_filter exclude_event_id
                   (conflict_query s resource_id start_time end_time) in
     if (length rows =? 0)%nat then (true, [])
     else (false, List.map (conflict_record resource_id) rows),
   s).
Proof.
  unfold check_resource_conflict.
  destruct (start_time >=? end_time); [reflexivity|].
  unfold mbind, Session_bind, query. cbn zeta.
  destruct (length _ =? 0)%nat; reflexivity.
Qed.

Lemma in_exclude_filter (exclude_event_id : option Z)
  (rows : list (Event.t * EventResourceAllocation.t))
  (event : Event.t) (allocation : EventResourceAllocation.t) :
  In (event, allocation) (exclude_filter exclude_event_id rows) ↔
  In (event, allocation) rows
  ∧ ∀ x, exclude_event_id = Some x → x ≠ 0 → Event.event_id event ≠ x.
Proof.
  unfold exclude_filter, truthy.
  destruct exclude_event_id as [x|].
  - destruct (Z.eqb_spec x 0) as [->|Hx]; cbn [negb].
    + split; [|tauto]. intros H. split; [assumption|].
      intros y [= <-] Hy. lia.
    + rewrite filter_In, negb_true_iff, Z.eqb_neq. split.
      * intros [H1 H2]. split; [assumption|]. intros y [= <-] _. assumption.
      * intros [H1 H2]. split; [assumption|]. now apply H2.
  - split; [|tauto]. intros H. split; [assumption|]. discriminate.
Qed.

Lemma length_zero_iff_no_member {A : Type} (l : list A) :
  (length l =? 0)%nat = true ↔ ∀ x, ¬ In x l.
Proof.
  destruct l as [|x l]; cbn.
  - split; [intros _ y []|reflexivity].
  - split; [discriminate|]. intros H. exfalso. apply (H x). now left.
Qed.

Lemma NoDup_map_filter {A B : Type} (f : A → B) (P : A → bool) (l : list A) :
  NoDup (List.map f l) → NoDup (List.map f (List.filter P l)).
Proof.
  induction l as [|x l IH]; cbn; [trivial|].
  rewrite NoDup_cons. intros [Hx Hl].
  destruct (P x); cbn; [|auto].
  apply NoDup_cons. split; [|auto].
  rewrite list_elem_of_In in *. intros Hin. apply Hx.
  apply in_map_iff in Hin as [y [Hy Hin]].
  apply filter_In in Hin as [Hin _].
  apply in_map_iff. eauto.
Qed.

(** With a key that is unique in the list, at most one element passes a
    test that fixes the key. *)
Lemma unique_key_filter {A K : Type} (k : A → K) (c : K) (g : A → bool) (l : list A) :
  NoDup (List.map k l) →
  (∀ x, g x = true → k x = c) →
  (length (List.filter g l) <= 1)%nat.
Proof.
  intros Hnd Hg. induction l as [|x l IH]; cbn; [lia|].
  cbn in Hnd. apply NoDup_cons in Hnd as [Hx Hl].
  destruct (g x) eqn:Hgx; [|auto].
  assert (List.filter g l = []) as ->; [|cbn; lia].
  destruct (List.filter g l) as [|y l'] eqn:E; [reflexivity|].
  exfalso. apply Hx. rewrite list_elem_of_In.
  assert (In y (List.filter g l)) as Hy by (rewrite E; now left).
  apply filter_In in Hy as [Hy Hgy].
  apply in_map_iff. exists y. split; [|assumption].
  rewrite (Hg x Hgx), (Hg y Hgy). reflexivity.
Qed.

Lemma primary_key_rows_distinct (evs : list Event.t) :
  NoDup (List.map Event.event_id evs) → NoDup evs.
Proof.
  induction evs as [|ev evs IH]; cbn; [constructor|].
  rewrite !NoDup_cons, !list_elem_of_In. intros [Hx Hl]. split; [|auto].
  intros Hin. apply Hx. now apply in_map.
Qed.

(** Under the schema's constraints every event occurs in at most one row of
    the conflict query. *)
Lemma conflict_query_one_row_per_event (s : db) (resource_id : Z)
  (start_time end_time : datetime) :
  primary_key_unique s → unique_event_resource s →
  NoDup (List.map fst (conflict_query s resource_id start_time end_time)).
Proof.
  unfold primary_key_unique, unique_event_resource, conflict_query.
  intros Hpk Huq. apply primary_key_rows_distinct in Hpk.
  induction (events s) as [|ev evs IH]; cbn [flat_map List.filter List.map];
    [constructor|].
  apply NoDup_cons in Hpk as [Hev Hevs].
  rewrite List.filter_app, List.map_app. apply NoDup_app.
  split; [|split; [|auto]].
  - set (g := λ a, (Event.event_id ev =? EventResourceAllocation.event_id a)
                   && ((EventResourceAllocation.resource_id a =? resource_id)
                       && overlaps (Event.start_time ev) (Event.end_time ev)
                            start_time end_time)).
    assert (Hlen : (length (List.filter g (allocations s)) <= 1)%nat).
    { apply (unique_key_filter allocation_key (Event.event_id ev, resource_id));
        [assumption|].
      intros a. unfold g, allocation_key.
      rewrite !andb_true_iff, !Z.eqb_eq. intros (-> & -> & _). reflexivity. }
    assert (Heq : List.map fst
              (List.filter
                 (λ '(event, allocation),
                    (EventResourceAllocation.resource_id allocation =? resource_id)
                    && overlaps (Event.start_time event) (Event.end_time event)
                         start_time end_time)
                 (List.map (pair ev)
                    (List.filter
                       (λ allocation,
                          Event.event_id ev
                          =? EventResourceAllocation.event_id allocation)
                       (allocations s))))
            = List.map (λ _, ev) (List.filter g (allocations s))).
    { unfold g. clear. induction (allocations s) as [|a l IH]; cbn; [reflexivity|].
      destruct (Event.event_id ev =? EventResourceAllocation.event_id a); cbn;
        [|assumption].
      destruct ((EventResourceAllocation.resource_id a =? resource_id)
                && overlaps _ _ _ _); cbn; [f_equal|]; assumption. }
    rewrite Heq.
    destruct (List.filter g (allocations s)) as [|a [|a' l]]; cbn in *;
      [constructor| |lia].
    apply NoDup_cons. split; [|constructor]. rewrite list_elem_of_In. intros [].
  - intros x Hx1 Hx2. rewrite list_elem_of_In in *.
    apply in_map_iff in Hx1 as [[e1 a1] [<- H1]].
    apply in_map_iff in Hx2 as [[e2 a2] [Heq H2]]. cbn in *. subst e2.
    apply filter_In in H1 as [H1 _]. apply filter_In in H2 as [H2 _].
    apply in_map_iff in H1 as [a [[= <- _] _]].
    apply in_flat_map in H2 as [e [He H2]].
    apply in_map_iff in H2 as [a' [[= -> _] _]].
    apply Hev. assumption.
Qed.

(** The rows kept by the checker are the joined rows of the resource whose
    event overlaps the candidate and is not the excluded one, provided the
    exclusion does not name the key 0 while a stored event carries it. *)
Lemma in_conflict_rows (s : db) (resource_id : Z) (start_time end_time : datetime)
  (exclude_event_id : option Z) (event : Event.t)
  (allocation : EventResourceAllocation.t) :
  (exclude_event_id = Some 0 → event_keys_nonzero s) →
  In (event, allocation)
     (exclude_filter exclude_event_id
        (conflict_query s resource_id start_time end_time)) ↔
  (In event (events s) ∧ In allocation (allocations s)
   ∧ Event.event_id event = EventResourceAllocation.event_id allocation
   ∧ EventResourceAllocation.resource_id allocation = resource_id)
  ∧ ¬ excluded exclude_event_id event
  ∧ overlaps (Event.start_time event) (Event.end_time event) start_time end_time = true.
Proof.
  intros Hnz. rewrite in_exclude_filter, in_conflict_query. unfold excluded. split.
  - intros [(Hev & Ha & Hid & Hr & Ho) Hex]. repeat split; try assumption.
    intros E. destruct (Z.eq_dec (Event.event_id event) 0) as [Hz|Hz].
    + rewrite Hz in E. exact (Hnz E event Hev Hz).
    + exact (Hex _ E Hz eq_refl).
  - intros [(Hev & Ha & Hid & Hr) [Hex Ho]]. repeat split; try assumption.
    intros x -> _ E. apply Hex. now rewrite E.
Qed.

(** Without a condition on the keys: the rows kept are those of the events
    that the exclusion does not name, or names by the id 0. *)
Lemma in_conflict_rows_effective (s : db) (resource_id : Z)
  (start_time end_time : datetime) (exclude_event_id : option Z)
  (event : Event.t) (allocation : EventResourceAllocation.t) :
  In (event, allocation)
     (exclude_filter exclude_event_id
        (conflict_query s resource_id start_time end_time)) ↔
  (In event (events s) ∧ In allocation (allocations s)
   ∧ Event.event_id event = EventResourceAllocation.event_id allocation
   ∧ EventResourceAllocation.resource_id allocation = resource_id)
  ∧ ¬ effectively_excluded exclude_event_id event
  ∧ overlaps (Event.start_time event) (Event.end_time event) start_time end_time = true.
Proof.
  rewrite in_exclude_filter, in_conflict_query. unfold effectively_excluded. split.
  - intros [(Hev & Ha & Hid & Hr & Ho) Hex]. repeat split; try assumption.
    intros [E Hz]. exact (Hex _ E Hz eq_refl).
  - intros [(Hev & Ha & Hid & Hr) [Hex Ho]]. repeat split; try assumption.
    intros x -> Hx E. apply Hex. rewrite E. split; [reflexivity|assumption].
Qed.

Lemma conflict_record_of (resource_id : Z)
  (rows : list (Event.t * EventResourceAllocation.t)) :
  List.map (conflict_record resource_id) rows
  = List.map (record_of resource_id) (List.map fst rows).
Proof.
  rewrite List.map_map. apply List.map_ext. now intros [ev a].
Qed.

(** C7, amended.  For a resource id and an exclusion that are SQLite
    integers, a well ordered range, and tables that satisfy the schema's
    constraints, [check_resource_conflict] reports the resource available
    exactly when no event holding an allocation to it overlaps the range,
    the event named by the exclusion apart when the name is not the id 0;
    the list it returns has one record for each such overlapping event,
    with the event's id, title, start and end and the resource id that was
    checked; and the tables are returned as they were.  An exclusion of the
    id 0 excludes no event, also when a stored event carries that id. *)
Theorem check_resource_conflict_spec (s : db) (resource_id : Z)
  (start_time end_time : datetime) (exclude_event_id : option Z) :
  start_time < end_time →
  sqlite_integer resource_id →
  (∀ x, exclude_event_id = Some x → sqlite_integer x) →
  primary_key_unique s → unique_event_resource s →
  ∃ (available : bool) (evs : list Event.t),
    check_resource_conflict resource_id start_time end_time exclude_event_id s
    = ((available, List.map (record_of resource_id) evs), s)
    ∧ (available = true ↔
       ∀ event, holds_allocation s resource_id event →
                ¬ effectively_excluded exclude_event_id event →
                overlaps (Event.start_time event) (Event.end_time event)
                         start_time end_time = false)
    ∧ NoDup evs
    ∧ (∀ event, In event evs ↔
                holds_allocation s resource_id event
                ∧ ¬ effectively_excluded exclude_event_id event
                ∧ overlaps (Event.start_time event) (Event.end_time event)
                           start_time end_time = true).
Proof.
  intros Hlt _ _ Hpk Huq.
  set (rows := exclude_filter exclude_event_id
                 (conflict_query s resource_id start_time end_time)).
  exists (length rows =? 0)%nat, (List.map fst rows).
  assert (Hrows : ∀ event, In event (List.map fst rows) ↔
            holds_allocation s resource_id event
            ∧ ¬ effectively_excluded exclude_event_id event
            ∧ overlaps (Event.start_time event) (Event.end_time event)
                       start_time end_time = true).
  { intros event. rewrite in_map_iff. unfold holds_allocation. split.
    - intros [[ev a] [<- Hin]]. apply in_conflict_rows_effective in Hin.
      cbn. destruct Hin as [(Hev & Ha & Hid & Hr) [Hex Ho]]. eauto 10.
    - intros [[Hev (a & Ha & Hid & Hr)] [Hex Ho]]. exists (event, a).
      split; [reflexivity|]. apply in_conflict_rows_effective; tauto. }
  split; [|split; [|split; [|exact Hrows]]].
  - rewrite check_resource_conflict_run.
    destruct (Z.geb_spec start_time end_time); [lia|]. fold rows. cbn zeta.
    rewrite <- conflict_record_of.
    destruct rows; reflexivity.
  - rewrite length_zero_iff_no_member. split.
    + intros Hno event Hh Hex. apply not_true_iff_false. intros Ho.
      assert (In event (List.map fst rows)) as Hin by (apply Hrows; tauto).
      apply in_map_iff in Hin as [row [_ Hin]]. exact (Hno row Hin).
    + intros Hall [ev a] Hin.
      assert (Hc : holds_allocation s resource_id ev
                   ∧ ¬ effectively_excluded exclude_event_id ev
                   ∧ overlaps (Event.start_time ev) (Event.end_time ev)
                              start_time end_time = true).
      { apply Hrows. apply in_map_iff. now exists (ev, a). }
      destruct Hc as (Hh & Hex & Ho). rewrite (Hall ev Hh Hex) in Ho. discriminate.
  - unfold rows, exclude_filter.
    destruct (truthy exclude_event_id).
    + apply NoDup_map_filter. now apply conflict_query_one_row_per_event.
    + now apply conflict_query_one_row_per_event.
Qed.

(** C8. When the start is not before the end, the checker answers
    unavailable with the single invalid-range diagnostic, whatever the
    tables hold, and returns them untouched. *)
Theorem check_resource_conflict_invalid_range (resource_id : Z)
  (start_time end_time : datetime) (exclude_event_id : option Z) :
  start_time >= end_time →
  ∀ s s' : db,
    check_resource_conflict resource_id start_time end_time exclude_event_id s
    = ((false, [ErrorDetail "Start time must be before end time"]), s)
    ∧ fst (check_resource_conflict resource_id start_time end_time
             exclude_event_id s)
      = fst (check_resource_conflict resource_id start_time end_time
               exclude_event_id s').
Proof.
  intros Hge s s'. rewrite !check_resource_conflict_run.
  destruct (Z.geb_spec start_time end_time); [split; reflexivity|lia].
Qed.

(** C10. An exclusion of the event id 0 is the same as no exclusion: the
    checker gives the same answer for [exclude_event_id = 0] and for
    [exclude_event_id = None], so an event with the key 0 that overlaps the
    range on the resource is still reported. *)
Theorem exclude_zero_is_no_exclusion (resource_id : Z)
  (start_time end_time : datetime) :
  (∀ s : db,
     check_resource_conflict resource_id start_time end_time (Some 0) s
     = check_resource_conflict resource_id start_time end_time None s)
  ∧ (∀ (s : db) (event : Event.t),
       start_time < end_time →
       Event.event_id event = 0 →
       holds_allocation s resource_id event →
       overlaps (Event.start_time event) (Event.end_time event)
                start_time end_time = true →
       ∃ conflicts,
         check_resource_conflict resource_id start_time end_time (Some 0) s
         = ((false, conflicts), s)
         ∧ In (record_of resource_id event) conflicts).
Proof.
  split; [reflexivity|].
  intros s event Hlt Hid [Hev (a & Ha & Hida & Hr)] Ho.
  rewrite check_resource_conflict_run.
  destruct (Z.geb_spec start_time end_time); [lia|]. cbn zeta.
  unfold exclude_filter. cbn [truthy Z.eqb negb].
  assert (Hin : In (event, a) (conflict_query s resource_id start_time end_time))
    by (apply in_conflict_query; tauto).
  exists (List.map (conflict_record resource_id)
            (conflict_query s resource_id start_time end_time)).
  split.
  - destruct (conflict_query s resource_id start_time end_time);
      [destruct Hin|]. reflexivity.
  - apply in_map_iff. exists (event, a). split; [reflexivity|assumption].
Qed.

End Checker.

(** ** The allocation routes *)

Section Routes.
Context {fmt : DatetimeFormat}.

Lemma check_resource_conflict_reads (resource_id : Z) (start_time end_time : datetime)
  (exclude_event_id : option Z) (s : db) :
  check_resource_conflict resource_id start_time end_time exclude_event_id s
  = (fst (check_resource_conflict resource_id start_time end_time exclude_event_id s), s).
Proof. rewrite check_resource_conflict_run. reflexivity. Qed.

(** A resource reported available has a well ordered candidate range that
    no event holding the resource overlaps. *)
Lemma available_no_overlap (s : db) (resource_id : Z) (start_time end_time : datetime)
  (conflicts : list conflict_detail) :
  fst (check_resource_conflict resource_id start_time end_time None s)
  = (true, conflicts) →
  start_time < end_time
  ∧ ∀ event, holds_allocation s resource_id event →
             overlaps (Event.start_time event) (Event.end_time event)
                      start_time end_time = false.
Proof.
  rewrite check_resource_conflict_run. cbn [fst].
  destruct (Z.geb_spec start_time end_time); [discriminate|]. cbn zeta.
  unfold exclude_filter. cbn [truthy].
  destruct (length _ =? 0)%nat eqn:E; [|discriminate]. intros _.
  split; [assumption|].
  intros event [Hev (a & Ha & Hid & Hr)]. apply not_true_iff_false. intros Ho.
  rewrite length_zero_iff_no_member in E. apply (E (event, a)).
  apply in_conflict_query. tauto.
Qed.

(** An event that already holds the resource makes the checker answer
    unavailable for the event's own range when nothing is excluded. *)
Lemma own_allocation_unavailable (s : db) (resource_id : Z) (event : Event.t) :
  holds_allocation s resource_id event →
  fst (fst (check_resource_conflict resource_id
              (Event.start_time event) (Event.end_time event) None s)) = false.
Proof.
  intros [Hev (a & Ha & Hid & Hr)].
  rewrite check_resource_conflict_run. cbn [fst].
  destruct (Z.geb_spec (Event.start_time event) (Event.end_time event));
    [reflexivity|]. cbn zeta.
  unfold exclude_filter. cbn [truthy].
  destruct (length _ =? 0)%nat eqn:E; [|reflexivity]. exfalso.
  rewrite length_zero_iff_no_member in E. apply (E (event, a)).
  apply in_conflict_query. repeat split; try assumption.
  apply overlaps_true. lia.
Qed.

Lemma check_multiple_loop_spec (resource_ids : list Z) (start_time end_time : datetime)
  (exclude_event_id : option Z) (results : gmap Z availability) (s : db) :
  ∃ m : gmap Z availability,
    check_multiple_loop resource_ids start_time end_time exclude_event_id results s
    = (m, s)
    ∧ ∀ r, (In r resource_ids →
            m !! r = Some (availability_of r start_time end_time exclude_event_id s))
           ∧ (¬ In r resource_ids → m !! r = results !! r).
Proof.
  revert results. induction resource_ids as [|r0 rest IH]; intros results.
  - exists results. split; [reflexivity|]. intros r. split; [intros []|reflexivity].
  - cbn [check_multiple_loop]. unfold mbind, Session_bind.
    rewrite check_resource_conflict_reads.
    destruct (fst (check_resource_conflict r0 start_time end_time exclude_event_id s))
      as [av cs] eqn:E.
    destruct (IH (<[r0 := mk_availability av cs]> results)) as (m & Hm & Hlook).
    exists m. split; [exact Hm|].
    intros r. destruct (Hlook r) as [Hin Hout]. split.
    + intros [<-|Hr]; [|auto].
      destruct (in_dec Z.eq_dec r0 rest) as [Hr|Hr]; [auto|].
      rewrite (Hout Hr), lookup_insert_eq. unfold availability_of. now rewrite E.
    + intros Hr. rewrite Hout by (intros H; apply Hr; now right).
      apply lookup_insert_ne. intros ->. apply Hr. now left.
Qed.

Lemma conflicts_found_of_lookup (conflict_results : gmap Z availability) (r : Z) :
  conflicts_found_of conflict_results !! r
  = conflict_results !! r
    ≫= λ result, if is_available result then None else Some (conflicts result).
Proof.
  unfold conflicts_found_of. revert r.
  apply (map_fold_weak_ind
           (λ (found : gmap Z (list conflict_detail)) (m : gmap Z availability),
              ∀ r, found !! r
                   = m !! r ≫= λ result, if is_available result then None
                                         else Some (conflicts result))).
  - intros r. now rewrite !lookup_empty.
  - intros i x m found Hi IH r.
    destruct (decide (r = i)) as [->|Hne].
    + rewrite lookup_insert_eq. cbn.
      destruct (is_available x); cbn.
      * now rewrite IH, Hi.
      * now rewrite lookup_insert_eq.
    + rewrite (lookup_insert_ne m) by congruence.
      destruct (is_available x); cbn; [apply IH|].
      rewrite lookup_insert_ne by congruence. apply IH.
Qed.

(** The two routes as functions of the tables. *)
Lemma create_allocation_run (data : AllocationBody.t) (s : db) :
  create_allocation data s =
  if negb (truthy (AllocationBody.event_id data))
     || negb (truthy (AllocationBody.resource_id data))
  then (MissingFields, s)
  else
    let event_id := default 0 (AllocationBody.event_id data) in
    let resource_id := default 0 (AllocationBody.resource_id data) in
    match List.find (λ ev, Event.event_id ev =? event_id) (events s) with
    | None => (EventNotFound event_id, s)
    | Some event =>
        match List.find (λ r, Resource.resource_id r =? resource_id) (resources s) with
        | None => (ResourceNotFound resource_id, s)
        | Some resource =>
            match List.find
                    (λ a, (EventResourceAllocation.event_id a =? event_id)
                          && (EventResourceAllocation.resource_id a =? resource_id))
                    (allocations s) with
            | Some _ => (AlreadyAllocated, s)
            | None =>
                let '(is_available, conflicts) :=
                  fst (check_resource_conflict resource_id
                         (Event.start_time event) (Event.end_time event) None s) in
                if negb is_available then (ConflictDetected conflicts, s)
                else
                  let row := EventResourceAllocation.mk
                               (next_allocation_id s) event_id resource_id in
                  (Allocated row event resource,
                   mkdb (events s) (resources s) (allocations s ++ [row]))
            end
        end
    end.
Proof.
  unfold create_allocation.
  destruct (negb _ || negb _); [reflexivity|]. cbn zeta.
  unfold mbind, Session_bind, Event_query_get, Resource_query_get,
    Allocation_query_first, query.
  destruct (List.find _ (events s)) as [event|]; [|reflexivity].
  destruct (List.find _ (resources s)) as [resource|]; [|reflexivity].
  destruct (List.find _ (allocations s)); [reflexivity|].
  rewrite check_resource_conflict_reads.
  destruct (fst (check_resource_conflict _ _ _ None s)) as [[|] cs]; reflexivity.
Qed.

Lemma create_batch_allocations_run (data : BatchBody.t) (s : db) :
  create_batch_allocations data s =
  if negb (truthy (BatchBody.event_id data))
     || negb (truthy_list (BatchBody.resource_ids data))
  then (MissingFields, s)
  else
    let event_id := default 0 (BatchBody.event_id data) in
    let resource_ids := default [] (BatchBody.resource_ids data) in
    match List.find (λ ev, Event.event_id ev =? event_id) (events s) with
    | None => (EventNotFound event_id, s)
    | Some event =>
        let conflicts_found :=
          conflicts_found_of
            (fst (check_multiple_resources_conflict resource_ids
                    (Event.start_time event) (Event.end_time event) None s)) in
        if negb (size conflicts_found =? 0)%nat
        then (BatchConflictDetected conflicts_found, s)
        else
          let '(allocated, s') := allocate_loop event_id resource_ids [] s in
          (BatchAllocated allocated, s')
    end.
Proof.
  unfold create_batch_allocations.
  destruct (negb _ || negb _); [reflexivity|]. cbn zeta.
  unfold mbind, Session_bind, Event_query_get, query.
  destruct (List.find _ (events s)) as [event|]; [|reflexivity].
  unfold check_multiple_resources_conflict.
  destruct (check_multiple_loop_spec (default [] (BatchBody.resource_ids data))
              (Event.start_time event) (Event.end_time event) None ∅ s)
    as (m & -> & _). cbn [fst].
  destruct (negb _); [reflexivity|].
  destruct (allocate_loop _ _ _ s); reflexivity.
Qed.

(** The entries of the conflict mapping built by the batch route: one for
    each requested resource that the checker reports unavailable, holding
    that resource's list. *)
Lemma batch_conflicts_found (resource_ids : list Z) (start_time end_time : datetime)
  (s : db) (r : Z) (cs : list conflict_detail) :
  conflicts_found_of
    (fst (check_multiple_resources_conflict resource_ids start_time end_time None s))
  !! r = Some cs
  ↔ In r resource_ids
    ∧ fst (check_resource_conflict r start_time end_time None s) = (false, cs).
Proof.
  unfold check_multiple_resources_conflict.
  destruct (check_multiple_loop_spec resource_ids start_time end_time None ∅ s)
    as (m & -> & Hm). cbn [fst].
  rewrite conflicts_found_of_lookup.
  destruct (Hm r) as [Hin Hout].
  destruct (in_dec Z.eq_dec r resource_ids) as [Hr|Hr].
  - rewrite (Hin Hr). cbn. unfold availability_of.
    destruct (fst (check_resource_conflict r start_time end_time None s))
      as [[|] cs']; cbn; split; try intros [_ H]; try intros H; try discriminate.
    + inversion H; subst. tauto.
    + inversion H; subst. reflexivity.
  - rewrite (Hout Hr), lookup_empty. cbn. split; [discriminate|tauto].
Qed.

(** The allocating loop only appends rows for the event, each for one of
    the requested resources, and leaves the other tables alone. *)
Lemma allocate_loop_appends (event_id : Z) (resource_ids allocated : list Z) (s : db) :
  ∃ extra,
    snd (allocate_loop event_id resource_ids allocated s)
    = mkdb (events s) (resources s) (allocations s ++ extra)
    ∧ ∀ a, In a extra →
           EventResourceAllocation.event_id a = event_id
           ∧ In (EventResourceAllocation.resource_id a) resource_ids.
Proof.
  revert allocated s. induction resource_ids as [|r rest IH]; intros allocated s.
  - exists []. rewrite app_nil_r. destruct s. split; [reflexivity|intros a []].
  - cbn [allocate_loop]. unfold mbind, Session_bind, Allocation_query_first, query.
    destruct (List.find _ (allocations s)).
    + destruct (IH allocated s) as (extra & Hs & Hextra).
      exists extra. split; [exact Hs|].
      intros a Ha. destruct (Hextra a Ha). split; [assumption|now right].
    + unfold session_add at 1.
      set (row := EventResourceAllocation.mk (next_allocation_id s) event_id r).
      destruct (IH (allocated ++ [r])
                  (mkdb (events s) (resources s) (allocations s ++ [row])))
        as (extra & Hs & Hextra).
      exists (row :: extra). split.
      * rewrite Hs. cbn. now rewrite <- app_assoc.
      * intros a [<-|Ha]; [split; [reflexivity|now left]|].
        destruct (Hextra a Ha). split; [assumption|now right].
Qed.

(** *** Failing batches *)

Lemma create_batch_allocations_conflict (s : db) (data : BatchBody.t)
  (event_id : Z) (resource_ids : list Z) (event : Event.t) :
  BatchBody.event_id data = Some event_id → event_id ≠ 0 →
  BatchBody.resource_ids data = Some resource_ids →
  fst (Event_query_get event_id s) = Some event →
  (∃ r, In r resource_ids
        ∧ fst (fst (check_resource_conflict r (Event.start_time event)
                      (Event.end_time event) None s)) = false) →
  ∃ conflicts_found : gmap Z (list conflict_detail),
    create_batch_allocations data s = (BatchConflictDetected conflicts_found, s)
    ∧ ∀ r cs, conflicts_found !! r = Some cs
              ↔ In r resource_ids
                ∧ fst (check_resource_conflict r (Event.start_time event)
                         (Event.end_time event) None s) = (false, cs).
Proof.
  intros Hid Hnz Hrids Hfind (r & Hr & Hun).
  exists (conflicts_found_of
            (fst (check_multiple_resources_conflict resource_ids
                    (Event.start_time event) (Event.end_time event) None s))).
  split; [|intros r' cs; apply batch_conflicts_found].
  rewrite create_batch_allocations_run, Hid, Hrids. cbn [truthy default from_option id].
  destruct (Z.eqb_spec event_id 0); [contradiction|].
  destruct resource_ids as [|r0 rest]; [destruct Hr|]. cbn [truthy_list negb orb].
  cbn in Hfind. rewrite Hfind. cbn zeta.
  destruct (Nat.eqb_spec
              (size (conflicts_found_of
                       (fst (check_multiple_resources_conflict (r0 :: rest)
                               (Event.start_time event) (Event.end_time event)
                               None s)))) 0) as [Hsize|]; [|reflexivity].
  exfalso. apply map_size_empty_iff in Hsize.
  destruct (fst (check_resource_conflict r (Event.start_time event)
                   (Event.end_time event) None s)) as [av cs] eqn:E.
  cbn in Hun. subst av.
  assert (Hl : conflicts_found_of
                 (fst (check_multiple_resources_conflict (r0 :: rest)
                         (Event.start_time event) (Event.end_time event) None s))
               !! r = Some cs) by (apply batch_conflicts_found; tauto).
  rewrite Hsize, lookup_empty in Hl. discriminate.
Qed.

(** C2. For an event id and resource ids that are SQLite integers, when
    the checker reports one of the requested resources unavailable for the
    event's range, the batch route answers 409 with a mapping that has an
    entry exactly for each requested resource reported unavailable, holding
    that resource's conflict list, and returns the tables unchanged: no
    allocation is added, not even for the resources that were free. *)
Theorem batch_conflict_rejects_whole_batch (s : db) (data : BatchBody.t)
  (event_id : Z) (resource_ids : list Z) (event : Event.t) :
  BatchBody.event_id data = Some event_id → event_id ≠ 0 →
  sqlite_integer event_id →
  BatchBody.resource_ids data = Some resource_ids →
  Forall sqlite_integer resource_ids →
  fst (Event_query_get event_id s) = Some event →
  (∃ r, In r resource_ids
        ∧ fst (fst (check_resource_conflict r (Event.start_time event)
                      (Event.end_time event) None s)) = false) →
  ∃ conflicts_found : gmap Z (list conflict_detail),
    create_batch_allocations data s = (BatchConflictDetected conflicts_found, s)
    ∧ (∀ r cs, conflicts_found !! r = Some cs
               ↔ In r resource_ids
                 ∧ fst (check_resource_conflict r (Event.start_time event)
                          (Event.end_time event) None s) = (false, cs))
    ∧ allocations (snd (create_batch_allocations data s)) = allocations s.
Proof.
  intros Hid Hnz _ Hrids _ Hfind Hex.
  destruct (create_batch_allocations_conflict s data event_id resource_ids event
              Hid Hnz Hrids Hfind Hex) as (m & Hrun & Hm).
  exists m. rewrite Hrun. auto.
Qed.

(** A batch that names a resource the event already holds is rejected: the
    checker, called without an exclusion, finds the event's own allocation. *)
Lemma batch_own_allocation_rejected (s : db) (data : BatchBody.t)
  (event_id : Z) (resource_ids : list Z) (event : Event.t) (r : Z) :
  BatchBody.event_id data = Some event_id → event_id ≠ 0 →
  BatchBody.resource_ids data = Some resource_ids →
  fst (Event_query_get event_id s) = Some event →
  In r resource_ids →
  (∃ a, In a (allocations s) ∧ EventResourceAllocation.event_id a = event_id
        ∧ EventResourceAllocation.resource_id a = r) →
  ∃ conflicts_found : gmap Z (list conflict_detail),
    create_batch_allocations data s = (BatchConflictDetected conflicts_found, s)
    ∧ is_Some (conflicts_found !! r).
Proof.
  intros Hid Hnz Hrids Hfind Hr (a & Ha & Hida & Hra).
  assert (Hheld : holds_allocation s r event).
  { cbn in Hfind. apply find_some in Hfind as [Hev Heq]. apply Z.eqb_eq in Heq.
    split; [assumption|]. exists a. repeat split; congruence. }
  pose proof (own_allocation_unavailable s r event Hheld) as Hun.
  destruct (create_batch_allocations_conflict s data event_id resource_ids event
              Hid Hnz Hrids Hfind) as (m & Hrun & Hm); [eauto|].
  exists m. split; [exact Hrun|].
  destruct (fst (check_resource_conflict r (Event.start_time event)
                   (Event.end_time event) None s)) as [av cs] eqn:E.
  cbn in Hun. subst av. exists cs. apply Hm. rewrite E. auto.
Qed.

(** *** Single allocation *)

Lemma find_app_none {A : Type} (f : A → bool) (l l' : list A) :
  List.find f l = None → List.find f (l ++ l') = List.find f l'.
Proof.
  induction l as [|x l IH]; cbn; [reflexivity|].
  destruct (f x); [discriminate|assumption].
Qed.

Lemma filter_find_none {A : Type} (f : A → bool) (l : list A) :
  List.find f l = None → List.filter f l = [].
Proof.
  induction l as [|x l IH]; cbn; [reflexivity|].
  destruct (f x); [discriminate|assumption].
Qed.

(** What a 201 answer of the single route tells about the call. *)
Lemma create_allocation_success (data : AllocationBody.t) (s s' : db)
  (a : EventResourceAllocation.t) (event : Event.t) (resource : Resource.t) :
  create_allocation data s = (Allocated a event resource, s') →
  let event_id := default 0 (AllocationBody.event_id data) in
  let resource_id := default 0 (AllocationBody.resource_id data) in
  truthy (AllocationBody.event_id data) = true
  ∧ truthy (AllocationBody.resource_id data) = true
  ∧ List.find (λ ev, Event.event_id ev =? event_id) (events s) = Some event
  ∧ List.find (λ r, Resource.resource_id r =? resource_id) (resources s)
    = Some resource
  ∧ List.find (λ a, (EventResourceAllocation.event_id a =? event_id)
                    && (EventResourceAllocation.resource_id a =? resource_id))
      (allocations s) = None
  ∧ (∃ cs, fst (check_resource_conflict resource_id (Event.start_time event)
                  (Event.end_time event) None s) = (true, cs))
  ∧ a = EventResourceAllocation.mk (next_allocation_id s) event_id resource_id
  ∧ s' = mkdb (events s) (resources s) (allocations s ++ [a]).
Proof.
  rewrite create_allocation_run. cbn zeta.
  destruct (truthy (AllocationBody.event_id data)); cbn [negb orb]; [|discriminate].
  destruct (truthy (AllocationBody.resource_id data)); cbn [negb orb];
    [|discriminate].
  destruct (List.find _ (events s)) as [e|]; [|discriminate].
  destruct (List.find _ (resources s)) as [r|]; [|discriminate].
  destruct (List.find _ (allocations s)); [discriminate|].
  destruct (fst (check_resource_conflict _ _ _ None s)) as [[|] cs] eqn:Hc;
    cbn [negb]; [|discriminate].
  intros [= <- <- <- <-]. repeat split; eauto.
Qed.

(** Any other answer of the single route leaves the tables as they were. *)
Lemma create_allocation_cases (data : AllocationBody.t) (s s' : db) (r : response) :
  create_allocation data s = (r, s') →
  (s' = s ∧ succeeded r = false) ∨ ∃ a event resource, r = Allocated a event resource.
Proof.
  rewrite create_allocation_run. cbn zeta.
  destruct (negb _ || negb _); [intros [= <- <-]; now left|].
  destruct (List.find _ (events s)) as [e|]; [|intros [= <- <-]; now left].
  destruct (List.find _ (resources s)) as [res|]; [|intros [= <- <-]; now left].
  destruct (List.find _ (allocations s)); [intros [= <- <-]; now left|].
  destruct (fst (check_resource_conflict _ _ _ None s)) as [[|] cs]; cbn [negb];
    intros [= <- <-]; [right; eauto|now left].
Qed.

(** C6. When an allocation row already exists for the event and the
    resource of a well-formed request whose two ids resolve, the single
    route answers [AlreadyAllocated] and changes nothing; it does so
    although the conflict checker, had it been asked first, would report
    the resource unavailable for the event's own range.  Consequently a
    second identical call after a successful one answers
    [AlreadyAllocated], and exactly one row exists for the pair. *)
Theorem allocate_existing_pair (s : db) (data : AllocationBody.t) :
  (∀ (event_id resource_id : Z) (event : Event.t) (resource : Resource.t),
     AllocationBody.event_id data = Some event_id → event_id ≠ 0 →
     AllocationBody.resource_id data = Some resource_id → resource_id ≠ 0 →
     fst (Event_query_get event_id s) = Some event →
     fst (Resource_query_get resource_id s) = Some resource →
     (∃ a, In a (allocations s)
           ∧ EventResourceAllocation.event_id a = event_id
           ∧ EventResourceAllocation.resource_id a = resource_id) →
     create_allocation data s = (AlreadyAllocated, s)
     ∧ fst (fst (check_resource_conflict resource_id (Event.start_time event)
                   (Event.end_time event) None s)) = false
     ∧ (unique_event_resource s →
        count_allocations s event_id resource_id = 1%nat))
  ∧ (∀ (a : EventResourceAllocation.t) (event : Event.t) (resource : Resource.t)
       (s' : db),
       create_allocation data s = (Allocated a event resource, s') →
       create_allocation data s' = (AlreadyAllocated, s')
       ∧ AllocationBody.event_id data = Some (EventResourceAllocation.event_id a)
       ∧ AllocationBody.resource_id data = Some (EventResourceAllocation.resource_id a)
       ∧ count_allocations s' (EventResourceAllocation.event_id a)
                              (EventResourceAllocation.resource_id a) = 1%nat).
Proof.
  split.
  - intros event_id resource_id event resource Hid Hnz Hrid Hrnz Hev Hres
      (a & Ha & Hae & Har).
    cbn in Hev, Hres. split; [|split].
    + rewrite create_allocation_run, Hid, Hrid. cbn [truthy default from_option id].
      destruct (Z.eqb_spec event_id 0); [contradiction|].
      destruct (Z.eqb_spec resource_id 0); [contradiction|]. cbn [negb orb].
      rewrite Hev, Hres.
      destruct (List.find _ (allocations s)) eqn:Hfind; [reflexivity|].
      exfalso. apply (find_none _ _ Hfind) in Ha.
      rewrite Hae, Har, !Z.eqb_refl in Ha. discriminate.
    + apply own_allocation_unavailable.
      apply find_some in Hev as [Hin Heq]. apply Z.eqb_eq in Heq.
      split; [assumption|]. exists a. repeat split; congruence.
    + intros Huq. unfold count_allocations.
      set (g := λ a0, (EventResourceAllocation.event_id a0 =? event_id)
                      && (EventResourceAllocation.resource_id a0 =? resource_id)).
      assert (Hle : (length (List.filter g (allocations s)) <= 1)%nat).
      { apply (unique_key_filter allocation_key (event_id, resource_id));
          [exact Huq|].
        intros a0. unfold g, allocation_key.
        rewrite andb_true_iff, !Z.eqb_eq. now intros [-> ->]. }
      assert (Hin : In a (List.filter g (allocations s))).
      { apply filter_In. split; [assumption|]. unfold g.
        now rewrite Hae, Har, !Z.eqb_refl. }
      destruct (List.filter g (allocations s)) as [|x [|y l]]; cbn in *;
        [contradiction|reflexivity|lia].
  - intros a event resource s' Hrun.
    apply create_allocation_success in Hrun
      as (Hte & Htr & Hev & Hres & Hnone & _ & Ha & Hs').
    destruct (AllocationBody.event_id data) as [event_id|] eqn:Hde; [|discriminate].
    destruct (AllocationBody.resource_id data) as [resource_id|] eqn:Hdr;
      [|discriminate].
    cbn [default from_option id] in *.
    assert (Hrow : (EventResourceAllocation.event_id a =? event_id)
                   && (EventResourceAllocation.resource_id a =? resource_id) = true)
      by (subst a; cbn; now rewrite !Z.eqb_refl).
    repeat split.
    + rewrite create_allocation_run, Hde, Hdr. cbn [default from_option id].
      rewrite Hte, Htr. cbn [negb orb]. subst s'. cbn [events resources allocations].
      rewrite Hev, Hres, (find_app_none _ _ _ Hnone). cbn [List.find].
      now rewrite Hrow.
    + now subst a.
    + now subst a.
    + unfold count_allocations. subst s'. cbn [allocations].
      rewrite List.filter_app, length_app.
      replace (EventResourceAllocation.event_id a) with event_id by now subst a.
      replace (EventResourceAllocation.resource_id a) with resource_id by now subst a.
      rewrite (filter_find_none _ _ Hnone). cbn [List.filter]. now rewrite Hrow.
Qed.

(** *** Successful batches *)

(** What a 201 answer of the batch route tells about the call. *)
Lemma create_batch_allocations_success (data : BatchBody.t) (s s' : db)
  (allocated : list Z) :
  create_batch_allocations data s = (BatchAllocated allocated, s') →
  let event_id := default 0 (BatchBody.event_id data) in
  let resource_ids := default [] (BatchBody.resource_ids data) in
  ∃ (event : Event.t) (extra : list EventResourceAllocation.t),
    List.find (λ ev, Event.event_id ev =? event_id) (events s) = Some event
    ∧ (∀ r, In r resource_ids →
            ∃ cs, fst (check_resource_conflict r (Event.start_time event)
                         (Event.end_time event) None s) = (true, cs))
    ∧ s' = mkdb (events s) (resources s) (allocations s ++ extra)
    ∧ ∀ a, In a extra →
           EventResourceAllocation.event_id a = event_id
           ∧ In (EventResourceAllocation.resource_id a) resource_ids.
Proof.
  rewrite create_batch_allocations_run. cbn zeta.
  destruct (negb _ || negb _); [discriminate|].
  destruct (List.find _ (events s)) as [event|]; [|discriminate].
  destruct (Nat.eqb_spec
              (size (conflicts_found_of
                       (fst (check_multiple_resources_conflict
                               (default [] (BatchBody.resource_ids data))
                               (Event.start_time event) (Event.end_time event)
                               None s)))) 0) as [Hsize|]; cbn [negb];
    [|discriminate].
  apply map_size_empty_iff in Hsize.
  destruct (allocate_loop_appends (default 0 (BatchBody.event_id data))
              (default [] (BatchBody.resource_ids data)) [] s)
    as (extra & Hs & Hextra).
  destruct (allocate_loop _ _ [] s) as [l s1]. cbn [snd] in Hs.
  intros [= <- <-]. exists event, extra.
  repeat split; try assumption; try (now apply Hextra).
  intros r Hr.
  destruct (fst (check_resource_conflict r (Event.start_time event)
                   (Event.end_time event) None s)) as [[|] cs] eqn:E; [eauto|].
  exfalso.
  assert (Hl : conflicts_found_of
                 (fst (check_multiple_resources_conflict
                         (default [] (BatchBody.resource_ids data))
                         (Event.start_time event) (Event.end_time event) None s))
               !! r = Some cs) by (apply batch_conflicts_found; tauto).
  rewrite Hsize, lookup_empty in Hl. discriminate.
Qed.

(** Any other answer of the batch route leaves the tables as they were. *)
Lemma create_batch_allocations_cases (data : BatchBody.t) (s s' : db) (r : response) :
  create_batch_allocations data s = (r, s') →
  (s' = s ∧ succeeded r = false) ∨ ∃ allocated, r = BatchAllocated allocated.
Proof.
  rewrite create_batch_allocations_run. cbn zeta.
  destruct (negb _ || negb _); [intros [= <- <-]; now left|].
  destruct (List.find _ (events s)) as [event|]; [|intros [= <- <-]; now left].
  destruct (negb _); [intros [= <- <-]; now left|].
  destruct (allocate_loop _ _ [] s). intros [= <- <-]. right. eauto.
Qed.

(** *** No double booking *)

Lemma primary_key_injective (evs : list Event.t) (e1 e2 : Event.t) :
  NoDup (List.map Event.event_id evs) → In e1 evs → In e2 evs →
  Event.event_id e1 = Event.event_id e2 → e1 = e2.
Proof.
  induction evs as [|ev evs IH]; cbn; [intros _ []|].
  rewrite NoDup_cons, list_elem_of_In. intros [Hx Hl] [<-|H1] [<-|H2] Heq.
  - reflexivity.
  - exfalso. apply Hx. rewrite Heq. now apply in_map.
  - exfalso. apply Hx. rewrite <- Heq. now apply in_map.
  - now apply IH.
Qed.

(** Rows added for one event, on resources whose holders do not overlap
    that event, keep the tables free of double booking. *)
Lemma extend_no_double_booking (s : db) (event : Event.t)
  (extra : list EventResourceAllocation.t) :
  primary_key_unique s → no_double_booking s → In event (events s) →
  (∀ a, In a extra →
        EventResourceAllocation.event_id a = Event.event_id event
        ∧ ∀ ev, holds_allocation s (EventResourceAllocation.resource_id a) ev →
                overlaps (Event.start_time ev) (Event.end_time ev)
                         (Event.start_time event) (Event.end_time event) = false) →
  no_double_booking (mkdb (events s) (resources s) (allocations s ++ extra)).
Proof.
  intros Hpk Hndb Hevent Hextra.
  assert (Hcase : ∀ r e,
            holds_allocation (mkdb (events s) (resources s) (allocations s ++ extra))
              r e →
            holds_allocation s r e
            ∨ (e = event
               ∧ ∀ ev, holds_allocation s r ev →
                       overlaps (Event.start_time ev) (Event.end_time ev)
                         (Event.start_time event) (Event.end_time event) = false)).
  { intros r e [He (a & Ha & Hid & Hr)]. cbn [events allocations] in *.
    apply in_app_or in Ha as [Ha|Ha].
    - left. split; [assumption|]. eauto.
    - right. destruct (Hextra a Ha) as [Hida Hno]. split.
      + apply (primary_key_injective (events s)); [assumption..|congruence].
      + now rewrite <- Hr. }
  intros r e1 e2 H1 H2 Hne.
  destruct (Hcase r e1 H1) as [Hold1|[-> Hnew1]],
           (Hcase r e2 H2) as [Hold2|[-> Hnew2]].
  - now apply (Hndb r).
  - now apply Hnew2.
  - rewrite overlaps_comm. now apply Hnew1.
  - contradiction.
Qed.

(** Each call of either route keeps the event table and the invariant. *)
Lemma run_call_preserves (c : call) (s s' : db) (r : response) :
  run_call c s = (r, s') →
  primary_key_unique s → no_double_booking s →
  events s' = events s ∧ no_double_booking s'.
Proof.
  intros Hrun Hpk Hndb. destruct c as [data|data]; cbn [run_call] in Hrun.
  - destruct (create_allocation_cases _ _ _ _ Hrun) as [[-> _]|(a & ev & res & ->)];
      [auto|].
    apply create_allocation_success in Hrun
      as (_ & _ & Hev & _ & _ & [cs Hc] & Ha & ->).
    split; [reflexivity|].
    apply find_some in Hev as [Hin Heq]. apply Z.eqb_eq in Heq.
    apply available_no_overlap in Hc as [_ Hno].
    apply (extend_no_double_booking s ev); [assumption..|].
    intros a' [<-|[]]. subst a. cbn. auto.
  - destruct (create_batch_allocations_cases _ _ _ _ Hrun) as [[-> _]|(l & ->)];
      [auto|].
    apply create_batch_allocations_success in Hrun
      as (ev & extra & Hev & Hfree & -> & Hextra).
    split; [reflexivity|].
    apply find_some in Hev as [Hin Heq]. apply Z.eqb_eq in Heq.
    apply (extend_no_double_booking s ev); [assumption..|].
    intros a Ha. destruct (Hextra a Ha) as [Hid Hr]. split; [congruence|].
    destruct (Hfree _ Hr) as [cs Hc].
    apply available_no_overlap in Hc as [_ Hno]. exact Hno.
Qed.

(** C1. Starting from tables in which no resource is double booked (and
    whose event keys are unique, as the schema requires), every sequence
    of successful single and batch allocations ends in tables in which,
    for every resource, the events holding an allocation to it are
    pairwise non-overlapping. *)
Theorem no_double_booking_invariant (s s' : db) (cs : list call) :
  primary_key_unique s → no_double_booking s →
  successful_calls s cs s' →
  no_double_booking s'.
Proof.
  intros Hpk Hndb Hcalls.
  induction Hcalls as [s|s s1 s2 c r cs Hrun Hok Hrest IH]; [assumption|].
  destruct (run_call_preserves c s s1 r Hrun Hpk Hndb) as [Hev Hndb1].
  apply IH; [|assumption].
  unfold primary_key_unique. now rewrite Hev.
Qed.

End Routes.

(** * Further properties *)

(** ** More on the conflict checker *)

Section CheckerMore.
Context {fmt : DatetimeFormat}.

Lemma filter_map_commute {A B : Type} (f : A → B) (P : B → bool) (l : list A) :
  List.filter P (List.map f l) = List.map f (List.filter (λ x, P (f x)) l).
Proof.
  induction l as [|x l IH]; cbn; [reflexivity|].
  destruct (P (f x)); cbn; now rewrite IH.
Qed.

Lemma conflicts_of_rows (resource_id : Z)
  (rows : list (Event.t * EventResourceAllocation.t)) :
  (if (length rows =? 0)%nat
   then (true, [])
   else (false, List.map (conflict_record resource_id) rows))
  = ((length rows =? 0)%nat, List.map (conflict_record resource_id) rows).
Proof. destruct rows; reflexivity. Qed.

(** X1. For ids that are SQLite integers, an exclusion of a non-zero event
    id removes the records of that event from the checker's list and
    nothing else, whatever the range; hence a resource that is available
    without the exclusion is available with it. *)
Theorem exclusion_removes_only_that_event (resource_id : Z)
  (start_time end_time : datetime) (x : Z) (s : db) :
  sqlite_integer resource_id → sqlite_integer x →
  x ≠ 0 →
  snd (fst (check_resource_conflict resource_id start_time end_time (Some x) s))
  = List.filter (λ d, negb (detail_names_event x d))
      (snd (fst (check_resource_conflict resource_id start_time end_time None s)))
  ∧ (fst (fst (check_resource_conflict resource_id start_time end_time None s)) = true →
     fst (fst (check_resource_conflict resource_id start_time end_time (Some x) s))
     = true).
Proof.
  intros _ _ Hx. rewrite !check_resource_conflict_run. cbn [fst snd].
  destruct (start_time >=? end_time); [split; [reflexivity|discriminate]|].
  cbn zeta. rewrite !conflicts_of_rows. cbn [fst snd].
  unfold exclude_filter. cbn [truthy].
  destruct (Z.eqb_spec x 0); [contradiction|]. cbn [negb].
  set (rows := conflict_query s resource_id start_time end_time). split.
  - rewrite filter_map_commute. f_equal.
    apply List.filter_ext. now intros [ev a].
  - destruct rows as [|row rows]; [reflexivity|discriminate].
Qed.

Lemma check_multiple_lookup (resource_ids : list Z)
  (start_time end_time : datetime) (exclude_event_id : option Z) (s : db) :
  ∃ results : gmap Z availability,
    check_multiple_resources_conflict resource_ids start_time end_time
      exclude_event_id s = (results, s)
    ∧ ∀ r, results !! r
           = if bool_decide (r ∈ resource_ids)
             then Some (availability_of r start_time end_time exclude_event_id s)
             else None.
Proof.
  unfold check_multiple_resources_conflict.
  destruct (check_multiple_loop_spec resource_ids start_time end_time
              exclude_event_id ∅ s) as (m & Hrun & Hm).
  exists m. split; [exact Hrun|].
  intros r. destruct (Hm r) as [Hin Hout]. case_bool_decide as Hr.
  - apply Hin. now apply list_elem_of_In.
  - rewrite Hout, lookup_empty; [reflexivity|]. now rewrite <- list_elem_of_In.
Qed.

(** X2. For requested ids and an exclusion that are SQLite integers, the
    multi-resource checker returns the tables unchanged and a dictionary
    whose keys are exactly the requested ids, a repeated id giving one key;
    the entry of an id is the answer of the single checker for it. *)
Theorem check_multiple_resources_conflict_spec (resource_ids : list Z)
  (start_time end_time : datetime) (exclude_event_id : option Z) (s : db) :
  Forall sqlite_integer resource_ids →
  (∀ x, exclude_event_id = Some x → sqlite_integer x) →
  ∃ results : gmap Z availability,
    check_multiple_resources_conflict resource_ids start_time end_time
      exclude_event_id s = (results, s)
    ∧ dom results = list_to_set resource_ids
    ∧ ∀ r, results !! r
           = if bool_decide (r ∈ resource_ids)
             then Some (availability_of r start_time end_time exclude_event_id s)
             else None.
Proof.
  intros _ _.
  destruct (check_multiple_lookup resource_ids start_time end_time
              exclude_event_id s) as (m & Hrun & Hlook).
  exists m. split; [exact Hrun|].
  split; [|exact Hlook].
  apply set_eq. intros r. rewrite elem_of_dom, elem_of_list_to_set, Hlook.
  case_bool_decide; split; intros H'; try assumption; try contradiction.
  - eauto.
  - destruct H'; discriminate.
Qed.

(** X3. A range accepted by [validate_event_time] is well ordered and at
    most 24 hours long, and the checker never answers it with the
    invalid-range diagnostic: every entry of its list is the record of a
    stored event that holds the resource and overlaps the range. *)
Theorem validated_range_gets_conflict_records (start_time end_time : datetime) :
  validate_event_time start_time end_time = (true, None) →
  start_time < end_time
  ∧ end_time - start_time <= twenty_four_hours
  ∧ ∀ (resource_id : Z) (exclude_event_id : option Z) (s : db) (d : conflict_detail),
      In d (snd (fst (check_resource_conflict resource_id start_time end_time
                        exclude_event_id s))) →
      ∃ event, holds_allocation s resource_id event
               ∧ overlaps (Event.start_time event) (Event.end_time event)
                          start_time end_time = true
               ∧ d = record_of resource_id event.
Proof.
  unfold validate_event_time. rewrite duration_le_24.
  destruct (Z.geb_spec start_time end_time) as [|Hlt]; [discriminate|].
  destruct (Z.leb_spec (end_time - start_time) twenty_four_hours) as [Hle|];
    [|discriminate].
  intros _. split; [assumption|]. split; [assumption|].
  intros resource_id exclude_event_id s d.
  rewrite check_resource_conflict_run.
  destruct (Z.geb_spec start_time end_time); [lia|]. cbn zeta.
  rewrite conflicts_of_rows. cbn [fst snd].
  rewrite in_map_iff. intros [[ev a] [<- Hin]].
  apply in_exclude_filter in Hin as [Hin _].
  apply in_conflict_query in Hin as (Hev & Ha & Hid & Hr & Ho).
  exists ev. split; [split; eauto|]. split; [assumption|reflexivity].
Qed.

End CheckerMore.

(** ** Requests rejected before any conflict check *)

Section EarlyRejections.
Context {fmt : DatetimeFormat}.

(** X4. Both allocating routes answer 400 when an id is absent or is 0, and
    the batch route also when the list is absent or empty.  With ids
    present, an event id that is an SQLite integer and does not resolve is
    answered 404 whatever the resource ids are, and in the single route a
    resource id that is an SQLite integer and does not resolve is answered
    404 once the event resolves.  None of these answers changes the
    tables. *)
Theorem allocation_requests_rejected_early (s : db) :
  (∀ data : AllocationBody.t,
     AllocationBody.event_id data = None ∨ AllocationBody.event_id data = Some 0
     ∨ AllocationBody.resource_id data = None
     ∨ AllocationBody.resource_id data = Some 0 →
     create_allocation data s = (MissingFields, s))
  ∧ (∀ (data : AllocationBody.t) (event_id resource_id : Z),
       AllocationBody.event_id data = Some event_id → event_id ≠ 0 →
       AllocationBody.resource_id data = Some resource_id → resource_id ≠ 0 →
       sqlite_integer event_id →
       (fst (Event_query_get event_id s) = None →
        create_allocation data s = (EventNotFound event_id, s))
       ∧ (sqlite_integer resource_id →
          is_Some (fst (Event_query_get event_id s)) →
          fst (Resource_query_get resource_id s) = None →
          create_allocation data s = (ResourceNotFound resource_id, s)))
  ∧ (∀ data : BatchBody.t,
       BatchBody.event_id data = None ∨ BatchBody.event_id data = Some 0
       ∨ BatchBody.resource_ids data = None ∨ BatchBody.resource_ids data = Some [] →
       create_batch_allocations data s = (MissingFields, s))
  ∧ (∀ (data : BatchBody.t) (event_id : Z) (resource_ids : list Z),
       BatchBody.event_id data = Some event_id → event_id ≠ 0 →
       BatchBody.resource_ids data = Some resource_ids → resource_ids ≠ [] →
       sqlite_integer event_id →
       fst (Event_query_get event_id s) = None →
       create_batch_allocations data s = (EventNotFound event_id, s)).
Proof.
  split; [|split; [|split]].
  - intros data H. rewrite create_allocation_run.
    destruct H as [-> | [-> | [-> | ->]]]; cbn [truthy Z.eqb negb orb];
      try reflexivity; now rewrite orb_true_r.
  - intros data event_id resource_id Hid Hnz Hrid Hrnz _.
    rewrite create_allocation_run, Hid, Hrid. cbn [truthy default from_option id].
    destruct (Z.eqb_spec event_id 0); [contradiction|].
    destruct (Z.eqb_spec resource_id 0); [contradiction|]. cbn [negb orb].
    cbn [Event_query_get Resource_query_get query fst]. split.
    + now intros ->.
    + intros _ [ev ->] ->. reflexivity.
  - intros data H. rewrite create_batch_allocations_run.
    destruct H as [-> | [-> | [-> | ->]]]; cbn [truthy truthy_list Z.eqb negb orb];
      try reflexivity; now rewrite orb_true_r.
  - intros data event_id resource_ids Hid Hnz Hrids Hne _ Hev.
    rewrite create_batch_allocations_run, Hid, Hrids.
    cbn [truthy default from_option id].
    destruct (Z.eqb_spec event_id 0); [contradiction|].
    destruct resource_ids as [|r rest]; [contradiction|].
    cbn [truthy_list negb orb]. cbn in Hev. now rewrite Hev.
Qed.

End EarlyRejections.

(** ** More on the allocating routes *)

(** The key of a new allocation row is larger than the keys in use, hence
    new. *)
Lemma max_key_bound (l : list Z) (x : Z) : In x l → x <= foldr Z.max 0 l.
Proof.
  induction l as [|y l IH]; cbn; [intros []|]. intros [->|H]; [lia|].
  specialize (IH H). lia.
Qed.

Lemma next_allocation_id_fresh (s : db) (a : EventResourceAllocation.t) :
  In a (allocations s) →
  EventResourceAllocation.allocation_id a < next_allocation_id s.
Proof.
  intros Ha. unfold next_allocation_id.
  pose proof (max_key_bound
                (List.map EventResourceAllocation.allocation_id (allocations s))
                (EventResourceAllocation.allocation_id a)
                (in_map _ _ _ Ha)). lia.
Qed.

Lemma next_key_absent (s : db) :
  ¬ In (next_allocation_id s)
       (List.map EventResourceAllocation.allocation_id (allocations s)).
Proof.
  intros Hin. apply in_map_iff in Hin as [a [Hid Ha]].
  pose proof (next_allocation_id_fresh s a Ha). lia.
Qed.

Section RoutesMore.
Context {fmt : DatetimeFormat}.

(** Availability without an exclusion, in terms of the tables. *)
Lemma available_iff (s : db) (resource_id : Z) (start_time end_time : datetime) :
  fst (fst (check_resource_conflict resource_id start_time end_time None s)) = true
  ↔ start_time < end_time
    ∧ ∀ event, holds_allocation s resource_id event →
               overlaps (Event.start_time event) (Event.end_time event)
                        start_time end_time = false.
Proof.
  split.
  - intros H.
    destruct (fst (check_resource_conflict resource_id start_time end_time None s))
      as [av cs] eqn:E.
    cbn in H. subst av. now apply available_no_overlap in E.
  - intros [Hlt Hno]. rewrite check_resource_conflict_run. cbn [fst].
    destruct (Z.geb_spec start_time end_time); [lia|]. cbn zeta.
    unfold exclude_filter. cbn [truthy].
    destruct (conflict_query s resource_id start_time end_time) as [|[ev a] rows] eqn:E;
      [reflexivity|]. exfalso.
    assert (Hin : In (ev, a) (conflict_query s resource_id start_time end_time))
      by (rewrite E; now left).
    apply in_conflict_query in Hin as (Hev & Ha & Hid & Hr & Ho).
    rewrite Hno in Ho; [discriminate|]. split; eauto.
Qed.

Lemma find_pair_none_count (s : db) (event_id resource_id : Z) :
  List.find (λ a, (EventResourceAllocation.event_id a =? event_id)
                  && (EventResourceAllocation.resource_id a =? resource_id))
    (allocations s) = None
  ↔ count_allocations s event_id resource_id = 0%nat.
Proof.
  unfold count_allocations.
  induction (allocations s) as [|a l IH]; cbn; [tauto|].
  destruct ((EventResourceAllocation.event_id a =? event_id)
            && (EventResourceAllocation.resource_id a =? resource_id)); cbn;
    [split; discriminate|exact IH].
Qed.

(** X5. For a request whose two ids are non-zero SQLite integers and
    resolve, and an event whose allocation rows all refer to existing
    resources, the single route answers 201 exactly when no row exists for
    the pair, the event's range is well ordered and no event holding the
    resource overlaps it.  It then appends one row for that pair, with a
    key that no row had, and returns it with the event and the resource;
    after any other answer the tables are as before. *)
Theorem allocation_succeeds_iff (s : db) (data : AllocationBody.t)
  (event_id resource_id : Z) (event : Event.t) (resource : Resource.t) :
  AllocationBody.event_id data = Some event_id → event_id ≠ 0 →
  AllocationBody.resource_id data = Some resource_id → resource_id ≠ 0 →
  sqlite_integer event_id → sqlite_integer resource_id →
  fst (Event_query_get event_id s) = Some event →
  fst (Resource_query_get resource_id s) = Some resource →
  event_resources_resolve s event_id →
  (succeeded (fst (create_allocation data s)) = true
   ↔ count_allocations s event_id resource_id = 0%nat
     ∧ Event.start_time event < Event.end_time event
     ∧ ∀ other, holds_allocation s resource_id other →
                overlaps (Event.start_time other) (Event.end_time other)
                         (Event.start_time event) (Event.end_time event) = false)
  ∧ (succeeded (fst (create_allocation data s)) = true →
     ∃ row : EventResourceAllocation.t,
       EventResourceAllocation.event_id row = event_id
       ∧ EventResourceAllocation.resource_id row = resource_id
       ∧ ¬ In (EventResourceAllocation.allocation_id row)
              (List.map EventResourceAllocation.allocation_id (allocations s))
       ∧ create_allocation data s
         = (Allocated row event resource,
            mkdb (events s) (resources s) (allocations s ++ [row])))
  ∧ (succeeded (fst (create_allocation data s)) = false →
     snd (create_allocation data s) = s).
Proof.
  intros Hid Hnz Hrid Hrnz _ _ Hev Hres _. cbn in Hev, Hres.
  rewrite create_allocation_run, Hid, Hrid. cbn [truthy default from_option id].
  destruct (Z.eqb_spec event_id 0); [contradiction|].
  destruct (Z.eqb_spec resource_id 0); [contradiction|]. cbn [negb orb].
  rewrite Hev, Hres. rewrite <- find_pair_none_count.
  destruct (List.find _ (allocations s)) eqn:Hfind.
  { cbn. repeat split; try discriminate. intros [H' _]. discriminate. }
  pose proof (available_iff s resource_id (Event.start_time event)
                (Event.end_time event)) as Hav.
  destruct (fst (check_resource_conflict resource_id (Event.start_time event)
                   (Event.end_time event) None s)) as [[|] cs]; cbn in *.
  - split; [|split].
    + split; [|reflexivity]. intros _. split; [reflexivity|].
      apply Hav. reflexivity.
    + intros _.
      exists (EventResourceAllocation.mk (next_allocation_id s) event_id resource_id).
      split; [reflexivity|]. split; [reflexivity|].
      split; [apply next_key_absent|reflexivity].
    + discriminate.
  - repeat split; try discriminate.
    intros (_ & Hlt & Hno). apply Hav. split; assumption.
Qed.

(** *** The allocating loop of the batch route *)

Lemma first_occurrences_from_ext (seen1 seen2 l : list Z) :
  (∀ x, In x l → (x ∈ seen1 ↔ x ∈ seen2)) →
  first_occurrences_from seen1 l = first_occurrences_from seen2 l.
Proof.
  revert seen1 seen2. induction l as [|x l IH]; intros seen1 seen2 H; cbn;
    [reflexivity|].
  assert (Hx : x ∈ seen1 ↔ x ∈ seen2) by (apply H; now left).
  repeat case_bool_decide; try tauto.
  - apply IH. intros y Hy. apply H. now right.
  - f_equal. apply IH. intros y Hy. rewrite !elem_of_cons.
    assert (y ∈ seen1 ↔ y ∈ seen2) by (apply H; now right). tauto.
Qed.

Lemma in_first_occurrences_from (seen l : list Z) (x : Z) :
  In x (first_occurrences_from seen l) ↔ In x l ∧ x ∉ seen.
Proof.
  revert seen. induction l as [|y l IH]; intros seen; cbn; [tauto|].
  case_bool_decide as Hy.
  - rewrite IH. split; [tauto|]. intros [[->|H] Hn]; [contradiction|tauto].
  - cbn. rewrite IH, not_elem_of_cons. split.
    + intros [->|[H1 [H2 H3]]]; [tauto|auto].
    + intros [[->|H] Hn]; [now left|].
      destruct (Z.eq_dec x y) as [->|Hne]; [now left|right; auto].
Qed.

Lemma NoDup_first_occurrences_from (seen l : list Z) :
  NoDup (first_occurrences_from seen l).
Proof.
  revert seen. induction l as [|y l IH]; intros seen; cbn; [constructor|].
  case_bool_decide as Hy; [apply IH|].
  apply NoDup_cons. split; [|apply IH].
  rewrite list_elem_of_In, in_first_occurrences_from, not_elem_of_cons. tauto.
Qed.

Lemma find_pair_some (l : list EventResourceAllocation.t) (event_id resource_id : Z) :
  is_Some (List.find
             (λ a, (EventResourceAllocation.event_id a =? event_id)
                   && (EventResourceAllocation.resource_id a =? resource_id)) l)
  ↔ In (event_id, resource_id) (List.map allocation_key l).
Proof.
  induction l as [|a l IH]; cbn.
  - split; [intros [x Hx]; discriminate|intros []].
  - unfold allocation_key at 1.
    destruct (Z.eqb_spec (EventResourceAllocation.event_id a) event_id) as [<-|He];
      cbn [andb].
    + destruct (Z.eqb_spec (EventResourceAllocation.resource_id a) resource_id)
        as [<-|Hr].
      * split; [now left|eauto].
      * rewrite IH. split; [tauto|]. intros [[= Hr']|H]; [contradiction|assumption].
    + rewrite IH. split; [tauto|]. intros [[= He' _]|H]; [contradiction|assumption].
Qed.

(** The loop appends, for the ids of the list that the event does not hold
    yet, one row each in the order of their first occurrence, and returns
    those ids after the ones accumulated before. *)
Lemma allocate_loop_run (event_id : Z) (resource_ids allocated held : list Z) (s : db) :
  (∀ r, In r resource_ids →
        (r ∈ held ↔ In (event_id, r) (List.map allocation_key (allocations s)))) →
  ∃ rows,
    allocate_loop event_id resource_ids allocated s
    = (allocated ++ first_occurrences_from held resource_ids,
       mkdb (events s) (resources s) (allocations s ++ rows))
    ∧ List.map allocation_key rows
      = List.map (pair event_id) (first_occurrences_from held resource_ids).
Proof.
  revert allocated held s.
  induction resource_ids as [|r rest IH]; intros allocated held s Hheld.
  - exists []. cbn. rewrite !app_nil_r. destruct s. split; reflexivity.
  - cbn [allocate_loop first_occurrences_from].
    unfold mbind, Session_bind, Allocation_query_first, query.
    pose proof (find_pair_some (allocations s) event_id r) as Hfind.
    assert (Hr : r ∈ held ↔ In (event_id, r) (List.map allocation_key (allocations s)))
      by (apply Hheld; now left).
    destruct (List.find _ (allocations s)) as [a|].
    + rewrite bool_decide_eq_true_2 by (apply Hr, Hfind; eauto).
      apply IH. intros r' Hr'. apply Hheld. now right.
    + rewrite bool_decide_eq_false_2
        by (intros Hin; apply Hr, Hfind in Hin; destruct Hin; discriminate).
      unfold session_add at 1.
      set (row := EventResourceAllocation.mk (next_allocation_id s) event_id r).
      destruct (IH (allocated ++ [r]) (r :: held)
                  (mkdb (events s) (resources s) (allocations s ++ [row])))
        as (rows & Hrun & Hkeys).
      { intros r' Hr'. cbn [allocations].
        rewrite elem_of_cons, List.map_app, in_app_iff. cbn.
        unfold allocation_key at 2. cbn.
        assert (r' ∈ held
                ↔ In (event_id, r') (List.map allocation_key (allocations s)))
          by (apply Hheld; now right).
        split.
        - intros [->|H']; [right; now left|left; tauto].
        - intros [H'|[[= ->]|[]]]; [right; tauto|now left]. }
      exists (row :: rows). rewrite Hrun. cbn [events resources allocations].
      split.
      * rewrite <- !app_assoc. reflexivity.
      * cbn. now rewrite Hkeys.
Qed.

(** *** Successful batches, in terms of the tables *)

(** X6. For a batch whose event id is a non-zero SQLite integer and
    resolves and whose list is not empty and holds SQLite integers, the
    route answers 201 exactly when the event's range is well ordered and,
    for every requested resource, no event holding it overlaps that range.
    Whether the requested ids exist in the resource table plays no part. *)
Theorem batch_succeeds_iff (s : db) (data : BatchBody.t)
  (event_id : Z) (resource_ids : list Z) (event : Event.t) :
  BatchBody.event_id data = Some event_id → event_id ≠ 0 →
  sqlite_integer event_id →
  BatchBody.resource_ids data = Some resource_ids → resource_ids ≠ [] →
  Forall sqlite_integer resource_ids →
  fst (Event_query_get event_id s) = Some event →
  succeeded (fst (create_batch_allocations data s)) = true
  ↔ Event.start_time event < Event.end_time event
    ∧ ∀ r other, In r resource_ids → holds_allocation s r other →
                 overlaps (Event.start_time other) (Event.end_time other)
                          (Event.start_time event) (Event.end_time event) = false.
Proof.
  intros Hid Hnz _ Hrids Hne _ Hev. cbn in Hev. split.
  - intros Hok.
    destruct (create_batch_allocations data s) as [reply s'] eqn:Hrun.
    cbn [fst] in Hok.
    destruct (create_batch_allocations_cases _ _ _ _ Hrun) as [[_ Hf]|(l & ->)];
      [congruence|].
    apply create_batch_allocations_success in Hrun
      as (ev & extra & Hfind & Hfree & _ & _).
    rewrite Hid, Hrids in *. cbn [default from_option id] in *.
    rewrite Hev in Hfind. injection Hfind as <-.
    assert (Hall : ∀ r, In r resource_ids →
              fst (fst (check_resource_conflict r (Event.start_time event)
                          (Event.end_time event) None s)) = true).
    { intros r Hr. destruct (Hfree r Hr) as [cs ->]. reflexivity. }
    split.
    + destruct resource_ids as [|r0 rest]; [contradiction|].
      apply (available_iff s r0). apply Hall. now left.
    + intros r other Hr Hheld. apply (available_iff s r); auto.
  - intros [Hlt Hno].
    rewrite create_batch_allocations_run, Hid, Hrids.
    cbn [truthy default from_option id].
    destruct (Z.eqb_spec event_id 0); [contradiction|].
    destruct resource_ids as [|r0 rest]; [contradiction|].
    cbn [truthy_list negb orb]. rewrite Hev. cbn zeta.
    set (found := conflicts_found_of
                    (fst (check_multiple_resources_conflict (r0 :: rest)
                            (Event.start_time event) (Event.end_time event) None s))).
    destruct (Nat.eqb_spec (size found) 0) as [|Hsize]; cbn [negb].
    + destruct (allocate_loop event_id (r0 :: rest) [] s). reflexivity.
    + exfalso. apply Hsize. apply map_size_empty_iff.
      apply map_eq. intros r. rewrite lookup_empty.
      destruct (found !! r) as [cs|] eqn:E; [|reflexivity]. exfalso.
      apply batch_conflicts_found in E as [Hr Hc].
      assert (Hav : fst (fst (check_resource_conflict r (Event.start_time event)
                                (Event.end_time event) None s)) = true).
      { apply available_iff. split; [assumption|]. intros other. now apply Hno. }
      rewrite Hc in Hav. discriminate.
Qed.

(** X7. A batch answered 201 returns the requested ids in the order of
    their first occurrence, each once, and has appended exactly one row of
    the event for each of them. *)
Theorem batch_allocates_each_requested_id_once (data : BatchBody.t) (s s' : db)
  (allocated : list Z) :
  create_batch_allocations data s = (BatchAllocated allocated, s') →
  allocated = first_occurrences (default [] (BatchBody.resource_ids data))
  ∧ NoDup allocated
  ∧ (∀ r, In r allocated ↔ In r (default [] (BatchBody.resource_ids data)))
  ∧ ∃ rows,
      s' = mkdb (events s) (resources s) (allocations s ++ rows)
      ∧ List.map allocation_key rows
        = List.map (pair (default 0 (BatchBody.event_id data))) allocated.
Proof.
  intros Hrun.
  pose proof (create_batch_allocations_success _ _ _ _ Hrun)
    as (ev & extra & Hfind & Hfree & _ & _).
  cbn zeta in Hfind, Hfree.
  set (event_id := default 0 (BatchBody.event_id data)) in *.
  set (resource_ids := default [] (BatchBody.resource_ids data)) in *.
  assert (Hnone : ∀ r, In r resource_ids →
            (r ∈ ([] : list Z)
             ↔ In (event_id, r) (List.map allocation_key (allocations s)))).
  { intros r Hr. split; [intros H; inversion H|]. intros Hin. exfalso.
    apply in_map_iff in Hin as [a [Hkey Ha]]. injection Hkey as Hae Har.
    apply find_some in Hfind as [Hev Heq]. apply Z.eqb_eq in Heq.
    assert (Hheld : holds_allocation s r ev).
    { split; [assumption|]. exists a. repeat split; congruence. }
    apply own_allocation_unavailable in Hheld.
    destruct (Hfree r Hr) as [cs Hc]. rewrite Hc in Hheld. discriminate. }
  destruct (allocate_loop_run event_id resource_ids [] [] s Hnone)
    as (rows & Hloop & Hkeys).
  rewrite create_batch_allocations_run in Hrun. cbn zeta in Hrun.
  fold event_id resource_ids in Hrun.
  destruct (negb _ || negb _); [discriminate|].
  rewrite Hfind in Hrun.
  destruct (negb _); [discriminate|].
  rewrite Hloop in Hrun. cbn [app] in Hrun. injection Hrun as <- <-.
  fold (first_occurrences resource_ids). unfold first_occurrences.
  split; [reflexivity|]. split; [apply NoDup_first_occurrences_from|].
  split.
  - intros r. rewrite in_first_occurrences_from. split; [tauto|].
    intros H. split; [assumption|]. intros H'. inversion H'.
  - exists rows. split; [reflexivity|exact Hkeys].
Qed.

Lemma conflict_query_ignores_resources (s : db) (rs : list Resource.t)
  (resource_id : Z) (start_time end_time : datetime) :
  conflict_query (mkdb (events s) rs (allocations s)) resource_id start_time end_time
  = conflict_query s resource_id start_time end_time.
Proof. reflexivity. Qed.

Lemma checker_ignores_resources (s : db) (rs : list Resource.t) (resource_id : Z)
  (start_time end_time : datetime) (exclude_event_id : option Z) :
  fst (check_resource_conflict resource_id start_time end_time exclude_event_id
         (mkdb (events s) rs (allocations s)))
  = fst (check_resource_conflict resource_id start_time end_time exclude_event_id s).
Proof. rewrite !check_resource_conflict_run. reflexivity. Qed.

Lemma allocate_loop_ignores_resources (event_id : Z) (resource_ids allocated : list Z)
  (s : db) (rs : list Resource.t) :
  allocate_loop event_id resource_ids allocated (mkdb (events s) rs (allocations s))
  = (fst (allocate_loop event_id resource_ids allocated s),
     mkdb (events (snd (allocate_loop event_id resource_ids allocated s))) rs
          (allocations (snd (allocate_loop event_id resource_ids allocated s)))).
Proof.
  revert allocated s. induction resource_ids as [|r rest IH]; intros allocated s;
    [reflexivity|].
  cbn [allocate_loop]. unfold mbind, Session_bind, Allocation_query_first, query.
  cbn [allocations].
  destruct (List.find _ (allocations s)); [apply IH|].
  unfold session_add. cbn [events resources allocations].
  change (next_allocation_id (mkdb (events s) rs (allocations s)))
    with (next_allocation_id s).
  exact (IH (allocated ++ [r])
           (mkdb (events s) (resources s)
              (allocations s
               ++ [EventResourceAllocation.mk (next_allocation_id s) event_id r]))).
Qed.

(** X8. The batch route never looks at the resource table: with any other
    resource table it gives the same answer and adds the same allocation
    rows.  In particular it allocates ids for which no resource exists,
    where the single route answers 404. *)
Theorem batch_ignores_resource_table (data : BatchBody.t) (s : db)
  (rs : list Resource.t) :
  create_batch_allocations data (mkdb (events s) rs (allocations s))
  = (fst (create_batch_allocations data s),
     mkdb (events (snd (create_batch_allocations data s))) rs
          (allocations (snd (create_batch_allocations data s)))).
Proof.
  rewrite !create_batch_allocations_run.
  destruct (negb _ || negb _); [reflexivity|]. cbn zeta. cbn [events].
  destruct (List.find _ (events s)) as [event|]; [|reflexivity].
  assert (Hsame : fst (check_multiple_resources_conflict
                         (default [] (BatchBody.resource_ids data))
                         (Event.start_time event) (Event.end_time event) None
                         (mkdb (events s) rs (allocations s)))
                  = fst (check_multiple_resources_conflict
                           (default [] (BatchBody.resource_ids data))
                           (Event.start_time event) (Event.end_time event) None s)).
  { destruct (check_multiple_lookup
                (default [] (BatchBody.resource_ids data))
                (Event.start_time event) (Event.end_time event) None
                (mkdb (events s) rs (allocations s))) as (m1 & -> & H1).
    destruct (check_multiple_lookup
                (default [] (BatchBody.resource_ids data))
                (Event.start_time event) (Event.end_time event) None s)
      as (m2 & -> & H2).
    cbn [fst]. apply map_eq. intros r. rewrite H1, H2.
    case_bool_decide; [|reflexivity].
    unfold availability_of. now rewrite checker_ignores_resources. }
  rewrite Hsame.
  destruct (negb _); [reflexivity|].
  rewrite allocate_loop_ignores_resources.
  destruct (allocate_loop _ _ [] s). reflexivity.
Qed.

End RoutesMore.

(** ** Deallocation and deletion of events *)

Section Deleting.
Context {fmt : DatetimeFormat}.

Lemma filter_all {A : Type} (P : A → bool) (l : list A) :
  (∀ x, In x l → P x = true) → List.filter P l = l.
Proof.
  induction l as [|x l IH]; cbn; [reflexivity|]. intros H.
  rewrite (H x) by now left. f_equal. apply IH. intros y Hy. apply H. now right.
Qed.

Lemma delete_allocation_run (allocation_id : Z) (s : db) :
  delete_allocation allocation_id s =
  match List.find (λ a, EventResourceAllocation.allocation_id a =? allocation_id)
          (allocations s) with
  | None => (DeleteNotFound "Allocation not found", s)
  | Some _ =>
      (DeleteDone "Allocation removed successfully",
       mkdb (events s) (resources s)
         (List.filter
            (λ a, negb (EventResourceAllocation.allocation_id a =? allocation_id))
            (allocations s)))
  end.
Proof.
  unfold delete_allocation, mbind, Session_bind, Allocation_query_get, query.
  destruct (List.find _ (allocations s)) as [a|] eqn:E; [|reflexivity].
  apply find_some in E as [_ E]. apply Z.eqb_eq in E.
  unfold session_delete_allocation. now rewrite E.
Qed.

(** X9. For a key that is an SQLite integer, [delete_allocation] answers
    200 exactly when a row has the given key, and 404 otherwise.  In both
    cases the event and resource tables are untouched and the allocation
    table is the old one without the rows of that key, in the same order;
    nothing changes on a 404. *)
Theorem delete_allocation_spec (allocation_id : Z) (s : db) :
  sqlite_integer allocation_id →
  (fst (delete_allocation allocation_id s)
   = (if bool_decide
           (allocation_id
            ∈ List.map EventResourceAllocation.allocation_id (allocations s))
      then DeleteDone "Allocation removed successfully"
      else DeleteNotFound "Allocation not found"))
  ∧ snd (delete_allocation allocation_id s)
    = mkdb (events s) (resources s)
        (List.filter
           (λ a, negb (EventResourceAllocation.allocation_id a =? allocation_id))
           (allocations s))
  ∧ (fst (delete_allocation allocation_id s) = DeleteNotFound "Allocation not found" →
     snd (delete_allocation allocation_id s) = s).
Proof.
  intros _. rewrite delete_allocation_run.
  destruct (List.find _ (allocations s)) as [a|] eqn:E.
  - apply find_some in E as [Ha E]. apply Z.eqb_eq in E.
    rewrite bool_decide_eq_true_2.
    + repeat split. discriminate.
    + apply list_elem_of_In, in_map_iff. eauto.
  - assert (Hnone : ∀ a, In a (allocations s) →
              negb (EventResourceAllocation.allocation_id a =? allocation_id) = true).
    { intros a Ha. now rewrite (find_none _ _ E a Ha). }
    rewrite bool_decide_eq_false_2.
    + cbn [fst snd]. rewrite (filter_all _ _ Hnone). destruct s. repeat split.
    + rewrite list_elem_of_In, in_map_iff. intros [a [Hid Ha]].
      apply Hnone in Ha. rewrite Hid, Z.eqb_refl in Ha. discriminate.
Qed.

(** X10. Allocating and then deleting the allocation that was returned
    gives back the tables exactly as they were before the allocation. *)
Theorem allocate_then_delete_restores (data : AllocationBody.t) (s s' : db)
  (a : EventResourceAllocation.t) (event : Event.t) (resource : Resource.t) :
  create_allocation data s = (Allocated a event resource, s') →
  delete_allocation (EventResourceAllocation.allocation_id a) s'
  = (DeleteDone "Allocation removed successfully", s).
Proof.
  intros Hrun.
  apply create_allocation_success in Hrun as (_ & _ & _ & _ & _ & _ & -> & ->).
  rewrite delete_allocation_run. cbn [allocations events resources].
  cbn [EventResourceAllocation.allocation_id].
  assert (Hold : ∀ x, In x (allocations s) →
            (EventResourceAllocation.allocation_id x =? next_allocation_id s) = false).
  { intros x Hx. apply Z.eqb_neq. pose proof (next_allocation_id_fresh s x Hx). lia. }
  rewrite find_app_none.
  - cbn. rewrite Z.eqb_refl. rewrite List.filter_app. cbn. rewrite Z.eqb_refl. cbn.
    rewrite app_nil_r, filter_all; [now destruct s|].
    intros x Hx. now rewrite (Hold x Hx).
  - destruct (List.find _ (allocations s)) as [x|] eqn:E; [|reflexivity].
    apply find_some in E as [Hx E]. rewrite (Hold x Hx) in E. discriminate.
Qed.

Lemma delete_event_run (event_id : Z) (s : db) :
  delete_event event_id s =
  match List.find (λ ev, Event.event_id ev =? event_id) (events s) with
  | None => (DeleteNotFound "Event not found", s)
  | Some _ =>
      (DeleteDone "Event deleted successfully",
       mkdb
         (List.filter (λ ev, negb (Event.event_id ev =? event_id)) (events s))
         (resources s)
         (List.filter (λ a, negb (EventResourceAllocation.event_id a =? event_id))
            (allocations s)))
  end.
Proof.
  unfold delete_event, mbind, Session_bind, Event_query_get, query.
  destruct (List.find _ (events s)) as [ev|] eqn:E; [|reflexivity].
  apply find_some in E as [_ E]. apply Z.eqb_eq in E.
  unfold session_delete_event. now rewrite E.
Qed.

(** X12. Deleting an event that resolves answers 200, removes the event
    and, by cascade, every allocation row of the event, and keeps all other
    rows of the three tables in their order.  Afterwards the id no longer
    resolves, no allocation refers to it, and a second deletion answers
    404 without changing anything. *)
Theorem delete_event_cascades (event_id : Z) (s : db) (event : Event.t) :
  fst (Event_query_get event_id s) = Some event →
  let s' := snd (delete_event event_id s) in
  fst (delete_event event_id s) = DeleteDone "Event deleted successfully"
  ∧ events s' = List.filter (λ ev, negb (Event.event_id ev =? event_id)) (events s)
  ∧ allocations s'
    = List.filter (λ a, negb (EventResourceAllocation.event_id a =? event_id))
        (allocations s)
  ∧ resources s' = resources s
  ∧ fst (Event_query_get event_id s') = None
  ∧ (∀ r, count_allocations s' event_id r = 0%nat)
  ∧ delete_event event_id s' = (DeleteNotFound "Event not found", s').
Proof.
  intros Hev s'. subst s'. cbn in Hev. rewrite delete_event_run, Hev.
  cbn [fst snd events resources allocations].
  assert (Hgone : List.find (λ ev, Event.event_id ev =? event_id)
                    (List.filter (λ ev, negb (Event.event_id ev =? event_id))
                       (events s)) = None).
  { destruct (List.find _ (List.filter _ (events s))) as [x|] eqn:E; [|reflexivity].
    apply find_some in E as [Hx E]. apply filter_In in Hx as [_ Hx].
    rewrite E in Hx. discriminate. }
  repeat split.
  - exact Hgone.
  - intros r. unfold count_allocations. cbn [allocations].
    replace (List.filter _ (List.filter _ (allocations s))) with
      ([] : list EventResourceAllocation.t); [reflexivity|].
    symmetry. induction (allocations s) as [|a l IH]; cbn; [reflexivity|].
    destruct (Z.eqb_spec (EventResourceAllocation.event_id a) event_id) as [E|E];
      cbn; [exact IH|].
    apply Z.eqb_neq in E. rewrite E. cbn. exact IH.
  - rewrite delete_event_run. cbn [events]. now rewrite Hgone.
Qed.

End Deleting.

(** ** The resource routes *)

Section Resources.

Lemma find_by_name_some (l : list Resource.t) (n : string) :
  is_Some (List.find (λ r, String.eqb (Resource.resource_name r) n) l)
  ↔ In n (List.map Resource.resource_name l).
Proof.
  induction l as [|r l IH]; cbn.
  - split; [intros [x Hx]; discriminate|intros []].
  - destruct (String.eqb_spec (Resource.resource_name r) n) as [->|Hne].
    + split; [now left|eauto].
    + rewrite IH. split; [tauto|]. intros [H|H]; [contradiction|assumption].
Qed.

Lemma create_resource_run (data : ResourceBody.t) (s : db) :
  create_resource data s =
  if negb (truthy_string (ResourceBody.resource_name data))
     || negb (truthy_string (ResourceBody.resource_type data))
  then (ResourceBadRequest "Missing required fields: resource_name, resource_type", s)
  else
    let resource_name := default EmptyString (ResourceBody.resource_name data) in
    let resource_type := default EmptyString (ResourceBody.resource_type data) in
    if negb (bool_decide (lower resource_type ∈ valid_types))
    then (ResourceBadRequest invalid_type_message, s)
    else
      match List.find (λ r, String.eqb (Resource.resource_name r) resource_name)
              (resources s) with
      | Some _ => (ResourceDuplicate "Resource with this name already exists", s)
      | None =>
          let row := Resource.mk (next_resource_id s) resource_name
                       (lower resource_type) in
          (ResourceCreated row, mkdb (events s) (resources s ++ [row]) (allocations s))
      end.
Proof.
  unfold create_resource.
  destruct (negb _ || negb _); [reflexivity|]. cbn zeta.
  destruct (negb (bool_decide _)); [reflexivity|].
  unfold mbind, Session_bind, Resource_query_by_name, query.
  destruct (List.find _ (resources s)); reflexivity.
Qed.


Lemma find_other_by_name_none (l : list Resource.t) (n : string) (resource_id : Z) :
  List.find (λ r, String.eqb (Resource.resource_name r) n
                  && negb (Resource.resource_id r =? resource_id)) l = None
  ↔ ∀ r, In r l → Resource.resource_name r = n → Resource.resource_id r = resource_id.
Proof.
  split.
  - intros H r Hr Hname. pose proof (find_none _ _ H r Hr) as Hf. cbn in Hf.
    rewrite Hname, String.eqb_refl in Hf. cbn in Hf.
    apply negb_false_iff, Z.eqb_eq in Hf. exact Hf.
  - intros H. destruct (List.find _ l) as [r|] eqn:E; [|reflexivity]. exfalso.
    apply find_some in E as [Hr E]. apply andb_true_iff in E as [E1 E2].
    apply String.eqb_eq in E1. apply negb_true_iff, Z.eqb_neq in E2.
    apply E2. now apply H.
Qed.

(** The row written by an update of the columns that the body names. *)
Lemma update_resource_run (resource_id : Z) (data : ResourceBody.t) (s : db) :
  update_resource resource_id data s =
  match List.find (λ r, Resource.resource_id r =? resource_id) (resources s) with
  | None => (ResourceNotFoundReply "Resource not found", s)
  | Some resource =>
      if match ResourceBody.resource_name data with
         | Some n =>
             bool_decide
               (is_Some (List.find
                           (λ r, String.eqb (Resource.resource_name r) n
                                 && negb (Resource.resource_id r =? resource_id))
                           (resources s)))
         | None => false
         end
      then (ResourceDuplicate "Another resource with this name already exists", s)
      else
        if match ResourceBody.resource_type data with
           | Some t => negb (bool_decide (lower t ∈ valid_types))
           | None => false
           end
        then (ResourceBadRequest invalid_type_message, s)
        else
          let new_type := lower <$> ResourceBody.resource_type data in
          (ResourceUpdated
             (Resource.mk (Resource.resource_id resource)
                (default (Resource.resource_name resource)
                   (ResourceBody.resource_name data))
                (default (Resource.resource_type resource) new_type)),
           snd (session_update_resource resource_id
                  (ResourceBody.resource_name data) new_type s))
  end.
Proof.
  unfold update_resource, mbind, Session_bind, Resource_query_get,
    Resource_query_other_by_name, query.
  destruct (List.find _ (resources s)) as [resource|]; [|reflexivity].
  destruct (ResourceBody.resource_name data) as [n|];
    destruct (ResourceBody.resource_type data) as [t|]; cbn [mret Session_ret];
    try destruct (List.find _ (resources s)) as [other|];
    try (rewrite bool_decide_eq_true_2 by eauto);
    try (rewrite bool_decide_eq_false_2 by (intros [x Hx]; discriminate));
    try reflexivity;
    destruct (negb (bool_decide (lower t ∈ valid_types))); reflexivity.
Qed.




End Resources.

(** ** Deleting a resource, and what every request keeps *)

Section Consistency.
Context {fmt : DatetimeFormat}.

Lemma delete_resource_run (resource_id : Z) (s : db) :
  delete_resource resource_id s =
  match List.find (λ r, Resource.resource_id r =? resource_id) (resources s) with
  | None => (DeleteNotFound "Resource not found", s)
  | Some _ =>
      let n := length (List.filter
                         (λ a, EventResourceAllocation.resource_id a =? resource_id)
                         (allocations s)) in
      if (n =? 0)%nat
      then (DeleteDone "Resource deleted successfully",
            mkdb (events s)
              (List.filter (λ r, negb (Resource.resource_id r =? resource_id))
                 (resources s))
              (allocations s))
      else (DeleteRefused
              ("Cannot delete resource. It has " +:+ pretty n
               +:+ " active allocation(s). Remove allocations first."), s)
  end.
Proof.
  unfold delete_resource, mbind, Session_bind, Resource_query_get,
    Resource_allocations, query.
  destruct (List.find _ (resources s)) as [r|] eqn:E; [|reflexivity].
  apply find_some in E as [_ E]. apply Z.eqb_eq in E. rewrite E. cbn zeta.
  destruct (length _ =? 0)%nat; cbn [negb]; [|reflexivity].
  unfold session_delete_resource. now rewrite E.
Qed.

(** X15. A resource that resolves is deleted only when no allocation row
    refers to it: otherwise the route answers 400 with the number of its
    allocations and changes nothing.  A deletion removes the rows of that
    key and leaves the other tables alone, so tables in which every
    allocation refers to an existing resource stay so. *)
Theorem delete_resource_guard (resource_id : Z) (s : db) (resource : Resource.t) :
  fst (Resource_query_get resource_id s) = Some resource →
  let n := length (List.filter
                     (λ a, EventResourceAllocation.resource_id a =? resource_id)
                     (allocations s)) in
  delete_resource resource_id s
  = (if (n =? 0)%nat
     then (DeleteDone "Resource deleted successfully",
           mkdb (events s)
             (List.filter (λ r, negb (Resource.resource_id r =? resource_id))
                (resources s))
             (allocations s))
     else (DeleteRefused
             ("Cannot delete resource. It has " +:+ pretty n
              +:+ " active allocation(s). Remove allocations first."), s))
  ∧ (resource_references_ok s →
     resource_references_ok (snd (delete_resource resource_id s))).
Proof.
  intros Hres n. cbn in Hres. rewrite delete_resource_run, Hres. cbn zeta. fold n.
  split; [reflexivity|]. intros Hrefs.
  destruct (Nat.eqb_spec n 0) as [Hn|Hn]; [|exact Hrefs].
  intros a Ha. cbn [snd allocations resources] in *.
  destruct (Hrefs a Ha) as (r & Hr & Hid). exists r. split; [|assumption].
  apply filter_In. split; [assumption|]. apply negb_true_iff, Z.eqb_neq.
  intros E. subst n. apply length_zero_iff_nil in Hn.
  assert (Hin : In a (List.filter
                        (λ a, EventResourceAllocation.resource_id a =? resource_id)
                        (allocations s))).
  { apply filter_In. split; [assumption|]. apply Z.eqb_eq. congruence. }
  rewrite Hn in Hin. destruct Hin.
Qed.

(** *** Invariants under every request *)

Lemma NoDup_map_snoc {A B : Type} (f : A → B) (l : list A) (x : A) :
  NoDup (List.map f l) → ¬ In (f x) (List.map f l) → NoDup (List.map f (l ++ [x])).
Proof.
  intros Hnd Hx. rewrite List.map_app. apply NoDup_app. split; [assumption|].
  split.
  - intros y Hy Hy'. rewrite list_elem_of_In in Hy, Hy'. cbn in Hy'.
    destruct Hy' as [<-|[]]. contradiction.
  - cbn. apply NoDup_singleton.
Qed.

Lemma no_double_booking_shrink (s s' : db) :
  (∀ ev, In ev (events s') → In ev (events s)) →
  (∀ a, In a (allocations s') → In a (allocations s)) →
  no_double_booking s → no_double_booking s'.
Proof.
  intros Hev Hal Hndb r e1 e2 [H1 (a1 & Ha1 & Hx1)] [H2 (a2 & Ha2 & Hx2)] Hne.
  apply (Hndb r); [split; eauto|split; eauto|assumption].
Qed.

Lemma pair_absent_of_find_none (l : list EventResourceAllocation.t)
  (event_id resource_id : Z) :
  List.find (λ a, (EventResourceAllocation.event_id a =? event_id)
                  && (EventResourceAllocation.resource_id a =? resource_id)) l = None →
  ¬ In (event_id, resource_id) (List.map allocation_key l).
Proof.
  intros Hnone Hin. apply find_pair_some in Hin as [x Hx]. congruence.
Qed.

(** The two uniqueness constraints of the allocation table through the
    allocating loop. *)
Lemma allocate_loop_unique (event_id : Z) (resource_ids allocated : list Z) (s : db) :
  unique_event_resource s → allocation_keys_unique s →
  unique_event_resource (snd (allocate_loop event_id resource_ids allocated s))
  ∧ allocation_keys_unique (snd (allocate_loop event_id resource_ids allocated s)).
Proof.
  revert allocated s. induction resource_ids as [|r rest IH]; intros allocated s Hu Hk;
    [split; assumption|].
  cbn [allocate_loop]. unfold mbind, Session_bind, Allocation_query_first, query.
  destruct (List.find _ (allocations s)) eqn:E; [now apply IH|].
  unfold session_add. apply IH.
  - unfold unique_event_resource. cbn [allocations].
    apply NoDup_map_snoc; [exact Hu|]. now apply pair_absent_of_find_none.
  - unfold allocation_keys_unique. cbn [allocations].
    apply NoDup_map_snoc; [exact Hk|]. apply next_key_absent.
Qed.

Lemma create_batch_allocations_state (data : BatchBody.t) (s : db) :
  snd (create_batch_allocations data s) = s
  ∨ snd (create_batch_allocations data s)
    = snd (allocate_loop (default 0 (BatchBody.event_id data))
             (default [] (BatchBody.resource_ids data)) [] s).
Proof.
  rewrite create_batch_allocations_run.
  destruct (negb _ || negb _); [now left|]. cbn zeta.
  destruct (List.find _ (events s)); [|now left].
  destruct (negb _); [now left|].
  destruct (allocate_loop _ _ [] s). now right.
Qed.

Lemma handle_allocation_routes (c : call) (s : db) :
  consistent s → consistent (snd (run_call c s)).
Proof.
  intros (Hpk & Hu & Hk & Href & Hndb & Hrk & Hrn & Hrt).
  destruct (run_call c s) as [reply s'] eqn:Hrun. cbn [snd].
  destruct (run_call_preserves c s s' reply Hrun Hpk Hndb) as [Hev Hndb'].
  assert (Hparts : resources s' = resources s
                   ∧ unique_event_resource s' ∧ allocation_keys_unique s'
                   ∧ event_references_ok s').
  { destruct c as [data|data]; cbn [run_call] in Hrun.
    - destruct (create_allocation_cases _ _ _ _ Hrun)
        as [[-> _]|(a & ev & res & ->)]; [auto|].
      apply create_allocation_success in Hrun
        as (_ & _ & Hfe & _ & Hnone & _ & -> & ->).
      cbn [resources]. split; [reflexivity|]. split; [|split].
      + unfold unique_event_resource. cbn [allocations].
        apply NoDup_map_snoc; [exact Hu|]. now apply pair_absent_of_find_none.
      + unfold allocation_keys_unique. cbn [allocations].
        apply NoDup_map_snoc; [exact Hk|]. apply next_key_absent.
      + intros a Ha. cbn [allocations events] in *.
        apply in_app_or in Ha as [Ha|[<-|[]]]; [now apply Href|].
        apply find_some in Hfe as [Hin Heq]. apply Z.eqb_eq in Heq. eauto.
    - assert (Hs : s' = snd (create_batch_allocations data s)) by now rewrite Hrun.
      destruct (create_batch_allocations_cases _ _ _ _ Hrun) as [[-> _]|(l & ->)];
        [auto|].
      pose proof (create_batch_allocations_success _ _ _ _ Hrun)
        as (ev & extra & Hfe & _ & Hs' & Hextra).
      split; [now rewrite Hs'|].
      destruct (create_batch_allocations_state data s) as [E|E].
      + rewrite Hs, E. auto.
      + destruct (allocate_loop_unique (default 0 (BatchBody.event_id data))
                    (default [] (BatchBody.resource_ids data)) [] s Hu Hk)
          as [Hu' Hk'].
        rewrite Hs, E. split; [assumption|]. split; [assumption|].
        rewrite <- E, <- Hs, Hs'. intros a Ha. cbn [allocations events] in *.
        apply in_app_or in Ha as [Ha|Ha]; [now apply Href|].
        destruct (Hextra a Ha) as [Hid _].
        apply find_some in Hfe as [Hin Heq]. apply Z.eqb_eq in Heq.
        exists ev. split; [assumption|congruence]. }
  destruct Hparts as (Hres & Hu' & Hk' & Href').
  unfold consistent, primary_key_unique, resource_keys_unique, resource_names_unique,
    resource_types_valid. rewrite Hev, Hres. repeat split; assumption.
Qed.

Lemma handle_deletions (s s' : db) :
  resources s' = resources s →
  (∃ P, events s' = List.filter P (events s)) →
  (∃ Q, allocations s' = List.filter Q (allocations s)) →
  (∀ a, In a (allocations s') →
        ∀ ev, In ev (events s) →
              Event.event_id ev = EventResourceAllocation.event_id a →
              In ev (events s')) →
  consistent s → consistent s'.
Proof.
  intros Hres [P HP] [Q HQ] Hkeep (Hpk & Hu & Hk & Href & Hndb & Hrk & Hrn & Hrt).
  unfold consistent, primary_key_unique, unique_event_resource,
    allocation_keys_unique, resource_keys_unique, resource_names_unique,
    resource_types_valid.
  rewrite Hres. repeat split; try assumption.
  - rewrite HP. now apply NoDup_map_filter.
  - rewrite HQ. now apply NoDup_map_filter.
  - rewrite HQ. now apply NoDup_map_filter.
  - intros a Ha. pose proof Ha as Ha'. rewrite HQ in Ha'.
    apply filter_In in Ha' as [Ha' _].
    destruct (Href a Ha') as (ev & Hev & Hid). eauto.
  - apply (no_double_booking_shrink s); [| |assumption].
    + intros ev. rewrite HP. intros H. now apply filter_In in H.
    + intros a. rewrite HQ. intros H. now apply filter_In in H.
Qed.

Lemma handle_resource_changes (s s' : db) :
  events s' = events s → allocations s' = allocations s →
  resource_keys_unique s' → resource_names_unique s' → resource_types_valid s' →
  consistent s → consistent s'.
Proof.
  intros Hev Hal Hk' Hn' Ht' (Hpk & Hu & Hk & Href & Hndb & _).
  destruct s as [e r a], s' as [e' r' a']. cbn in Hev, Hal. subst e' a'.
  repeat split; assumption.
Qed.

Lemma next_resource_id_absent (s : db) :
  ¬ In (next_resource_id s) (List.map Resource.resource_id (resources s)).
Proof.
  intros Hin. pose proof (max_key_bound _ _ Hin). unfold next_resource_id in *. lia.
Qed.

Lemma update_names_unique (resource_id : Z) (name ty : option string)
  (l : list Resource.t) :
  NoDup (List.map Resource.resource_id l) →
  NoDup (List.map Resource.resource_name l) →
  (∀ n, name = Some n →
        ∀ r, In r l → Resource.resource_name r = n → Resource.resource_id r = resource_id) →
  NoDup (List.map Resource.resource_name
           (List.map (λ r, if Resource.resource_id r =? resource_id
                           then Resource.mk (Resource.resource_id r)
                                  (default (Resource.resource_name r) name)
                                  (default (Resource.resource_type r) ty)
                           else r) l)).
Proof.
  destruct name as [n|].
  - intros Hids Hnames Hown. specialize (Hown n eq_refl). cbn [default from_option id].
    induction l as [|r l IH]; cbn [List.map]; [constructor|].
    cbn [List.map] in Hids, Hnames.
    apply NoDup_cons in Hids as [Hid Hids]. apply NoDup_cons in Hnames as [Hname Hnames].
    rewrite list_elem_of_In in Hid. rewrite list_elem_of_In in Hname.
    apply NoDup_cons. split.
    + rewrite list_elem_of_In, List.map_map, in_map_iff. intros (r' & Heq & Hr').
      destruct (Z.eqb_spec (Resource.resource_id r) resource_id) as [E|E];
        destruct (Z.eqb_spec (Resource.resource_id r') resource_id) as [E'|E'];
        cbn in Heq.
      * apply Hid. rewrite E, <- E'. now apply in_map.
      * apply E'. apply Hown; [now right|assumption].
      * apply E. apply Hown; [now left|congruence].
      * apply Hname. rewrite <- Heq. now apply in_map.
    + apply IH; try assumption. intros r' Hr'. apply Hown. now right.
  - intros _ Hnames _. cbn [default from_option id].
    rewrite List.map_map.
    erewrite List.map_ext; [exact Hnames|].
    intros r. now destruct (Resource.resource_id r =? resource_id).
Qed.

Lemma handle_resource_routes (req : request) (s : db) :
  match req with
  | PostResource _ | PutResource _ _ | DeleteResource _ => True
  | _ => False
  end →
  consistent s → consistent (handle req s).
Proof.
  intros Hreq Hc. pose proof Hc as (_ & _ & _ & _ & _ & Hrk & Hrn & Hrt).
  destruct req as [| | | |data|resource_id data|resource_id]; try contradiction;
    cbn [handle].
  - rewrite create_resource_run.
    destruct (negb _ || negb _); [exact Hc|]. cbn zeta.
    destruct (bool_decide _) eqn:Hvalid; cbn [negb]; [|exact Hc].
    apply bool_decide_eq_true, list_elem_of_In in Hvalid.
    destruct (List.find _ (resources s)) eqn:E; [exact Hc|]. cbn [snd].
    apply (handle_resource_changes s); try reflexivity; try assumption.
    + unfold resource_keys_unique. cbn [resources].
      apply NoDup_map_snoc; [exact Hrk|]. apply next_resource_id_absent.
    + unfold resource_names_unique. cbn [resources].
      apply NoDup_map_snoc; [exact Hrn|]. cbn.
      intros Hin. apply find_by_name_some in Hin as [x Hx]. congruence.
    + intros r. cbn [resources]. intros [Hr|[<-|[]]]%in_app_or; [now apply Hrt|].
      exact Hvalid.
  - rewrite update_resource_run.
    destruct (List.find (λ r, Resource.resource_id r =? resource_id) (resources s))
      as [found|]; [|exact Hc].
    destruct (ResourceBody.resource_name data) as [n|] eqn:Hn.
    + destruct (List.find
                  (λ r, String.eqb (Resource.resource_name r) n
                        && negb (Resource.resource_id r =? resource_id))
                  (resources s)) as [other|] eqn:Hother.
      { rewrite bool_decide_eq_true_2 by eauto. exact Hc. }
      rewrite bool_decide_eq_false_2 by (intros [x Hx]; discriminate).
      destruct (ResourceBody.resource_type data) as [t|] eqn:Ht.
      * destruct (bool_decide (lower t ∈ valid_types)) eqn:Hvalid; cbn [negb];
          [|exact Hc].
        apply bool_decide_eq_true, list_elem_of_In in Hvalid.
        cbn zeta. cbn [snd session_update_resource fmap option_fmap option_map].
        apply (handle_resource_changes s); try reflexivity; try assumption.
        -- unfold resource_keys_unique. cbn [resources]. rewrite List.map_map.
           erewrite List.map_ext; [exact Hrk|].
           intros r. now destruct (Resource.resource_id r =? resource_id).
        -- unfold resource_names_unique. cbn [resources].
           apply update_names_unique; [assumption..|].
           intros n' [= <-]. now apply find_other_by_name_none.
        -- intros r. cbn [resources]. rewrite in_map_iff. intros (r0 & <- & Hr0).
           destruct (Resource.resource_id r0 =? resource_id); [exact Hvalid|].
           now apply Hrt.
      * cbn zeta. cbn [snd session_update_resource fmap option_fmap option_map].
        apply (handle_resource_changes s); try reflexivity; try assumption.
        -- unfold resource_keys_unique. cbn [resources]. rewrite List.map_map.
           erewrite List.map_ext; [exact Hrk|].
           intros r. now destruct (Resource.resource_id r =? resource_id).
        -- unfold resource_names_unique. cbn [resources].
           apply update_names_unique; [assumption..|].
           intros n' [= <-]. now apply find_other_by_name_none.
        -- intros r. cbn [resources]. rewrite in_map_iff. intros (r0 & <- & Hr0).
           destruct (Resource.resource_id r0 =? resource_id); cbn; now apply Hrt.
    + destruct (ResourceBody.resource_type data) as [t|] eqn:Ht.
      * destruct (bool_decide (lower t ∈ valid_types)) eqn:Hvalid; cbn [negb];
          [|exact Hc].
        apply bool_decide_eq_true, list_elem_of_In in Hvalid.
        cbn zeta. cbn [snd session_update_resource fmap option_fmap option_map].
        apply (handle_resource_changes s); try reflexivity; try assumption.
        -- unfold resource_keys_unique. cbn [resources]. rewrite List.map_map.
           erewrite List.map_ext; [exact Hrk|].
           intros r. now destruct (Resource.resource_id r =? resource_id).
        -- unfold resource_names_unique. cbn [resources].
           apply update_names_unique; [assumption..|]. discriminate.
        -- intros r. cbn [resources]. rewrite in_map_iff. intros (r0 & <- & Hr0).
           destruct (Resource.resource_id r0 =? resource_id); [exact Hvalid|].
           now apply Hrt.
      * cbn zeta. cbn [snd session_update_resource fmap option_fmap option_map].
        apply (handle_resource_changes s); try reflexivity; try assumption.
        -- unfold resource_keys_unique. cbn [resources]. rewrite List.map_map.
           erewrite List.map_ext; [exact Hrk|].
           intros r. now destruct (Resource.resource_id r =? resource_id).
        -- unfold resource_names_unique. cbn [resources].
           apply update_names_unique; [assumption..|]. discriminate.
        -- intros r. cbn [resources]. rewrite in_map_iff. intros (r0 & <- & Hr0).
           destruct (Resource.resource_id r0 =? resource_id); cbn; now apply Hrt.
  - rewrite delete_resource_run.
    destruct (List.find _ (resources s)); [|exact Hc]. cbn zeta.
    destruct (_ =? 0)%nat; [|exact Hc]. cbn [snd].
    apply (handle_resource_changes s); try reflexivity; try assumption.
    + unfold resource_keys_unique. cbn [resources]. now apply NoDup_map_filter.
    + unfold resource_names_unique. cbn [resources]. now apply NoDup_map_filter.
    + intros r. cbn [resources]. intros [Hr _]%filter_In. now apply Hrt.
Qed.

Lemma handle_consistent (req : request) (s : db) :
  consistent s → consistent (handle req s).
Proof.
  intros Hc.
  destruct req as [data|data|allocation_id|event_id|data|resource_id data|resource_id];
    try (apply handle_resource_routes; [exact I|exact Hc]); cbn [handle].
  - exact (handle_allocation_routes (Allocate data) s Hc).
  - exact (handle_allocation_routes (AllocateBatch data) s Hc).
  - rewrite delete_allocation_run.
    destruct (List.find _ (allocations s)); [|exact Hc]. cbn [snd].
    apply (handle_deletions s); cbn [events resources allocations];
      [reflexivity| | | |exact Hc].
    + exists (λ _, true). symmetry. now apply filter_all.
    + eauto.
    + auto.
  - rewrite delete_event_run.
    destruct (List.find _ (events s)); [|exact Hc]. cbn [snd].
    apply (handle_deletions s); cbn [events resources allocations];
      [reflexivity| | | |exact Hc].
    + eauto.
    + eauto.
    + intros a [Ha Hne]%filter_In ev Hev Hid. apply filter_In.
      split; [assumption|]. now rewrite Hid.
Qed.

(** X16. Whatever requests are sent to the seven mutating routes modelled
    here (the allocation routes, the three deletions and the creation and
    update of resources; the creation and update of events are not among
    them), in any order and whether they succeed or are refused, tables
    that satisfy the
    following keep satisfying it: the keys of the three tables are unique,
    there is one allocation row per pair of event and resource, every
    allocation refers to an existing event, no resource is double booked,
    resource names are unique and resource types are among the three
    valid names. *)
Theorem requests_keep_consistency (reqs : list request) (s : db) :
  consistent s → consistent (handle_all reqs s).
Proof.
  unfold handle_all. revert s.
  induction reqs as [|req reqs IH]; intros s Hc; [exact Hc|].
  cbn [foldl]. apply IH. now apply handle_consistent.
Qed.

End Consistency.

(** ** The conflicts report *)

Section Report.
Context {fmt : DatetimeFormat}.

Lemma conflicts_report_loop_step (allocation : EventResourceAllocation.t)
  (rest : list EventResourceAllocation.t) (checked_pairs : gset (Z * Z))
  (conflicts : list report_entry) (s : db) :
  (∀ cp cs, conflicts_report_loop rest cp cs s
            = (fst (conflicts_report_loop rest cp cs s), s)) →
  conflicts_report_loop (allocation :: rest) checked_pairs conflicts s =
  (match List.find
           (λ ev, Event.event_id ev =? EventResourceAllocation.event_id allocation)
           (events s) with
   | None => inl "'NoneType' object has no attribute 'event_id'"%string
   | Some event =>
       let resource_id := EventResourceAllocation.resource_id allocation in
       let pair_key := (Event.event_id event, resource_id) in
       if bool_decide (pair_key ∈ checked_pairs)
       then fst (conflicts_report_loop rest checked_pairs conflicts s)
       else
         let checked := {[pair_key]} ∪ checked_pairs in
         let answer := fst (check_resource_conflict resource_id
                              (Event.start_time event) (Event.end_time event)
                              (Some (Event.event_id event)) s) in
         if negb (fst answer) then
           match List.find (λ r, Resource.resource_id r =? resource_id)
                   (resources s) with
           | None => inl "'NoneType' object has no attribute 'resource_name'"%string
           | Some resource =>
               fst (conflicts_report_loop rest checked
                      (conflicts
                       ++ [mk_report_entry (Event.event_id event) (Event.title event)
                             resource_id (Resource.resource_name resource)
                             (isoformat (Event.start_time event))
                             (isoformat (Event.end_time event))
                             (snd answer)]) s)
           end
         else fst (conflicts_report_loop rest checked conflicts s)
   end, s).
Proof.
  intros IH. cbn [conflicts_report_loop].
  unfold mbind, Session_bind, Allocation_event, Allocation_resource,
    Event_query_get, Resource_query_get, query.
  destruct (List.find _ (events s)) as [event|]; [|reflexivity]. cbn zeta.
  destruct (bool_decide _); [apply IH|].
  rewrite check_resource_conflict_reads.
  destruct (fst (check_resource_conflict _ _ _ _ s)) as [[|] cl]; cbn [negb fst snd].
  - apply IH.
  - destruct (List.find _ (resources s)); [apply IH|reflexivity].
Qed.

Lemma conflicts_report_loop_reads (l : list EventResourceAllocation.t)
  (checked_pairs : gset (Z * Z)) (conflicts : list report_entry) (s : db) :
  conflicts_report_loop l checked_pairs conflicts s
  = (fst (conflicts_report_loop l checked_pairs conflicts s), s).
Proof.
  revert checked_pairs conflicts. induction l as [|a l IH]; intros cp cs;
    [reflexivity|].
  now rewrite (conflicts_report_loop_step a l cp cs s IH).
Qed.

(** A finished loop has only added entries after the accumulated ones. *)
Lemma conflicts_report_loop_grows (l : list EventResourceAllocation.t)
  (checked_pairs : gset (Z * Z)) (conflicts out : list report_entry) (s : db) :
  fst (conflicts_report_loop l checked_pairs conflicts s) = inr out →
  ∃ extra, out = conflicts ++ extra.
Proof.
  revert checked_pairs conflicts. induction l as [|a l IH]; intros cp cs.
  - cbn. intros [= <-]. exists []. now rewrite app_nil_r.
  - rewrite (conflicts_report_loop_step a l cp cs s (λ cp0 cs0, conflicts_report_loop_reads l cp0 cs0 s)).
    cbn [fst]. destruct (List.find _ (events s)) as [ev|]; [|discriminate].
    cbn zeta. destruct (bool_decide _); [apply IH|].
    destruct (negb _); [|apply IH].
    destruct (List.find _ (resources s)) as [res|]; [|discriminate].
    intros H. apply IH in H as [extra ->]. rewrite <- app_assoc. eauto.
Qed.

Lemma clean_loop_adds_nothing (l : list EventResourceAllocation.t)
  (checked_pairs : gset (Z * Z)) (conflicts : list report_entry) (s : db) :
  (∀ a, In a l → allocation_clean s a) →
  fst (conflicts_report_loop l checked_pairs conflicts s) = inr conflicts.
Proof.
  revert checked_pairs. induction l as [|a l IH]; intros cp Hclean; [reflexivity|].
  rewrite (conflicts_report_loop_step a l cp conflicts s (λ cp0 cs0, conflicts_report_loop_reads l cp0 cs0 s)).
  cbn [fst]. destruct (Hclean a (or_introl eq_refl)) as (ev & -> & Hav). cbn zeta.
  assert (Hrest : ∀ a', In a' l → allocation_clean s a')
    by (intros a' Ha'; apply Hclean; now right).
  destruct (bool_decide _); [now apply IH|].
  rewrite Hav. cbn [negb]. now apply IH.
Qed.

Lemma silent_loop_is_clean (l : list EventResourceAllocation.t)
  (checked_pairs : gset (Z * Z)) (conflicts : list report_entry) (s : db) :
  fst (conflicts_report_loop l checked_pairs conflicts s) = inr conflicts →
  (∀ event_id r, (event_id, r) ∈ checked_pairs →
     ∀ ev, List.find (λ ev, Event.event_id ev =? event_id) (events s) = Some ev →
           fst (fst (check_resource_conflict r (Event.start_time ev)
                       (Event.end_time ev) (Some (Event.event_id ev)) s)) = true) →
  ∀ a, In a l → allocation_clean s a.
Proof.
  revert checked_pairs. induction l as [|a l IH]; intros cp Hout Hcp; [intros a []|].
  rewrite (conflicts_report_loop_step a l cp conflicts s (λ cp0 cs0, conflicts_report_loop_reads l cp0 cs0 s))
    in Hout.
  cbn [fst] in Hout.
  destruct (List.find _ (events s)) as [ev|] eqn:Hev; [|discriminate].
  cbn zeta in Hout.
  pose proof (find_some _ _ Hev) as [_ Hid]. apply Z.eqb_eq in Hid.
  case_bool_decide as Hseen.
  - intros a' [<-|Ha']; [|now apply (IH cp)].
    exists ev. split; [assumption|]. apply (Hcp _ _ Hseen). now rewrite Hid.
  - destruct (fst (fst (check_resource_conflict
                          (EventResourceAllocation.resource_id a)
                          (Event.start_time ev) (Event.end_time ev)
                          (Some (Event.event_id ev)) s))) eqn:Hav; cbn [negb] in Hout.
    + assert (Hcp' : ∀ event_id r,
                (event_id, r)
                ∈ ({[(Event.event_id ev, EventResourceAllocation.resource_id a)]}
                   ∪ cp : gset (Z * Z)) →
                ∀ ev', List.find (λ ev, Event.event_id ev =? event_id) (events s)
                       = Some ev' →
                       fst (fst (check_resource_conflict r (Event.start_time ev')
                                   (Event.end_time ev') (Some (Event.event_id ev')) s))
                       = true).
      { intros event_id r [Hnew|Hold]%elem_of_union ev' Hev';
          [|now apply (Hcp event_id r)].
        apply elem_of_singleton in Hnew. injection Hnew as -> ->.
        rewrite Hid, Hev in Hev'. injection Hev' as <-. exact Hav. }
      intros a' [<-|Ha']; [exists ev; auto|]. now apply (IH _ Hout Hcp').
    + destruct (List.find _ (resources s)) as [res|]; [|discriminate].
      apply conflicts_report_loop_grows in Hout as [extra Hout].
      apply (f_equal (@length _)) in Hout. rewrite !length_app in Hout.
      cbn in Hout. lia.
Qed.

Lemma find_resolves (evs : list Event.t) (ev : Event.t) :
  In ev evs →
  ∃ ev', List.find (λ x, Event.event_id x =? Event.event_id ev) evs = Some ev'.
Proof.
  intros Hin. destruct (List.find _ evs) as [ev'|] eqn:E; [eauto|].
  pose proof (find_none _ _ E ev Hin) as H. cbn in H. rewrite Z.eqb_refl in H.
  discriminate.
Qed.

Lemma clean_allocations_no_double_booking (s : db) :
  primary_key_unique s →
  (∀ a, In a (allocations s) → allocation_clean s a) →
  no_double_booking s.
Proof.
  intros Hpk Hclean r e1 e2 [H1 (a1 & Ha1 & Hid1 & Hr1)] [H2 (a2 & Ha2 & Hid2 & Hr2)] Hne.
  destruct (Hclean a1 Ha1) as (ev & Hfind & Hav).
  apply find_some in Hfind as [Hev Heq]. apply Z.eqb_eq in Heq.
  assert (ev = e1) as ->
    by (apply (primary_key_injective (events s)); [assumption..|congruence]).
  rewrite Hr1 in Hav. apply not_true_iff_false. intros Ho.
  rewrite check_resource_conflict_run in Hav. cbn [fst] in Hav.
  destruct (Event.start_time e1 >=? Event.end_time e1); [discriminate|].
  cbn zeta in Hav. rewrite conflicts_of_rows in Hav. cbn [fst] in Hav.
  rewrite length_zero_iff_no_member in Hav. apply (Hav (e2, a2)).
  apply in_exclude_filter. split.
  - apply in_conflict_query. repeat split; try assumption.
    now rewrite overlaps_comm.
  - intros x [= <-] _ E. apply Hne. symmetry.
    apply (primary_key_injective (events s)); assumption.
Qed.

Lemma no_double_booking_clean_allocations (s : db) :
  event_references_ok s → event_keys_nonzero s →
  (∀ r ev, holds_allocation s r ev → Event.start_time ev < Event.end_time ev) →
  no_double_booking s →
  ∀ a, In a (allocations s) → allocation_clean s a.
Proof.
  intros Href Hnz Hwell Hndb a Ha.
  destruct (Href a Ha) as (ev0 & Hev0 & Hid0).
  destruct (find_resolves (events s) ev0 Hev0) as [ev Hfind].
  rewrite Hid0 in Hfind. exists ev. split; [assumption|].
  apply find_some in Hfind as [Hev Heq]. apply Z.eqb_eq in Heq.
  assert (Hheld : holds_allocation s (EventResourceAllocation.resource_id a) ev)
    by (split; eauto).
  rewrite check_resource_conflict_run. cbn [fst].
  destruct (Z.geb_spec (Event.start_time ev) (Event.end_time ev)) as [Hge|_].
  { pose proof (Hwell _ _ Hheld). lia. }
  cbn zeta. rewrite conflicts_of_rows. cbn [fst].
  apply length_zero_iff_no_member. intros [e2 a2] Hin.
  apply in_conflict_rows in Hin as [(He2 & Ha2 & Hid2 & Hr2) [Hex Ho]];
    [|intros _; exact Hnz].
  assert (Hne : e2 ≠ ev) by (intros ->; now apply Hex).
  rewrite (Hndb (EventResourceAllocation.resource_id a) e2 ev) in Ho;
    [discriminate| |assumption|assumption].
  split; eauto.
Qed.

(** X17. The conflicts report only reads the tables.  With unique event
    keys, an empty report (200 with no entry) implies that no resource is
    double booked; and when every allocation refers to an existing event,
    no event has the key 0 and the allocated events have well ordered
    ranges, tables without double booking get the empty report. *)
Theorem conflicts_report_empty_iff_no_double_booking (s : db) :
  primary_key_unique s →
  snd (conflicts_report s) = s
  ∧ (fst (conflicts_report s) = ReportDone [] → no_double_booking s)
  ∧ (event_references_ok s → event_keys_nonzero s →
     (∀ r ev, holds_allocation s r ev → Event.start_time ev < Event.end_time ev) →
     no_double_booking s →
     fst (conflicts_report s) = ReportDone []).
Proof.
  intros Hpk.
  assert (Hrun : conflicts_report s
                 = (match fst (conflicts_report_loop (allocations s) ∅ [] s) with
                    | inl error => ReportFailed error
                    | inr conflicts => ReportDone conflicts
                    end, s)).
  { unfold conflicts_report, mbind, Session_bind, query.
    rewrite conflicts_report_loop_reads.
    now destruct (fst (conflicts_report_loop (allocations s) ∅ [] s)). }
  rewrite Hrun. cbn [fst snd]. split; [reflexivity|]. split.
  - destruct (fst (conflicts_report_loop (allocations s) ∅ [] s)) as [e|out] eqn:E;
      [discriminate|]. intros [= ->].
    apply clean_allocations_no_double_booking; [assumption|].
    apply (silent_loop_is_clean _ ∅ [] s E).
    intros event_id r Hin. now apply not_elem_of_empty in Hin.
  - intros Href Hnz Hwell Hndb.
    rewrite (clean_loop_adds_nothing (allocations s) ∅ [] s); [reflexivity|].
    now apply no_double_booking_clean_allocations.
Qed.

End Report.

(** ** Allocating again after a deallocation *)

Section Reallocation.
Context {fmt : DatetimeFormat}.

Lemma unique_key_injective {A K : Type} (k : A → K) (l : list A) (x y : A) :
  NoDup (List.map k l) → In x l → In y l → k x = k y → x = y.
Proof.
  induction l as [|z l IH]; cbn; [intros _ []|].
  rewrite NoDup_cons, list_elem_of_In. intros [Hz Hl] [<-|Hx] [<-|Hy] Heq.
  - reflexivity.
  - exfalso. apply Hz. rewrite Heq. now apply in_map.
  - exfalso. apply Hz. rewrite <- Heq. now apply in_map.
  - now apply IH.
Qed.

(** X11. Deallocation frees the resource for the same event: on tables
    with one allocation row per pair and no double booking, where the
    allocation rows of the event all refer to existing resources and the
    ids are SQLite integers, once the allocation of a resource to a well
    ordered event is deleted, a request allocating that resource to that
    event again is answered 201 and adds a row for the pair, under a key
    that no remaining row has. *)
Theorem allocate_again_after_delete (s : db) (data : AllocationBody.t)
  (event_id resource_id : Z) (event : Event.t) (resource : Resource.t)
  (a : EventResourceAllocation.t) :
  unique_event_resource s → no_double_booking s →
  event_resources_resolve s event_id →
  AllocationBody.event_id data = Some event_id → event_id ≠ 0 →
  AllocationBody.resource_id data = Some resource_id → resource_id ≠ 0 →
  sqlite_integer event_id → sqlite_integer resource_id →
  fst (Event_query_get event_id s) = Some event →
  fst (Resource_query_get resource_id s) = Some resource →
  Event.start_time event < Event.end_time event →
  In a (allocations s) →
  sqlite_integer (EventResourceAllocation.allocation_id a) →
  EventResourceAllocation.event_id a = event_id →
  EventResourceAllocation.resource_id a = resource_id →
  let s1 := snd (delete_allocation (EventResourceAllocation.allocation_id a) s) in
  fst (delete_allocation (EventResourceAllocation.allocation_id a) s)
  = DeleteDone "Allocation removed successfully"
  ∧ count_allocations s1 event_id resource_id = 0%nat
  ∧ event_resources_resolve s1 event_id
  ∧ ∃ row : EventResourceAllocation.t,
      EventResourceAllocation.event_id row = event_id
      ∧ EventResourceAllocation.resource_id row = resource_id
      ∧ ¬ In (EventResourceAllocation.allocation_id row)
             (List.map EventResourceAllocation.allocation_id (allocations s1))
      ∧ create_allocation data s1
        = (Allocated row event resource,
           mkdb (events s1) (resources s1) (allocations s1 ++ [row])).
Proof.
  intros Hu Hndb Hresolve Hid Hnz Hrid Hrnz _ _ Hev Hres Hlt Ha _ Hae Har s1.
  cbn in Hev, Hres.
  assert (Hs1 : delete_allocation (EventResourceAllocation.allocation_id a) s
                = (DeleteDone "Allocation removed successfully",
                   mkdb (events s) (resources s)
                     (List.filter
                        (λ x, negb (EventResourceAllocation.allocation_id x
                                    =? EventResourceAllocation.allocation_id a))
                        (allocations s)))).
  { rewrite delete_allocation_run.
    destruct (List.find _ (allocations s)) eqn:E; [reflexivity|].
    pose proof (find_none _ _ E a Ha) as H. cbn in H. rewrite Z.eqb_refl in H.
    discriminate. }
  subst s1. rewrite Hs1. cbn [fst snd events resources].
  set (s1 := mkdb (events s) (resources s)
               (List.filter
                  (λ x, negb (EventResourceAllocation.allocation_id x
                              =? EventResourceAllocation.allocation_id a))
                  (allocations s))).
  assert (Hgone : ∀ x, In x (allocations s1) →
            ¬ (EventResourceAllocation.event_id x = event_id
               ∧ EventResourceAllocation.resource_id x = resource_id)).
  { intros x Hx [Hxe Hxr]. cbn [s1 allocations] in Hx.
    apply filter_In in Hx as [Hx Hne].
    assert (x = a) as ->.
    { apply (unique_key_injective allocation_key (allocations s));
        [assumption..|]. unfold allocation_key. congruence. }
    rewrite Z.eqb_refl in Hne. discriminate. }
  assert (Hnone : List.find
                    (λ x, (EventResourceAllocation.event_id x =? event_id)
                          && (EventResourceAllocation.resource_id x =? resource_id))
                    (allocations s1) = None).
  { destruct (List.find _ (allocations s1)) as [x|] eqn:E; [|reflexivity]. exfalso.
    apply find_some in E as [Hx E]. apply andb_true_iff in E as [E1 E2].
    apply Z.eqb_eq in E1, E2. now apply (Hgone x Hx). }
  pose proof (find_some _ _ Hev) as [Hin Heq]. apply Z.eqb_eq in Heq.
  assert (Hav : fst (fst (check_resource_conflict resource_id (Event.start_time event)
                            (Event.end_time event) None s1)) = true).
  { apply available_iff. split; [assumption|].
    intros other [Ho (x & Hx & Hxid & Hxr)].
    assert (Hx' : In x (allocations s))
      by (cbn [s1 allocations] in Hx; now apply filter_In in Hx).
    destruct (Z.eq_dec (Event.event_id other) (Event.event_id event)) as [E|Hne].
    - exfalso. apply (Hgone x Hx). split; congruence.
    - apply (Hndb resource_id); [split; eauto|split; [assumption|]|congruence].
      exists a. repeat split; congruence. }
  split; [reflexivity|]. split; [now apply find_pair_none_count|].
  split.
  { intros x Hx Hxe. cbn [s1 allocations resources] in *.
    apply filter_In in Hx as [Hx _]. exact (Hresolve x Hx Hxe). }
  exists (EventResourceAllocation.mk (next_allocation_id s1) event_id resource_id).
  split; [reflexivity|]. split; [reflexivity|]. split; [apply next_key_absent|].
  rewrite create_allocation_run, Hid, Hrid. cbn [truthy default from_option id].
  destruct (Z.eqb_spec event_id 0); [contradiction|].
  destruct (Z.eqb_spec resource_id 0); [contradiction|]. cbn [negb orb].
  cbn [s1 events resources]. rewrite Hev, Hres. fold s1. rewrite Hnone.
  destruct (fst (check_resource_conflict resource_id (Event.start_time event)
                   (Event.end_time event) None s1)) as [[|] cs];
    [reflexivity|discriminate].
Qed.

End Reallocation.

(** * The properties on the sample tables *)

#[local] Existing Instance sample_format.

Ltac sample_fact :=
  first [ reflexivity
        | unfold hour, minute, twenty_four_hours; cbn; lia
        | cbn; tauto ].

Lemma sample_primary_key_unique : primary_key_unique sample_db.
Proof.
  unfold primary_key_unique. apply (bool_decide_unpack _). vm_compute. exact I.
Defined.

Lemma sample_unique_event_resource : unique_event_resource sample_db.
Proof.
  unfold unique_event_resource. apply (bool_decide_unpack _). vm_compute. exact I.
Defined.

Lemma sample_event_keys_nonzero : event_keys_nonzero sample_db.
Proof.
  intros event Hin. cbn in Hin.
  destruct Hin as [<-|[<-|[<-|[<-|[]]]]]; discriminate.
Defined.

Lemma sample_holds (r : Z) (event : Event.t) :
  holds_allocation sample_db r event →
  (r = 1 ∧ event = event_A) ∨ (r = 2 ∧ event = event_B).
Proof.
  intros [Hev (a & Ha & Hid & Hr)]. cbn in Hev, Ha.
  destruct Ha as [<-|[<-|[]]]; cbn in Hid, Hr; subst r;
    destruct Hev as [<-|[<-|[<-|[<-|[]]]]]; try discriminate; auto.
Defined.

Lemma sample_no_double_booking : no_double_booking sample_db.
Proof.
  intros r e1 e2 H1 H2 Hne.
  apply sample_holds in H1 as [[-> ->]|[-> ->]];
    apply sample_holds in H2 as [[E ->]|[E ->]];
    try discriminate; contradiction.
Defined.

Lemma overlap_test_witness :
  In (event_A, EventResourceAllocation.mk 1 1 1)
     (conflict_query sample_db 1 (11 * hour) (13 * hour))
  ∧ overlaps (10 * hour) (12 * hour) (12 * hour) (13 * hour) = false
  ∧ overlaps (12 * hour) (13 * hour) (10 * hour) (12 * hour) = false
  ∧ overlaps (10 * hour) (12 * hour) (11 * hour) (11 * hour + minute) = true
  ∧ overlaps (11 * hour) (11 * hour + minute) (10 * hour) (12 * hour) = true
  ∧ overlaps (10 * hour) (12 * hour) (11 * hour) (13 * hour) = true
  ∧ overlaps (11 * hour) (13 * hour) (10 * hour) (12 * hour) = true
  ∧ overlaps (10 * hour) (12 * hour) (10 * hour) (12 * hour) = true.
Proof.
  repeat apply conj.
  - apply (overlap_test_characterised sample_db 1 event_A
             (EventResourceAllocation.mk 1 1 1) 0 0 (11 * hour) (13 * hour)).
    repeat apply conj; sample_fact.
  - apply (overlap_test_characterised sample_db 1 event_A
             (EventResourceAllocation.mk 1 1 1)
             (10 * hour) (12 * hour) (12 * hour) (13 * hour)).
    left. reflexivity.
  - apply (overlap_test_characterised sample_db 1 event_A
             (EventResourceAllocation.mk 1 1 1)
             (12 * hour) (13 * hour) (10 * hour) (12 * hour)).
    right. reflexivity.
  - apply (overlap_test_characterised sample_db 1 event_A
             (EventResourceAllocation.mk 1 1 1)
             (10 * hour) (12 * hour) (11 * hour) (11 * hour + minute));
      sample_fact.
  - apply (overlap_test_characterised sample_db 1 event_A
             (EventResourceAllocation.mk 1 1 1)
             (11 * hour) (11 * hour + minute) (10 * hour) (12 * hour));
      sample_fact.
  - apply (overlap_test_characterised sample_db 1 event_A
             (EventResourceAllocation.mk 1 1 1)
             (10 * hour) (12 * hour) (11 * hour) (13 * hour)).
    sample_fact.
  - apply (overlap_test_characterised sample_db 1 event_A
             (EventResourceAllocation.mk 1 1 1)
             (11 * hour) (13 * hour) (10 * hour) (12 * hour)).
    sample_fact.
  - apply (overlap_test_characterised sample_db 1 event_A
             (EventResourceAllocation.mk 1 1 1)
             (10 * hour) (12 * hour) (10 * hour) (12 * hour)).
    sample_fact.
Defined.

Lemma overlaps_symmetric_adjacent_witness :
  12 * hour = 12 * hour
  ∧ overlaps (10 * hour) (12 * hour) (12 * hour) (13 * hour)
    = overlaps (12 * hour) (13 * hour) (10 * hour) (12 * hour)
  ∧ overlaps (10 * hour) (12 * hour) (12 * hour) (13 * hour) = false.
Proof.
  destruct (overlaps_symmetric_adjacent (10 * hour) (12 * hour) (12 * hour) (13 * hour))
    as [Hsym Hadj].
  apply conj; [reflexivity|]. apply conj; [exact Hsym|]. apply Hadj. reflexivity.
Defined.

(** The validator at the boundary: 10:00 to 10:00 and 10:00 to 9:59 are
    invalid ranges, 10:00 to 10:01 of the next day is too long, 10:00 to
    11:00 and 10:00 to 10:00 of the next day are accepted. *)
Lemma validate_event_time_witness :
  validate_event_time (10 * hour) (10 * hour)
  = (false, Some "Start time must be before end time"%string)
  ∧ validate_event_time (10 * hour) (10 * hour - minute)
    = (false, Some "Start time must be before end time"%string)
  ∧ validate_event_time (10 * hour) (34 * hour + minute)
    = (false, Some "Event duration cannot exceed 24 hours"%string)
  ∧ validate_event_time (10 * hour) (11 * hour) = (true, None)
  ∧ validate_event_time (10 * hour) (34 * hour) = (true, None).
Proof.
  repeat apply conj.
  - destruct (validate_event_time_spec (10 * hour) (10 * hour)) as (H & _).
    apply H. sample_fact.
  - destruct (validate_event_time_spec (10 * hour) (10 * hour - minute)) as (H & _).
    apply H. sample_fact.
  - destruct (validate_event_time_spec (10 * hour) (34 * hour + minute))
      as (_ & H & _).
    apply H; sample_fact.
  - destruct (validate_event_time_spec (10 * hour) (11 * hour)) as (_ & _ & H & _).
    apply H; sample_fact.
  - destruct (validate_event_time_spec (10 * hour) (34 * hour)) as (_ & _ & H & _).
    apply H; sample_fact.
Defined.

(** Checking [R] for the range of [B] (11:00 to 13:00) on the sample, with
    an exclusion of the key 0, which no event of the sample carries. *)
Lemma sqlite_integer_small (x : Z) : - 1000 <= x <= 1000 → sqlite_integer x.
Proof. unfold sqlite_integer. intros H. split; [|apply Z.lt_le_trans with 1001]; lia. Qed.

Lemma check_resource_conflict_witness :
  11 * hour < 13 * hour
  ∧ sqlite_integer 1
  ∧ (∀ x, Some 1 = Some x → sqlite_integer x)
  ∧ primary_key_unique sample_db_CD ∧ unique_event_resource sample_db_CD
  ∧ ∃ (available : bool) (evs : list Event.t),
      check_resource_conflict 1 (11 * hour) (13 * hour) (Some 1) sample_db_CD
      = ((available, List.map (record_of 1) evs), sample_db_CD)
      ∧ (available = true ↔
         ∀ event, holds_allocation sample_db_CD 1 event →
                  ¬ effectively_excluded (Some 1) event →
                  overlaps (Event.start_time event) (Event.end_time event)
                           (11 * hour) (13 * hour) = false)
      ∧ NoDup evs
      ∧ (∀ event, In event evs ↔
                  holds_allocation sample_db_CD 1 event
                  ∧ ¬ effectively_excluded (Some 1) event
                  ∧ overlaps (Event.start_time event) (Event.end_time event)
                             (11 * hour) (13 * hour) = true).
Proof.
  assert (H : 11 * hour < 13 * hour) by sample_fact.
  assert (H1 : sqlite_integer 1) by (apply sqlite_integer_small; lia).
  assert (H2 : ∀ x, Some 1 = Some x → sqlite_integer x)
    by (intros x [= <-]; apply sqlite_integer_small; lia).
  assert (Hpk : primary_key_unique sample_db_CD) by exact sample_primary_key_unique.
  assert (Huq : unique_event_resource sample_db_CD)
    by (unfold unique_event_resource; apply (bool_decide_unpack _); vm_compute; exact I).
  apply conj; [exact H|]. apply conj; [exact H1|]. apply conj; [exact H2|].
  apply conj; [exact Hpk|]. apply conj; [exact Huq|].
  exact (check_resource_conflict_spec sample_db_CD 1 (11 * hour) (13 * hour) (Some 1)
           H H1 H2 Hpk Huq).
Defined.

(** The claim C7 as stated, with the exclusion read as naming the event,
    fails where an event carries the id 0 and is the one excluded: the
    only holder of the resource is the excluded event, and the checker
    still reports the resource unavailable. *)
Lemma check_resource_conflict_excluding_zero_counterexample :
  11 * hour < 13 * hour
  ∧ sqlite_integer 1 ∧ sqlite_integer 0
  ∧ primary_key_unique zero_key_db ∧ unique_event_resource zero_key_db
  ∧ ¬ (fst (fst (check_resource_conflict 1 (11 * hour) (13 * hour) (Some 0)
                   zero_key_db)) = true ↔
       ∀ event, holds_allocation zero_key_db 1 event →
                ¬ excluded (Some 0) event →
                overlaps (Event.start_time event) (Event.end_time event)
                         (11 * hour) (13 * hour) = false).
Proof.
  split; [sample_fact|].
  split; [apply sqlite_integer_small; lia|].
  split; [apply sqlite_integer_small; lia|].
  split; [unfold primary_key_unique; apply (bool_decide_unpack _); vm_compute; exact I|].
  split; [unfold unique_event_resource; apply (bool_decide_unpack _); vm_compute;
          exact I|].
  intros [_ H].
  assert (E : fst (fst (check_resource_conflict 1 (11 * hour) (13 * hour) (Some 0)
                          zero_key_db)) = false) by reflexivity.
  rewrite E in H. enough (false = true) by discriminate. apply H.
  intros event [Hev _] Hex. exfalso. apply Hex.
  destruct Hev as [<-|[]]. reflexivity.
Qed.

Lemma check_resource_conflict_invalid_range_witness :
  12 * hour >= 11 * hour
  ∧ check_resource_conflict 1 (12 * hour) (11 * hour) (Some 2) sample_db
    = ((false, [ErrorDetail "Start time must be before end time"]), sample_db)
  ∧ fst (check_resource_conflict 1 (12 * hour) (11 * hour) (Some 2) sample_db)
    = fst (check_resource_conflict 1 (12 * hour) (11 * hour) (Some 2) zero_key_db).
Proof.
  assert (H : 12 * hour >= 11 * hour) by sample_fact.
  apply conj; [exact H|].
  exact (check_resource_conflict_invalid_range 1 (12 * hour) (11 * hour) (Some 2) H
           sample_db zero_key_db).
Defined.

Lemma zero_key_holds : holds_allocation zero_key_db 1 event_Z.
Proof.
  apply conj; [now left|].
  exists (EventResourceAllocation.mk 1 0 1). repeat apply conj; sample_fact.
Defined.

(** On tables where an event has the key 0, excluding that event changes
    nothing: it is still reported as a conflict. *)
Lemma exclude_zero_is_no_exclusion_witness :
  check_resource_conflict 1 (11 * hour) (13 * hour) (Some 0) zero_key_db
  = check_resource_conflict 1 (11 * hour) (13 * hour) None zero_key_db
  ∧ 11 * hour < 13 * hour
  ∧ Event.event_id event_Z = 0
  ∧ holds_allocation zero_key_db 1 event_Z
  ∧ overlaps (Event.start_time event_Z) (Event.end_time event_Z)
             (11 * hour) (13 * hour) = true
  ∧ ∃ conflicts,
      check_resource_conflict 1 (11 * hour) (13 * hour) (Some 0) zero_key_db
      = ((false, conflicts), zero_key_db)
      ∧ In (record_of 1 event_Z) conflicts.
Proof.
  destruct (exclude_zero_is_no_exclusion 1 (11 * hour) (13 * hour)) as [Hsame Hkept].
  assert (H : 11 * hour < 13 * hour) by sample_fact.
  assert (Ho : overlaps (Event.start_time event_Z) (Event.end_time event_Z)
                 (11 * hour) (13 * hour) = true) by reflexivity.
  apply conj; [apply Hsame|]. apply conj; [exact H|]. apply conj; [reflexivity|].
  apply conj; [exact zero_key_holds|]. apply conj; [exact Ho|].
  exact (Hkept zero_key_db event_Z H eq_refl zero_key_holds Ho).
Defined.

(** The batch for [C] (12:00 to 13:00) on [R] and [R2]: [R] is free, [R2]
    is taken by [B], and nothing is allocated. *)
Lemma batch_conflict_witness :
  BatchBody.event_id batch_C_R_R2 = Some 3 ∧ 3 ≠ 0
  ∧ sqlite_integer 3
  ∧ BatchBody.resource_ids batch_C_R_R2 = Some [1; 2]
  ∧ Forall sqlite_integer [1; 2]
  ∧ fst (Event_query_get 3 sample_db) = Some event_C
  ∧ fst (fst (check_resource_conflict 1 (Event.start_time event_C)
                (Event.end_time event_C) None sample_db)) = true
  ∧ fst (fst (check_resource_conflict 2 (Event.start_time event_C)
                (Event.end_time event_C) None sample_db)) = false
  ∧ ∃ conflicts_found : gmap Z (list conflict_detail),
      create_batch_allocations batch_C_R_R2 sample_db
      = (BatchConflictDetected conflicts_found, sample_db)
      ∧ (∀ r cs, conflicts_found !! r = Some cs
                 ↔ In r [1; 2]
                   ∧ fst (check_resource_conflict r (Event.start_time event_C)
                            (Event.end_time event_C) None sample_db) = (false, cs))
      ∧ allocations (snd (create_batch_allocations batch_C_R_R2 sample_db))
        = allocations sample_db.
Proof.
  assert (Hnz : 3 ≠ 0) by lia.
  assert (H3 : sqlite_integer 3) by (apply sqlite_integer_small; lia).
  assert (Hall : Forall sqlite_integer [1; 2])
    by (repeat constructor; apply sqlite_integer_small; lia).
  assert (Hun : fst (fst (check_resource_conflict 2 (Event.start_time event_C)
                            (Event.end_time event_C) None sample_db)) = false)
    by (vm_compute; reflexivity).
  apply conj; [reflexivity|]. apply conj; [exact Hnz|]. apply conj; [exact H3|].
  apply conj; [reflexivity|]. apply conj; [exact Hall|]. apply conj; [reflexivity|].
  apply conj; [vm_compute; reflexivity|]. apply conj; [exact Hun|].
  apply (batch_conflict_rejects_whole_batch sample_db batch_C_R_R2 3 [1; 2] event_C
           eq_refl Hnz H3 eq_refl Hall eq_refl).
  exists 2. apply conj; [sample_fact|exact Hun].
Defined.

(** C3 (fails on the code). On the sample tables [R] is already allocated
    to [A]; apart from [A] itself no event holds [R] in [A]'s range, and
    [R3] is free.  The batch for [A] on [R] and [R3] is nevertheless
    answered 409: the checker, called without an exclusion, reports [A]'s
    own allocation as a conflict on [R], and [R3] is not allocated, where
    the intended behaviour is to skip [R] and allocate [R3]. *)
Theorem batch_resubmission_rejected :
  count_allocations sample_db 1 1 = 1%nat
  ∧ fst (check_resource_conflict 1 (Event.start_time event_A) (Event.end_time event_A)
           (Some 1) sample_db) = (true, [])
  ∧ fst (check_resource_conflict 3 (Event.start_time event_A) (Event.end_time event_A)
           None sample_db) = (true, [])
  ∧ create_batch_allocations batch_A_R_R3 sample_db
    = (BatchConflictDetected {[ 1 := [record_of 1 event_A] ]}, sample_db)
  ∧ count_allocations
      (snd (create_batch_allocations batch_A_R_R3 sample_db)) 1 3 = 0%nat.
Proof.
  repeat apply conj; vm_compute; reflexivity.
Qed.

(** [A] already holds [R]: the single route answers [AlreadyAllocated],
    where the checker alone would report a conflict.  [C] can take [R];
    asking again answers [AlreadyAllocated] and one row exists. *)
Lemma allocate_existing_pair_witness :
  (AllocationBody.event_id allocate_A_to_R = Some 1 ∧ 1 ≠ 0
   ∧ AllocationBody.resource_id allocate_A_to_R = Some 1
   ∧ fst (Event_query_get 1 sample_db) = Some event_A
   ∧ fst (Resource_query_get 1 sample_db) = Some room_R
   ∧ In (EventResourceAllocation.mk 1 1 1) (allocations sample_db)
   ∧ create_allocation allocate_A_to_R sample_db = (AlreadyAllocated, sample_db)
   ∧ fst (fst (check_resource_conflict 1 (Event.start_time event_A)
                 (Event.end_time event_A) None sample_db)) = false
   ∧ count_allocations sample_db 1 1 = 1%nat)
  ∧ (create_allocation allocate_C_to_R sample_db
     = (Allocated (EventResourceAllocation.mk 3 3 1) event_C room_R, sample_db_C)
     ∧ create_allocation allocate_C_to_R sample_db_C = (AlreadyAllocated, sample_db_C)
     ∧ count_allocations sample_db_C 3 1 = 1%nat).
Proof.
  assert (Hnz : 1 ≠ 0) by lia.
  assert (Hin : In (EventResourceAllocation.mk 1 1 1) (allocations sample_db))
    by (now left).
  assert (Hrun : create_allocation allocate_C_to_R sample_db
                 = (Allocated (EventResourceAllocation.mk 3 3 1) event_C room_R,
                    sample_db_C)) by (vm_compute; reflexivity).
  apply conj.
  - destruct (allocate_existing_pair sample_db allocate_A_to_R) as [Hfirst _].
    destruct (Hfirst 1 1 event_A room_R eq_refl Hnz eq_refl Hnz eq_refl eq_refl)
      as (Hans & Hchk & Hone).
    { exists (EventResourceAllocation.mk 1 1 1).
      apply conj; [exact Hin|]. apply conj; reflexivity. }
    pose proof (Hone sample_unique_event_resource) as Hcount.
    repeat apply conj; try reflexivity; assumption.
  - destruct (allocate_existing_pair sample_db allocate_C_to_R) as [_ Hsecond].
    destruct (Hsecond _ _ _ _ Hrun) as (Hagain & _ & _ & Hcount).
    apply conj; [exact Hrun|]. apply conj; [exact Hagain|exact Hcount].
Defined.

(** [R] is allocated to [C], then [R], [R2] and [R3] to [D]: both calls
    succeed and no resource is double booked afterwards. *)
Lemma no_double_booking_invariant_witness :
  primary_key_unique sample_db ∧ no_double_booking sample_db
  ∧ successful_calls sample_db
      [Allocate allocate_C_to_R; AllocateBatch batch_D_all] sample_db_CD
  ∧ no_double_booking sample_db_CD.
Proof.
  assert (Hcalls : successful_calls sample_db
                     [Allocate allocate_C_to_R; AllocateBatch batch_D_all]
                     sample_db_CD).
  { apply (calls_step sample_db sample_db_C sample_db_CD (Allocate allocate_C_to_R)
             (Allocated (EventResourceAllocation.mk 3 3 1) event_C room_R));
      [vm_compute; reflexivity|reflexivity|].
    apply (calls_step sample_db_C sample_db_CD sample_db_CD
             (AllocateBatch batch_D_all) (BatchAllocated [1; 2; 3]));
      [vm_compute; reflexivity|reflexivity|].
    apply calls_done. }
  apply conj; [exact sample_primary_key_unique|].
  apply conj; [exact sample_no_double_booking|].
  apply conj; [exact Hcalls|].
  exact (no_double_booking_invariant sample_db sample_db_CD _
           sample_primary_key_unique sample_no_double_booking Hcalls).
Defined.

(** * The further properties on the sample tables *)

Lemma exclusion_removes_only_that_event_witness :
  sqlite_integer 1 ∧ 1 ≠ 0
  ∧ snd (fst (check_resource_conflict 1 (11 * hour) (13 * hour) (Some 1) sample_db))
    = List.filter (λ d, negb (detail_names_event 1 d))
        (snd (fst (check_resource_conflict 1 (11 * hour) (13 * hour) None sample_db)))
  ∧ (fst (fst (check_resource_conflict 1 (11 * hour) (13 * hour) None sample_db))
     = true →
     fst (fst (check_resource_conflict 1 (11 * hour) (13 * hour) (Some 1) sample_db))
     = true).
Proof.
  assert (H : 1 ≠ 0) by lia.
  assert (H1 : sqlite_integer 1) by (apply sqlite_integer_small; lia).
  apply conj; [exact H1|]. apply conj; [exact H|].
  exact (exclusion_removes_only_that_event 1 (11 * hour) (13 * hour) 1 sample_db
           H1 H1 H).
Defined.

Lemma check_multiple_resources_conflict_spec_witness :
  Forall sqlite_integer [1; 3; 1]
  ∧ (∀ x, Some 2 = Some x → sqlite_integer x)
  ∧ ∃ results : gmap Z availability,
      check_multiple_resources_conflict [1; 3; 1] (11 * hour) (13 * hour)
        (Some 2) sample_db = (results, sample_db)
      ∧ dom results = list_to_set [1; 3; 1]
      ∧ ∀ r, results !! r
             = if bool_decide (r ∈ [1; 3; 1])
               then Some (availability_of r (11 * hour) (13 * hour) (Some 2)
                            sample_db)
               else None.
Proof.
  assert (Hall : Forall sqlite_integer [1; 3; 1])
    by (repeat constructor; apply sqlite_integer_small; lia).
  assert (Hex : ∀ x, Some 2 = Some x → sqlite_integer x)
    by (intros x [= <-]; apply sqlite_integer_small; lia).
  apply conj; [exact Hall|]. apply conj; [exact Hex|].
  exact (check_multiple_resources_conflict_spec [1; 3; 1] (11 * hour) (13 * hour)
           (Some 2) sample_db Hall Hex).
Defined.

Lemma validated_range_gets_conflict_records_witness :
  validate_event_time (11 * hour) (13 * hour) = (true, None)
  ∧ 11 * hour < 13 * hour
  ∧ 13 * hour - 11 * hour <= twenty_four_hours
  ∧ ∀ (resource_id : Z) (exclude_event_id : option Z) (s : db) (d : conflict_detail),
      In d (snd (fst (check_resource_conflict resource_id (11 * hour) (13 * hour)
                        exclude_event_id s))) →
      ∃ event, holds_allocation s resource_id event
               ∧ overlaps (Event.start_time event) (Event.end_time event)
                          (11 * hour) (13 * hour) = true
               ∧ d = record_of resource_id event.
Proof.
  assert (H : validate_event_time (11 * hour) (13 * hour) = (true, None))
    by (vm_compute; reflexivity).
  apply conj; [exact H|].
  exact (validated_range_gets_conflict_records (11 * hour) (13 * hour) H).
Defined.

(** [C] (12:00 to 13:00) can take [R], which [A] leaves at 12:00. *)
Lemma sample_event_C_resources_resolve : event_resources_resolve sample_db 3.
Proof.
  intros a [<-|[<-|[]]] E; cbn in E; discriminate.
Qed.

Lemma allocation_succeeds_iff_witness :
  AllocationBody.event_id allocate_C_to_R = Some 3 ∧ 3 ≠ 0
  ∧ AllocationBody.resource_id allocate_C_to_R = Some 1 ∧ 1 ≠ 0
  ∧ sqlite_integer 3 ∧ sqlite_integer 1
  ∧ fst (Event_query_get 3 sample_db) = Some event_C
  ∧ fst (Resource_query_get 1 sample_db) = Some room_R
  ∧ event_resources_resolve sample_db 3
  ∧ succeeded (fst (create_allocation allocate_C_to_R sample_db)) = true
  ∧ count_allocations sample_db 3 1 = 0%nat
  ∧ Event.start_time event_C < Event.end_time event_C
  ∧ (∀ other, holds_allocation sample_db 1 other →
              overlaps (Event.start_time other) (Event.end_time other)
                       (Event.start_time event_C) (Event.end_time event_C) = false)
  ∧ ∃ row : EventResourceAllocation.t,
      EventResourceAllocation.event_id row = 3
      ∧ EventResourceAllocation.resource_id row = 1
      ∧ ¬ In (EventResourceAllocation.allocation_id row)
             (List.map EventResourceAllocation.allocation_id (allocations sample_db))
      ∧ create_allocation allocate_C_to_R sample_db
        = (Allocated row event_C room_R,
           mkdb (events sample_db) (resources sample_db)
                (allocations sample_db ++ [row])).
Proof.
  assert (H3 : 3 ≠ 0) by lia. assert (H1 : 1 ≠ 0) by lia.
  assert (R3 : sqlite_integer 3) by (apply sqlite_integer_small; lia).
  assert (R1 : sqlite_integer 1) by (apply sqlite_integer_small; lia).
  pose proof (allocation_succeeds_iff sample_db allocate_C_to_R 3 1 event_C room_R
                eq_refl H3 eq_refl H1 R3 R1 eq_refl eq_refl
                sample_event_C_resources_resolve) as H.
  destruct H as (Hiff & Hrun & _).
  assert (Hok : succeeded (fst (create_allocation allocate_C_to_R sample_db)) = true)
    by (vm_compute; reflexivity).
  destruct (proj1 Hiff Hok) as (Hcount & Hlt & Hfree).
  apply conj; [reflexivity|]. apply conj; [exact H3|].
  apply conj; [reflexivity|]. apply conj; [exact H1|].
  apply conj; [exact R3|]. apply conj; [exact R1|].
  apply conj; [reflexivity|]. apply conj; [reflexivity|].
  apply conj; [exact sample_event_C_resources_resolve|].
  apply conj; [exact Hok|]. apply conj; [exact Hcount|].
  apply conj; [exact Hlt|]. apply conj; [exact Hfree|].
  exact (Hrun Hok).
Defined.

(** The batch for [D] (9:00 to 9:30) on [R], [R2] and [R3] succeeds. *)
Lemma batch_succeeds_iff_witness :
  BatchBody.event_id batch_D_all = Some 4 ∧ 4 ≠ 0
  ∧ sqlite_integer 4
  ∧ BatchBody.resource_ids batch_D_all = Some [1; 2; 3] ∧ [1; 2; 3] ≠ ([] : list Z)
  ∧ Forall sqlite_integer [1; 2; 3]
  ∧ fst (Event_query_get 4 sample_db) = Some event_D
  ∧ succeeded (fst (create_batch_allocations batch_D_all sample_db)) = true
  ∧ Event.start_time event_D < Event.end_time event_D
  ∧ ∀ r other, In r [1; 2; 3] → holds_allocation sample_db r other →
               overlaps (Event.start_time other) (Event.end_time other)
                        (Event.start_time event_D) (Event.end_time event_D) = false.
Proof.
  assert (H4 : 4 ≠ 0) by lia.
  assert (R4 : sqlite_integer 4) by (apply sqlite_integer_small; lia).
  assert (Hne : [1; 2; 3] ≠ ([] : list Z)) by discriminate.
  assert (Hall : Forall sqlite_integer [1; 2; 3])
    by (repeat constructor; apply sqlite_integer_small; lia).
  pose proof (batch_succeeds_iff sample_db batch_D_all 4 [1; 2; 3] event_D
                eq_refl H4 R4 eq_refl Hne Hall eq_refl) as Hiff.
  assert (Hok : succeeded (fst (create_batch_allocations batch_D_all sample_db)) = true)
    by (vm_compute; reflexivity).
  destruct (proj1 Hiff Hok) as [Hlt Hfree].
  apply conj; [reflexivity|]. apply conj; [exact H4|]. apply conj; [exact R4|].
  apply conj; [reflexivity|]. apply conj; [exact Hne|]. apply conj; [exact Hall|].
  apply conj; [reflexivity|]. apply conj; [exact Hok|].
  apply conj; [exact Hlt|exact Hfree].
Defined.

(** The batch for [D] on [R], [R2], [R2], [R3], [R] allocates each of the
    three resources once. *)
Lemma batch_allocates_each_requested_id_once_witness :
  create_batch_allocations batch_D_repeated sample_db
  = (BatchAllocated [1; 2; 3], sample_db_D)
  ∧ [1; 2; 3] = first_occurrences [1; 2; 2; 3; 1]
  ∧ NoDup [1; 2; 3]
  ∧ (∀ r, In r [1; 2; 3] ↔ In r [1; 2; 2; 3; 1])
  ∧ ∃ rows,
      sample_db_D
      = mkdb (events sample_db) (resources sample_db) (allocations sample_db ++ rows)
      ∧ List.map allocation_key rows = List.map (pair 4) [1; 2; 3].
Proof.
  assert (Hrun : create_batch_allocations batch_D_repeated sample_db
                 = (BatchAllocated [1; 2; 3], sample_db_D))
    by (vm_compute; reflexivity).
  apply conj; [exact Hrun|].
  exact (batch_allocates_each_requested_id_once batch_D_repeated sample_db sample_db_D
           [1; 2; 3] Hrun).
Defined.

Lemma delete_allocation_spec_witness :
  sqlite_integer 99 ∧ sqlite_integer 2
  ∧ fst (delete_allocation 99 sample_db) = DeleteNotFound "Allocation not found"
  ∧ snd (delete_allocation 99 sample_db) = sample_db
  ∧ fst (delete_allocation 2 sample_db)
    = DeleteDone "Allocation removed successfully"
  ∧ snd (delete_allocation 2 sample_db)
    = mkdb (events sample_db) (resources sample_db)
        [EventResourceAllocation.mk 1 1 1].
Proof.
  assert (R99 : sqlite_integer 99) by (apply sqlite_integer_small; lia).
  assert (R2 : sqlite_integer 2) by (apply sqlite_integer_small; lia).
  destruct (delete_allocation_spec 99 sample_db R99) as (Hreply & _ & Hsame).
  destruct (delete_allocation_spec 2 sample_db R2) as (Hreply2 & Hstate2 & _).
  apply conj; [exact R99|]. apply conj; [exact R2|].
  apply conj; [exact Hreply|]. apply conj; [exact (Hsame Hreply)|].
  apply conj; [exact Hreply2|exact Hstate2].
Defined.

Lemma allocate_then_delete_restores_witness :
  create_allocation allocate_C_to_R sample_db
  = (Allocated (EventResourceAllocation.mk 3 3 1) event_C room_R, sample_db_C)
  ∧ delete_allocation 3 sample_db_C
    = (DeleteDone "Allocation removed successfully", sample_db).
Proof.
  assert (Hrun : create_allocation allocate_C_to_R sample_db
                 = (Allocated (EventResourceAllocation.mk 3 3 1) event_C room_R,
                    sample_db_C)) by (vm_compute; reflexivity).
  apply conj; [exact Hrun|].
  exact (allocate_then_delete_restores allocate_C_to_R sample_db sample_db_C _ _ _ Hrun).
Defined.

Lemma delete_event_cascades_witness :
  fst (Event_query_get 1 sample_db) = Some event_A
  ∧ fst (delete_event 1 sample_db) = DeleteDone "Event deleted successfully"
  ∧ events (snd (delete_event 1 sample_db)) = [event_B; event_C; event_D]
  ∧ allocations (snd (delete_event 1 sample_db)) = [EventResourceAllocation.mk 2 2 2]
  ∧ fst (Event_query_get 1 (snd (delete_event 1 sample_db))) = None
  ∧ delete_event 1 (snd (delete_event 1 sample_db))
    = (DeleteNotFound "Event not found", snd (delete_event 1 sample_db)).
Proof.
  pose proof (delete_event_cascades 1 sample_db event_A eq_refl) as H.
  cbv zeta in H. destruct H as (Hreply & Hev & Hal & _ & Hgone & _ & Hagain).
  apply conj; [reflexivity|]. apply conj; [exact Hreply|].
  apply conj; [exact Hev|]. apply conj; [exact Hal|].
  apply conj; [exact Hgone|exact Hagain].
Defined.



(** [R] has one allocation and is not deleted. *)
Lemma delete_resource_guard_witness :
  fst (Resource_query_get 1 sample_db) = Some room_R
  ∧ delete_resource 1 sample_db
    = (DeleteRefused
         "Cannot delete resource. It has 1 active allocation(s). Remove allocations first.",
       sample_db).
Proof.
  destruct (delete_resource_guard 1 sample_db room_R eq_refl) as [H _].
  apply conj; [reflexivity|exact H].
Defined.

Lemma sample_consistent : consistent sample_db.
Proof.
  apply conj; [exact sample_primary_key_unique|].
  apply conj; [exact sample_unique_event_resource|].
  apply conj; [apply (bool_decide_unpack _); vm_compute; exact I|].
  apply conj.
  { intros a Ha. cbn in Ha.
    destruct Ha as [<-|[<-|[]]];
      [exists event_A|exists event_B]; (apply conj; [cbn; tauto|reflexivity]). }
  apply conj; [exact sample_no_double_booking|].
  apply conj; [apply (bool_decide_unpack _); vm_compute; exact I|].
  apply conj; [apply (bool_decide_unpack _); vm_compute; exact I|].
  intros r Hr. cbn in Hr. destruct Hr as [<-|[<-|[<-|[]]]]; cbn; tauto.
Defined.

Lemma requests_keep_consistency_witness :
  consistent sample_db ∧ consistent (handle_all sample_requests sample_db).
Proof.
  apply conj; [exact sample_consistent|].
  exact (requests_keep_consistency sample_requests sample_db sample_consistent).
Defined.

Lemma sample_event_references_ok : event_references_ok sample_db.
Proof. exact (proj1 (proj2 (proj2 (proj2 sample_consistent)))). Defined.

Lemma sample_holders_well_ordered (r : Z) (ev : Event.t) :
  holds_allocation sample_db r ev → Event.start_time ev < Event.end_time ev.
Proof.
  intros H. apply sample_holds in H as [[_ ->]|[_ ->]]; sample_fact.
Defined.

(** The report on the sample tables is empty. *)
Lemma conflicts_report_witness :
  primary_key_unique sample_db
  ∧ event_references_ok sample_db ∧ event_keys_nonzero sample_db
  ∧ no_double_booking sample_db
  ∧ conflicts_report sample_db = (ReportDone [], sample_db).
Proof.
  destruct (conflicts_report_empty_iff_no_double_booking sample_db
              sample_primary_key_unique) as (Hread & _ & Hempty).
  apply conj; [exact sample_primary_key_unique|].
  apply conj; [exact sample_event_references_ok|].
  apply conj; [exact sample_event_keys_nonzero|].
  apply conj; [exact sample_no_double_booking|].
  pose proof (Hempty sample_event_references_ok sample_event_keys_nonzero
                sample_holders_well_ordered sample_no_double_booking) as Hfst.
  exact (eq_trans (surjective_pairing (conflicts_report sample_db))
           (f_equal2 pair Hfst Hread)).
Defined.

(** [R] is freed from [A] and allocated to [A] again. *)
Lemma sample_event_A_resources_resolve : event_resources_resolve sample_db 1.
Proof.
  intros a [<-|[<-|[]]] E; cbn in E; [|discriminate].
  exists room_R. split; [now left|reflexivity].
Qed.

Lemma allocate_again_after_delete_witness :
  unique_event_resource sample_db ∧ no_double_booking sample_db
  ∧ event_resources_resolve sample_db 1
  ∧ sqlite_integer 1
  ∧ Event.start_time event_A < Event.end_time event_A
  ∧ In (EventResourceAllocation.mk 1 1 1) (allocations sample_db)
  ∧ fst (delete_allocation 1 sample_db) = DeleteDone "Allocation removed successfully"
  ∧ count_allocations (snd (delete_allocation 1 sample_db)) 1 1 = 0%nat
  ∧ event_resources_resolve (snd (delete_allocation 1 sample_db)) 1
  ∧ ∃ row : EventResourceAllocation.t,
      EventResourceAllocation.event_id row = 1
      ∧ EventResourceAllocation.resource_id row = 1
      ∧ ¬ In (EventResourceAllocation.allocation_id row)
             (List.map EventResourceAllocation.allocation_id
                (allocations (snd (delete_allocation 1 sample_db))))
      ∧ create_allocation allocate_A_to_R (snd (delete_allocation 1 sample_db))
        = (Allocated row event_A room_R,
           mkdb (events (snd (delete_allocation 1 sample_db)))
                (resources (snd (delete_allocation 1 sample_db)))
                (allocations (snd (delete_allocation 1 sample_db)) ++ [row])).
Proof.
  assert (H1 : 1 ≠ 0) by lia.
  assert (R1 : sqlite_integer 1) by (apply sqlite_integer_small; lia).
  assert (Hlt : Event.start_time event_A < Event.end_time event_A) by sample_fact.
  assert (Hin : In (EventResourceAllocation.mk 1 1 1) (allocations sample_db))
    by (now left).
  apply conj; [exact sample_unique_event_resource|].
  apply conj; [exact sample_no_double_booking|].
  apply conj; [exact sample_event_A_resources_resolve|].
  apply conj; [exact R1|].
  apply conj; [exact Hlt|]. apply conj; [exact Hin|].
  exact (allocate_again_after_delete sample_db allocate_A_to_R 1 1 event_A room_R
           (EventResourceAllocation.mk 1 1 1)
           sample_unique_event_resource sample_no_double_booking
           sample_event_A_resources_resolve
           eq_refl H1 eq_refl H1 R1 R1 eq_refl eq_refl Hlt Hin R1 eq_refl eq_refl).
Defined.

Lemma allocation_requests_rejected_early_witness :
  create_allocation (AllocationBody.mk (Some 0) (Some 1)) sample_db
  = (MissingFields, sample_db)
  ∧ create_allocation (AllocationBody.mk (Some 9) (Some 8)) sample_db
    = (EventNotFound 9, sample_db)
  ∧ create_allocation (AllocationBody.mk (Some 1) (Some 8)) sample_db
    = (ResourceNotFound 8, sample_db)
  ∧ create_batch_allocations (BatchBody.mk (Some 1) (Some [])) sample_db
    = (MissingFields, sample_db)
  ∧ create_batch_allocations (BatchBody.mk (Some 9) (Some [8])) sample_db
    = (EventNotFound 9, sample_db).
Proof.
  destruct (allocation_requests_rejected_early sample_db)
    as (Hmissing & Hnotfound & Hbmissing & Hbnotfound).
  assert (H9 : 9 ≠ 0) by lia. assert (H8 : 8 ≠ 0) by lia. assert (H1 : 1 ≠ 0) by lia.
  assert (Hne : [8] ≠ ([] : list Z)) by discriminate.
  assert (R9 : sqlite_integer 9) by (apply sqlite_integer_small; lia).
  assert (R8 : sqlite_integer 8) by (apply sqlite_integer_small; lia).
  assert (R1 : sqlite_integer 1) by (apply sqlite_integer_small; lia).
  apply conj.
  { apply Hmissing. right. left. reflexivity. }
  apply conj.
  { exact (proj1 (Hnotfound (AllocationBody.mk (Some 9) (Some 8)) 9 8
                    eq_refl H9 eq_refl H8 R9) eq_refl). }
  apply conj.
  { exact (proj2 (Hnotfound (AllocationBody.mk (Some 1) (Some 8)) 1 8
                    eq_refl H1 eq_refl H8 R1) R8 (ex_intro _ event_A eq_refl)
             eq_refl). }
  apply conj.
  { apply Hbmissing. right. right. right. reflexivity. }
  exact (Hbnotfound (BatchBody.mk (Some 9) (Some [8])) 9 [8]
           eq_refl H9 eq_refl Hne R9 eq_refl).
Defined.
